(** * OCC poll-response decoder of the BMC OCC hwmon driver (occ.c)

    A shallow embedding of [parse_occ_response], [deinit_occ_resp_buf],
    [get_occdata_length], [occ_get_all] and of the temperature accessors
    [show_occ_temp] / [show_occ_temp_label], together with the properties
    of the frame decoder that the driver's specification states.

    Conventions.
    - The raw frame [char *d] is a [list byte]; a read of [d[i]] with [i]
      outside the list is undefined behaviour in C and is a [Fault] here.
    - C integers are [Z]; a store into a [uintN_t] field wraps modulo 2^N.
    - Whether plain [char] is signed is implementation defined; the model
      takes it as the section variable [char_signed] ([false] on the ARM
      targets the driver is built for and under [-funsigned-char]).
    - [kzalloc]/[kfree] act on an abstract heap that records which
      allocations are live; whether a [kzalloc] call succeeds is decided
      by a plan carried in the heap.
    - [printk] appends a message to a log. *)

From Stdlib Require Import Strings.String Strings.Byte.
From Stdlib Require Import ZArith List Bool Lia.
Import ListNotations.
Open Scope Z_scope.

Set Implicit Arguments.

(** ** Outcomes of C code: a value, or undefined behaviour *)

Inductive fault : Type :=
| OobRead (off : Z)      (* d[off] read outside the raw frame *)
| NullDeref              (* access through a NULL pointer *)
| HeapOob (idx : Z).     (* access outside a kzalloc'ed array *)

Inductive res (A : Type) : Type :=
| Ok (a : A)
| Fault (f : fault).

Arguments Ok {A} a.
Arguments Fault {A} f.

(** ** Fixed-width stores *)

Definition u8 (z : Z) : Z := z mod 256.
Definition u16 (z : Z) : Z := z mod 65536.
Definition u32 (z : Z) : Z := z mod 4294967296.

Definition byte_val (c : byte) : Z := Z.of_N (Byte.to_N c).

(** ** The kernel heap *)

Record kheap : Type := mk_kheap {
  live : list nat;            (* identifiers of the live allocations *)
  next_id : nat;              (* identifier of the next allocation *)
  kzalloc_plan : list bool    (* outcome of the coming kzalloc calls:
                                 [false] is a failed call; once the plan
                                 is used up every call succeeds *)
}.

(** A non-NULL pointer to a kzalloc'ed array: the allocation it names and
    the array's elements.  A C pointer is an [option] of it, [None] being
    NULL. *)
Record array (A : Type) : Type := mk_array {
  base : nat;
  elems : list A
}.

Definition ptr (A : Type) : Type := option (array A).

Definition heap_alloc (h : kheap) : option nat * kheap :=
  match kzalloc_plan h with
  | false :: pl => (None, mk_kheap (live h) (next_id h) pl)
  | true :: pl => (Some (next_id h), mk_kheap (next_id h :: live h) (S (next_id h)) pl)
  | [] => (Some (next_id h), mk_kheap (next_id h :: live h) (S (next_id h)) [])
  end.

Definition heap_free (i : nat) (h : kheap) : kheap :=
  mk_kheap (List.remove Nat.eq_dec i (live h)) (next_id h) (kzalloc_plan h).

(** ** OCC sensor data format (the structs of occ.c) *)

Record occ_sensor : Type := mk_occ_sensor {
  sensor_id : Z;   (* uint16_t *)
  value : Z        (* uint16_t *)
}.

Record powr_sensor : Type := mk_powr_sensor {
  powr_sensor_id : Z;   (* uint16_t sensor_id *)
  update_tag : Z;       (* uint32_t *)
  accumulator : Z;      (* uint32_t *)
  powr_value : Z        (* uint16_t value *)
}.

Record sensor_data_block : Type := mk_sensor_data_block {
  sensor_type : list byte;   (* char[5] *)
  reserved0 : Z;
  sensor_format : Z;
  sensor_length : Z;
  num_of_sensors : Z;
  sensor : ptr occ_sensor;
  powr : ptr powr_sensor
}.

Record occ_poll_data : Type := mk_occ_poll_data {
  status : Z;
  ext_status : Z;
  occs_present : Z;
  config : Z;
  occ_state : Z;
  data_reserved0 : Z;
  data_reserved1 : Z;
  error_log_id : Z;
  error_log_addr_start : Z;        (* uint32_t *)
  error_log_length : Z;            (* uint16_t *)
  data_reserved2 : Z;
  data_reserved3 : Z;
  occ_code_level : list byte;      (* char[17] *)
  sensor_eye_catcher : list byte;  (* char[7] *)
  num_of_sensor_blocks : Z;
  sensor_data_version : Z;
  blocks : ptr sensor_data_block
}.

Record occ_response_t : Type := mk_occ_response {
  sequence_num : Z;
  cmd_type : Z;
  rtn_status : Z;
  data_length : Z;                 (* uint16_t *)
  data : occ_poll_data;
  chk_sum : Z;
  temp_block_id : Z;               (* uint16_t *)
  freq_block_id : Z;
  power_block_id : Z
}.

(** All-zero objects: what [kzalloc] and [memset(p, 0, ...)] produce. *)

Definition zero_occ_sensor : occ_sensor := mk_occ_sensor 0 0.
Definition zero_powr_sensor : powr_sensor := mk_powr_sensor 0 0 0 0.

Definition zero_block : sensor_data_block :=
  mk_sensor_data_block (repeat x00 5) 0 0 0 0 None None.

Definition zero_poll_data : occ_poll_data :=
  mk_occ_poll_data 0 0 0 0 0 0 0 0 0 0 0 0 (repeat x00 17) (repeat x00 7) 0 0 None.

Definition zero_response : occ_response_t :=
  mk_occ_response 0 0 0 0 zero_poll_data 0 0 0 0.

(** ** printk *)

Inductive kmsg : Type :=
| msg_sensor_not_found (eye : list byte)  (* "ERROR: SENSOR not found at byte 37 (%s)" *)
| msg_block_num_zero                      (* "ERROR: SENSOR block num is 0" *)
| msg_reading_blocks (n : Z)              (* "Reading %d sensor blocks" *)
| msg_sensor_block (b : Z) (type : list byte) (num len : Z)
| msg_sensor (b s id val : Z)             (* "sensor[%d]-[%d]: id: %u, value: %u" *)
| msg_not_supported (type : list byte)    (* "ERROR: sensor type %s not supported" *)
| msg_using_fake                          (* "i2c-occ: using FAKE occ data" *)
| msg_data_length (n : Z)                 (* "OCC data length: %d" *)
| msg_length_too_big                      (* "ERROR: OCC data length must be < 4KB" *)
| msg_temp_lookup (blk idx : Z)           (* "temp_block_id: %d, sensor: %d" *)
| msg_temp_value (n val : Z)              (* "temp%d sensor value" *)
| msg_temp_id (n val : Z)                 (* "temp%d sensor id" *)
| msg_output_follows.                     (* "--- above are debug message, ..." *)

(** ** Machine state and the monad of driver code *)

Record kstate : Type := mk_kstate {
  resp : occ_response_t;   (* the response object [*o] *)
  heap : kheap;
  klog : list kmsg         (* printk output, oldest first *)
}.

Definition M (A : Type) : Type := kstate -> res (A * kstate).

Definition ret {A} (a : A) : M A := fun st => Ok (a, st).

Definition bind {A B} (m : M A) (f : A -> M B) : M B :=
  fun st => match m st with
            | Ok (a, st') => f a st'
            | Fault e => Fault e
            end.

Definition crash {A} (e : fault) : M A := fun _ => Fault e.

Declare Scope occ_scope.
Delimit Scope occ_scope with occ.
Notation "x <- m ;; k" := (bind m (fun x => k))
  (at level 61, m at next level, right associativity) : occ_scope.
Notation "m ;; k" := (bind m (fun _ => k))
  (at level 61, right associativity) : occ_scope.
Open Scope occ_scope.

Definition get_resp : M occ_response_t := fun st => Ok (resp st, st).

Definition put_resp (o : occ_response_t) : M unit :=
  fun st => Ok (tt, mk_kstate o (heap st) (klog st)).

Definition printk (m : kmsg) : M unit :=
  fun st => Ok (tt, mk_kstate (resp st) (heap st) (klog st ++ [m])).

(** [kzalloc(sizeof(T) * n, GFP_KERNEL)]: NULL, or a fresh array of [n]
    zeroed elements. *)
Definition kzalloc {A} (zero : A) (n : Z) : M (ptr A) :=
  fun st =>
    let (r, h) := heap_alloc (heap st) in
    Ok (match r with
        | Some i => Some (mk_array i (repeat zero (Z.to_nat n)))
        | None => None
        end, mk_kstate (resp st) h (klog st)).

(** [kfree(p)]; [kfree(NULL)] does nothing. *)
Definition kfree {A} (p : ptr A) : M unit :=
  fun st =>
    match p with
    | None => Ok (tt, st)
    | Some a => Ok (tt, mk_kstate (resp st) (heap_free (base a) (heap st)) (klog st))
    end.

(** ** Arrays indexed by a C [int] *)

Definition zth {A} (l : list A) (i : Z) : option A :=
  if i <? 0 then None else nth_error l (Z.to_nat i).

Fixpoint list_set {A} (l : list A) (n : nat) (x : A) : list A :=
  match l, n with
  | [], _ => []
  | _ :: r, O => x :: r
  | y :: r, S n' => y :: list_set r n' x
  end.

Definition zset {A} (l : list A) (i : Z) (x : A) : list A :=
  list_set l (Z.to_nat i) x.

(** ** Field stores *)

Definition with_blocks (p : ptr sensor_data_block) (dt : occ_poll_data) : occ_poll_data :=
  mk_occ_poll_data (status dt) (ext_status dt) (occs_present dt) (config dt)
    (occ_state dt) (data_reserved0 dt) (data_reserved1 dt) (error_log_id dt)
    (error_log_addr_start dt) (error_log_length dt) (data_reserved2 dt)
    (data_reserved3 dt) (occ_code_level dt) (sensor_eye_catcher dt)
    (num_of_sensor_blocks dt) (sensor_data_version dt) p.

Definition with_data (dt : occ_poll_data) (o : occ_response_t) : occ_response_t :=
  mk_occ_response (sequence_num o) (cmd_type o) (rtn_status o) (data_length o)
    dt (chk_sum o) (temp_block_id o) (freq_block_id o) (power_block_id o).

Definition with_temp_block_id (v : Z) (o : occ_response_t) : occ_response_t :=
  mk_occ_response (sequence_num o) (cmd_type o) (rtn_status o) (data_length o)
    (data o) (chk_sum o) v (freq_block_id o) (power_block_id o).

Definition with_freq_block_id (v : Z) (o : occ_response_t) : occ_response_t :=
  mk_occ_response (sequence_num o) (cmd_type o) (rtn_status o) (data_length o)
    (data o) (chk_sum o) (temp_block_id o) v (power_block_id o).

Definition with_power_block_id (v : Z) (o : occ_response_t) : occ_response_t :=
  mk_occ_response (sequence_num o) (cmd_type o) (rtn_status o) (data_length o)
    (data o) (chk_sum o) (temp_block_id o) (freq_block_id o) v.

Definition with_sensor (p : ptr occ_sensor) (k : sensor_data_block) : sensor_data_block :=
  mk_sensor_data_block (sensor_type k) (reserved0 k) (sensor_format k)
    (sensor_length k) (num_of_sensors k) p (powr k).

Definition with_powr (p : ptr powr_sensor) (k : sensor_data_block) : sensor_data_block :=
  mk_sensor_data_block (sensor_type k) (reserved0 k) (sensor_format k)
    (sensor_length k) (num_of_sensors k) (sensor k) p.

(** ** Access to [o->data.blocks[b]], [.sensor[s]] and [.powr[s]] *)

Definition get_blocks : M (array sensor_data_block) :=
  fun st => match blocks (data (resp st)) with
            | Some a => Ok (a, st)
            | None => Fault NullDeref
            end.

Definition get_block (b : Z) : M sensor_data_block :=
  a <- get_blocks;;
  match zth (elems a) b with
  | Some k => ret k
  | None => crash (HeapOob b)
  end.

Definition set_block (b : Z) (k : sensor_data_block) : M unit :=
  a <- get_blocks;;
  match zth (elems a) b with
  | Some _ =>
      o <- get_resp;;
      put_resp (with_data (with_blocks (Some (mk_array (base a) (zset (elems a) b k))) (data o)) o)
  | None => crash (HeapOob b)
  end.

Definition elem_at {A} (p : ptr A) (s : Z) : M A :=
  match p with
  | None => crash NullDeref
  | Some a => match zth (elems a) s with
              | Some x => ret x
              | None => crash (HeapOob s)
              end
  end.

Definition get_sensor (b s : Z) : M occ_sensor :=
  k <- get_block b;; elem_at (sensor k) s.

Definition get_powr (b s : Z) : M powr_sensor :=
  k <- get_block b;; elem_at (powr k) s.

(** [o->data.blocks[b].sensor[s].<field> = ...], as an update [f] of the
    element. *)
Definition store_sensor (b s : Z) (f : occ_sensor -> occ_sensor) : M unit :=
  k <- get_block b;;
  x <- elem_at (sensor k) s;;
  match sensor k with
  | Some a => set_block b (with_sensor (Some (mk_array (base a) (zset (elems a) s (f x)))) k)
  | None => crash NullDeref
  end.

Definition store_powr (b s : Z) (f : powr_sensor -> powr_sensor) : M unit :=
  k <- get_block b;;
  x <- elem_at (powr k) s;;
  match powr k with
  | Some a => set_block b (with_powr (Some (mk_array (base a) (zset (elems a) s (f x)))) k)
  | None => crash NullDeref
  end.

(** ** C strings *)

(** The string held by a char array: the bytes before the first NUL. *)
Fixpoint cstring (a : list byte) : list byte :=
  match a with
  | [] => []
  | c :: r => if Byte.eqb c x00 then [] else c :: cstring r
  end.

Fixpoint bytes_eqb (a b : list byte) : bool :=
  match a, b with
  | [], [] => true
  | x :: a', y :: b' => Byte.eqb x y && bytes_eqb a' b'
  | _, _ => false
  end.

(** [strcmp(a, lit) == 0] for a NUL-terminated array [a] and a literal. *)
Definition strcmp_eq (a : list byte) (lit : string) : bool :=
  bytes_eqb (cstring a) (list_byte_of_string lit).

Arguments strcmp_eq a lit%_string.

Definition OCC_DATA_MAX : Z := 4096.
Definition ENOMEM : Z := 12.

(** Where the block loop goes after one iteration: on to the next block
    with the cursor [dnum], or to the [abort] label with [ret] set. *)
Inductive ctl : Type :=
| Next (dnum : Z)
| Abort (r : Z).

(** ** The driver code *)

Section Driver.

(** Whether plain [char] is a signed type on the target. *)
Variable char_signed : bool.

(** The value of a [char] object holding byte [c], promoted to [int]. *)
Definition char_to_int (c : byte) : Z :=
  if char_signed && (128 <=? byte_val c) then byte_val c - 256 else byte_val c.

(** [d[i]]. *)
Definition rd (d : list byte) (i : Z) : M Z :=
  fun st => match zth d i with
            | Some c => Ok (char_to_int c, st)
            | None => Fault (OobRead i)
            end.

(** The [n] bytes that [strncpy(dst, &d[off], n)] writes to [dst]: the
    bytes of [d] from [off] up to a NUL, then NUL padding.  Nothing after
    the first NUL is read. *)
Fixpoint strncpy (d : list byte) (off : Z) (n : nat) : M (list byte) :=
  match n with
  | O => ret []
  | S n' =>
      fun st =>
        match zth d off with
        | None => Fault (OobRead off)
        | Some c =>
            if Byte.eqb c x00 then Ok (repeat x00 n, st)
            else (r <- strncpy d (off + 1) n';; ret (c :: r)) st
        end
  end.

(** *** deinit_occ_resp_buf (lines 123-145) *)

Fixpoint deinit_blocks (fuel : nat) (b : Z) : M unit :=
  match fuel with
  | O => ret tt
  | S fuel' =>
      k <- get_block b;;
      (* if (!p->data.blocks[b].sensor) kfree(p->data.blocks[b].sensor); *)
      (match sensor k with
       | None => kfree (sensor k)
       | Some _ => ret tt
       end);;
      k <- get_block b;;
      (* if (!p->data.blocks[b].powr) kfree(p->data.blocks[b].powr); *)
      (match powr k with
       | None => kfree (powr k)
       | Some _ => ret tt
       end);;
      deinit_blocks fuel' (b + 1)
  end.

(** The argument [p] is always the address of the static response, so
    the [p == NULL] exit is never taken. *)
Definition deinit_occ_resp_buf : M Z :=
  o <- get_resp;;
  match blocks (data o) with
  | None => ret 0
  | Some a =>
      deinit_blocks (Z.to_nat (num_of_sensor_blocks (data o))) 0;;
      kfree (Some a);;
      put_resp zero_response;;      (* memset(p, 0, sizeof( *p)) *)
      ret 0
  end.

(** *** get_occdata_length (lines 260-267) *)

Definition get_occdata_length (d : list byte) : M Z :=
  c3 <- rd d 3;;
  let data_length := u16 (Z.shiftl c3 8) in
  c4 <- rd d 4;;
  let data_length := u16 (Z.lor data_length c4) in
  ret data_length.

(** *** parse_occ_response (lines 270-422) *)

(** The FREQ and the TEMP branch run the same record loop (lines 347-356
    and 369-378).  [n] counts the iterations left, [s] is the record
    index, [dnum] the cursor; the result is the cursor after the loop. *)
Fixpoint read_sensors (d : list byte) (b : Z) (n : nat) (s dnum : Z) : M Z :=
  match n with
  | O => ret dnum
  | S n' =>
      c <- rd d dnum;;
      store_sensor b s (fun x => mk_occ_sensor (u16 (Z.shiftl c 8)) (value x));;
      c <- rd d (dnum + 1);;
      store_sensor b s (fun x => mk_occ_sensor (u16 (Z.lor (sensor_id x) c)) (value x));;
      c <- rd d (dnum + 2);;
      store_sensor b s (fun x => mk_occ_sensor (sensor_id x) (u16 (Z.shiftl c 8)));;
      c <- rd d (dnum + 3);;
      store_sensor b s (fun x => mk_occ_sensor (sensor_id x) (u16 (Z.lor (value x) c)));;
      x <- get_sensor b s;;
      printk (msg_sensor b s (sensor_id x) (value x));;
      k <- get_block b;;
      read_sensors d b n' (s + 1) (dnum + sensor_length k)
  end.

(** The record loop of the POWR branch (lines 389-407).  Its printk reads
    [blocks[b].sensor[s]], not [blocks[b].powr[s]]. *)
Fixpoint read_powr (d : list byte) (b : Z) (n : nat) (s dnum : Z) : M Z :=
  match n with
  | O => ret dnum
  | S n' =>
      c <- rd d dnum;;
      store_powr b s (fun x => mk_powr_sensor (u16 (Z.shiftl c 8))
                                 (update_tag x) (accumulator x) (powr_value x));;
      c <- rd d (dnum + 1);;
      store_powr b s (fun x => mk_powr_sensor (u16 (Z.lor (powr_sensor_id x) c))
                                 (update_tag x) (accumulator x) (powr_value x));;
      c <- rd d (dnum + 2);;
      store_powr b s (fun x => mk_powr_sensor (powr_sensor_id x)
                                 (u32 (Z.shiftl c 24)) (accumulator x) (powr_value x));;
      c <- rd d (dnum + 3);;
      store_powr b s (fun x => mk_powr_sensor (powr_sensor_id x)
                                 (u32 (Z.lor (update_tag x) (Z.shiftl c 16)))
                                 (accumulator x) (powr_value x));;
      c <- rd d (dnum + 4);;
      store_powr b s (fun x => mk_powr_sensor (powr_sensor_id x)
                                 (u32 (Z.lor (update_tag x) (Z.shiftl c 8)))
                                 (accumulator x) (powr_value x));;
      c <- rd d (dnum + 5);;
      store_powr b s (fun x => mk_powr_sensor (powr_sensor_id x)
                                 (u32 (Z.lor (update_tag x) c))
                                 (accumulator x) (powr_value x));;
      c <- rd d (dnum + 6);;
      store_powr b s (fun x => mk_powr_sensor (powr_sensor_id x) (update_tag x)
                                 (u32 (Z.shiftl c 24)) (powr_value x));;
      c <- rd d (dnum + 7);;
      store_powr b s (fun x => mk_powr_sensor (powr_sensor_id x) (update_tag x)
                                 (u32 (Z.lor (accumulator x) (Z.shiftl c 16)))
                                 (powr_value x));;
      c <- rd d (dnum + 8);;
      store_powr b s (fun x => mk_powr_sensor (powr_sensor_id x) (update_tag x)
                                 (u32 (Z.lor (accumulator x) (Z.shiftl c 8)))
                                 (powr_value x));;
      c <- rd d (dnum + 9);;
      store_powr b s (fun x => mk_powr_sensor (powr_sensor_id x) (update_tag x)
                                 (u32 (Z.lor (accumulator x) c)) (powr_value x));;
      c <- rd d (dnum + 10);;
      store_powr b s (fun x => mk_powr_sensor (powr_sensor_id x) (update_tag x)
                                 (accumulator x) (u16 (Z.shiftl c 8)));;
      c <- rd d (dnum + 11);;
      store_powr b s (fun x => mk_powr_sensor (powr_sensor_id x) (update_tag x)
                                 (accumulator x) (u16 (Z.lor (powr_value x) c)));;
      x <- get_sensor b s;;
      printk (msg_sensor b s (sensor_id x) (value x));;
      k <- get_block b;;
      read_powr d b n' (s + 1) (dnum + sensor_length k)
  end.

Definition with_descriptor (t : list byte) (r f l n : Z) (k : sensor_data_block)
  : sensor_data_block :=
  mk_sensor_data_block t r f l n (sensor k) (powr k).

Definition store_block (b : Z) (f : sensor_data_block -> sensor_data_block) : M unit :=
  k <- get_block b;; set_block b (f k).

(** One iteration of the block loop (lines 320-415), entered with block
    index [b] and cursor [dnum], in two parts: the 8-byte block head
    (lines 321-325), and the rest of the loop body (lines 328-415), which
    runs with the cursor behind the head. *)
Definition read_block_head (d : list byte) (b dnum : Z) : M unit :=
  t <- strncpy d dnum 4;;
  store_block b (fun k => with_descriptor (t ++ skipn 4 (sensor_type k)) (reserved0 k)
                            (sensor_format k) (sensor_length k) (num_of_sensors k) k);;
  c <- rd d (dnum + 4);;
  store_block b (fun k => with_descriptor (sensor_type k) (u8 c)
                            (sensor_format k) (sensor_length k) (num_of_sensors k) k);;
  c <- rd d (dnum + 5);;
  store_block b (fun k => with_descriptor (sensor_type k) (reserved0 k)
                            (u8 c) (sensor_length k) (num_of_sensors k) k);;
  c <- rd d (dnum + 6);;
  store_block b (fun k => with_descriptor (sensor_type k) (reserved0 k)
                            (sensor_format k) (u8 c) (num_of_sensors k) k);;
  c <- rd d (dnum + 7);;
  store_block b (fun k => with_descriptor (sensor_type k) (reserved0 k)
                            (sensor_format k) (sensor_length k) (u8 c) k).

Definition dispatch_block (d : list byte) (b dnum : Z) : M ctl :=
  k <- get_block b;;
  printk (msg_sensor_block b (sensor_type k) (num_of_sensors k) (sensor_length k));;
  (* empty sensor block *)
  if num_of_sensors k <=? 0 then ret (Next dnum)
  else if sensor_length k =? 0 then ret (Next dnum)
  else if strcmp_eq (sensor_type k) "FREQ" then
    p <- kzalloc zero_occ_sensor (num_of_sensors k);;
    store_block b (with_sensor p);;
    k <- get_block b;;
    match sensor k with
    | None => ret (Abort (- ENOMEM))
    | Some _ =>
        o <- get_resp;;
        put_resp (with_freq_block_id (u16 b) o);;
        k <- get_block b;;
        dnum <- read_sensors d b (Z.to_nat (num_of_sensors k)) 0 dnum;;
        ret (Next dnum)
    end
  else if strcmp_eq (sensor_type k) "TEMP" then
    p <- kzalloc zero_occ_sensor (num_of_sensors k);;
    store_block b (with_sensor p);;
    k <- get_block b;;
    match sensor k with
    | None => ret (Abort (- ENOMEM))
    | Some _ =>
        o <- get_resp;;
        put_resp (with_temp_block_id (u16 b) o);;
        k <- get_block b;;
        dnum <- read_sensors d b (Z.to_nat (num_of_sensors k)) 0 dnum;;
        ret (Next dnum)
    end
  else if strcmp_eq (sensor_type k) "POWR" then
    p <- kzalloc zero_powr_sensor (num_of_sensors k);;
    store_block b (with_powr p);;
    k <- get_block b;;
    match powr k with
    | None => ret (Abort (- ENOMEM))
    | Some _ =>
        o <- get_resp;;
        put_resp (with_power_block_id (u16 b) o);;
        k <- get_block b;;
        dnum <- read_powr d b (Z.to_nat (num_of_sensors k)) 0 dnum;;
        ret (Next dnum)
    end
  else
    printk (msg_not_supported (sensor_type k));;
    ret (Next dnum).    (* continue; the cursor stays behind the head *)

Definition parse_block (d : list byte) (b dnum : Z) : M ctl :=
  read_block_head d b dnum;;
  dispatch_block d b (dnum + 8).

(** The block loop (line 319) with [fuel] iterations left, and what
    follows it: [return ret] with [ret = 0], or the [abort] label. *)
Fixpoint parse_blocks (d : list byte) (fuel : nat) (b dnum : Z) : M Z :=
  match fuel with
  | O => ret 0
  | S fuel' =>
      c <- parse_block d b dnum;;
      match c with
      | Next dnum' => parse_blocks d fuel' (b + 1) dnum'
      | Abort r => deinit_occ_resp_buf;; ret r
      end
  end.

(** Lines 277-302: the fixed header.  The bytes are read in the order of
    the source; the stores go to fields of [*o], which the raw frame does
    not overlap, and are gathered in one record.  [blocks], [chk_sum] and
    the three block ids are not written here. *)
Definition parse_header (d : list byte) : M unit :=
  c0 <- rd d 0;; c1 <- rd d 1;; c2 <- rd d 2;; c3 <- rd d 3;; c4 <- rd d 4;;
  c5 <- rd d 5;; c6 <- rd d 6;; c7 <- rd d 7;; c8 <- rd d 8;; c9 <- rd d 9;;
  c10 <- rd d 10;; c11 <- rd d 11;; c12 <- rd d 12;; c13 <- rd d 13;;
  c14 <- rd d 14;; c15 <- rd d 15;; c16 <- rd d 16;; c17 <- rd d 17;;
  c18 <- rd d 18;; c19 <- rd d 19;; c20 <- rd d 20;;
  lvl <- strncpy d 21 16;;
  eye <- strncpy d 37 6;;
  c43 <- rd d 43;; c44 <- rd d 44;;
  o <- get_resp;;
  put_resp
    (mk_occ_response
       (u8 c0)                                   (* sequence_num *)
       (u8 c1)                                   (* cmd_type *)
       (u8 c2)                                   (* rtn_status *)
       (u16 (Z.lor (u16 (Z.shiftl c3 8)) c4))    (* data_length *)
       (mk_occ_poll_data
          (u8 c5) (u8 c6) (u8 c7) (u8 c8) (u8 c9) (u8 c10) (u8 c11) (u8 c12)
          (u32 (Z.lor (u32 (Z.lor (u32 (Z.lor (u32 (Z.shiftl c13 24))
                                              (Z.shiftl c14 16)))
                                  (Z.shiftl c15 8)))
                      c16))                      (* error_log_addr_start *)
          (u16 (Z.lor (u16 (Z.shiftl c17 8)) c18))  (* error_log_length *)
          (u8 c19) (u8 c20)
          (lvl ++ skipn 16 (occ_code_level (data o)))
          (eye ++ [x00])                         (* sensor_eye_catcher[6]='\0' *)
          (u8 c43)                               (* num_of_sensor_blocks *)
          (u8 c44)                               (* sensor_data_version *)
          (blocks (data o)))
       (chk_sum o) (temp_block_id o) (freq_block_id o) (power_block_id o)).

Definition parse_occ_response (d : list byte) : M Z :=
  parse_header d;;
  o <- get_resp;;
  if negb (strcmp_eq (sensor_eye_catcher (data o)) "SENSOR") then
    printk (msg_sensor_not_found (cstring (sensor_eye_catcher (data o))));;
    ret (-1)
  else if num_of_sensor_blocks (data o) =? 0 then
    printk msg_block_num_zero;;
    ret (-1)
  else
    p <- kzalloc zero_block (num_of_sensor_blocks (data o));;
    o <- get_resp;;
    put_resp (with_data (with_blocks p (data o)) o);;
    match p with
    | None => ret (- ENOMEM)
    | Some _ =>
        o <- get_resp;;
        printk (msg_reading_blocks (num_of_sensor_blocks (data o)));;
        parse_blocks d (Z.to_nat (num_of_sensor_blocks (data o))) 0 45
    end.

(** *** occ_get_all (lines 437-475)

    [rsp] is the array both [memcpy] calls copy into [occ_data]; the
    driver passes [fake_occ_rsp].  The i2c transfers only write bytes of
    [occ_data] that the [memcpy] calls overwrite and are left out. *)
Definition occ_get_all_from (rsp : list byte) : M Z :=
  printk msg_using_fake;;
  num_bytes <- get_occdata_length rsp;;
  printk (msg_data_length num_bytes);;
  if num_bytes >? OCC_DATA_MAX then
    printk msg_length_too_big;;
    ret (-1)
  else
    parse_occ_response rsp.

(** *** occ_update_device (lines 478-500)

    [stale] is the value of
    [time_after(jiffies, last_updated + sample_time) || !valid]. *)
Definition occ_update_device_from (rsp : list byte) (stale : bool) : M Z :=
  if stale then
    deinit_occ_resp_buf;;
    occ_get_all_from rsp
  else ret 0.

(** *** show_occ_temp and show_occ_temp_label (lines 600-651)

    [n] is the attribute index; the result of [occ_update_device] is
    dropped by the empty statement after [if (ret != 0)].  The result
    here is the number that [sprintf] prints into [buf]. *)
Definition temp_sensor (n : Z) : M occ_sensor :=
  o <- get_resp;;
  k <- get_block (temp_block_id o);;
  elem_at (sensor k) (n - 1).

Definition show_occ_temp_from (rsp : list byte) (stale : bool) (n : Z) : M Z :=
  occ_update_device_from rsp stale;;
  o <- get_resp;;
  printk (msg_temp_lookup (temp_block_id o) (n - 1));;
  x <- temp_sensor n;;
  let val := value x in
  printk (msg_temp_value n val);;
  printk msg_output_follows;;
  ret val.

Definition show_occ_temp_label_from (rsp : list byte) (stale : bool) (n : Z) : M Z :=
  occ_update_device_from rsp stale;;
  x <- temp_sensor n;;
  let val := sensor_id x in
  printk (msg_temp_id n val);;
  printk msg_output_follows;;
  ret val.

End Driver.

(** ** The sample frame (lines 424-435)

    [char fake_occ_rsp[OCC_DATA_MAX]]: the listed bytes, then zeros. *)

Definition fake_occ_rsp_init : list byte :=
  [x69; x00; x00; x00; xa4; xc3; x00; x03; x00; x01; x00; x00; x00; x00; x00; x00;
   x00; x00; x00; x00; x00; x6f; x70; x5f; x6f; x63; x63; x5f; x31; x35; x30; x37;
   x31; x36; x61; x00; x00; x53; x45; x4e; x53; x4f; x52; x04; x01; x54; x45; x4d;
   x50; x00; x01; x04; x0a; x00; x6a; x00; x00; x00; x6c; x00; x00; x00; x6d; x00;
   x00; x00; x6e; x00; x00; x00; x6f; x00; x00; x00; x70; x00; x00; x00; x71; x00;
   x00; x00; x73; x00; x00; x00; x74; x00; x00; x00; x75; x00; x00; x46; x52; x45;
   x51; x00; x01; x04; x0a; x00; x76; x00; x00; x00; x78; x00; x00; x00; x79; x00;
   x00; x00; x7a; x00; x00; x00; x7b; x00; x00; x00; x7c; x00; x00; x00; x7d; x00;
   x00; x00; x7f; x00; x00; x00; x80; x00; x00; x00; x81; x00; x00; x50; x4f; x57;
   x52; x00; x01; x0c; x00; x43; x41; x50; x53; x00; x01; x0c; x01; x00; x00; x00;
   x00; x04; xb0; x09; x60; x04; x4c; x00; x00; x17; xc5].

Definition fake_occ_rsp : list byte :=
  fake_occ_rsp_init ++ repeat x00 (Z.to_nat OCC_DATA_MAX - length fake_occ_rsp_init).

Definition occ_get_all (char_signed : bool) : M Z :=
  occ_get_all_from char_signed fake_occ_rsp.

Definition show_occ_temp (char_signed : bool) (stale : bool) (n : Z) : M Z :=
  show_occ_temp_from char_signed fake_occ_rsp stale n.

Definition show_occ_temp_label (char_signed : bool) (stale : bool) (n : Z) : M Z :=
  show_occ_temp_label_from char_signed fake_occ_rsp stale n.

(** The state of a freshly loaded driver: the static response is zeroed,
    nothing is allocated. *)
Definition init_state (plan : list bool) : kstate :=
  mk_kstate zero_response (mk_kheap [] 0 plan) [].

(** ** Test frames *)

(** A 4096-byte frame: the first 43 bytes of the sample frame (header
    fields and the marker), a block count, data version 1, the given
    block structures, and zeros up to [OCC_DATA_MAX]. *)
Definition frame_of (count : byte) (body : list byte) : list byte :=
  let f := firstn 43 fake_occ_rsp_init ++ [count; x01] ++ body in
  f ++ repeat x00 (Z.to_nat OCC_DATA_MAX - length f).

(** A block "FOOX" with one 4-byte record, then a TEMP block with one
    record (id 0x006a, value 0x002a). *)
Definition foox_frame : list byte :=
  frame_of x02
    ([x46; x4f; x4f; x58; x00; x01; x04; x01] ++ [x00; x01; x00; x02]
     ++ [x54; x45; x4d; x50; x00; x01; x04; x01] ++ [x00; x6a; x00; x2a]).

(** One TEMP block with one record. *)
Definition one_temp_frame : list byte :=
  frame_of x01 ([x54; x45; x4d; x50; x00; x01; x04; x01] ++ [x00; x6a; x00; x2a]).

(** One POWR block with one 12-byte record. *)
Definition powr_frame : list byte :=
  frame_of x01
    ([x50; x4f; x57; x52; x00; x01; x0c; x01]
     ++ [x00; x07; x00; x00; x00; x01; x00; x00; x00; x02; x00; x03]).

(** A TEMP block of one record at stride 6, a FREQ block declaring no
    record, and a second TEMP block of two records. *)
Definition sandwich_frame : list byte :=
  frame_of x03
    ([x54; x45; x4d; x50; x00; x01; x06; x01] ++ [x00; x6a; x00; x2a; xee; xee]
     ++ [x46; x52; x45; x51; x00; x01; x04; x00]
     ++ [x54; x45; x4d; x50; x00; x01; x04; x02]
     ++ [x00; x6c; x00; x2b; x00; x6d; x00; x2c]).

(** One TEMP block declaring 255 records at stride 255: its records
    would end at offset 53 + 65025, far behind the 4096-byte buffer. *)
Definition overlong_frame : list byte :=
  frame_of x01 [x54; x45; x4d; x50; x00; x01; xff; xff].

(** The sample frame with the record count of its POWR block (byte 148)
    set to 1. *)
Definition sample_with_power_record : list byte :=
  firstn 148 fake_occ_rsp ++ x01 :: skipn 149 fake_occ_rsp.

(** The state after decoding [one_temp_frame] in a fresh driver. *)
Definition one_temp_state : kstate :=
  match parse_occ_response false one_temp_frame (init_state []) with
  | Ok (_, st) => st
  | Fault _ => init_state []
  end.

(** The state after decoding the sample frame in a fresh driver. *)
Definition sample_state : kstate :=
  match parse_occ_response false fake_occ_rsp (init_state []) with
  | Ok (_, st) => st
  | Fault _ => init_state []
  end.

(** The sample frame with the last marker byte changed ("SENSOX"). *)
Definition bad_marker_frame : list byte :=
  firstn 42 fake_occ_rsp ++ x58 :: skipn 43 fake_occ_rsp.

(** The sample frame with byte 3 set to 0x20: it declares 0x20a4 = 8356
    bytes of data. *)
Definition long_frame : list byte :=
  firstn 3 fake_occ_rsp ++ x20 :: skipn 4 fake_occ_rsp.

(** The state after decoding the sample frame when the third [kzalloc]
    call (the record array of the FREQ block) fails. *)
Definition enomem_state : kstate :=
  match parse_occ_response false fake_occ_rsp (init_state [true; true; false]) with
  | Ok (_, st) => st
  | Fault _ => init_state []
  end.

(** ** Vocabulary of the statements *)

(** [st] with [l] as its log. *)
Definition with_log (l : list kmsg) (st : kstate) : kstate :=
  mk_kstate (resp st) (heap st) l.

Definition len (d : list byte) : Z := Z.of_nat (length d).

(** The byte of the frame at offset [i] ([x00] outside of it). *)
Definition byte_at (d : list byte) (i : Z) : byte := nth (Z.to_nat i) d x00.

(** The [n] bytes of the frame from offset [off] on. *)
Definition window (d : list byte) (off : Z) (n : nat) : list byte :=
  firstn n (skipn (Z.to_nat off) d).

(** What [strncpy] makes of [n] source bytes. *)
Fixpoint strncpy_bytes (src : list byte) (n : nat) : list byte :=
  match n, src with
  | O, _ => []
  | S n', c :: r => if Byte.eqb c x00 then repeat x00 n else c :: strncpy_bytes r n'
  | S _, [] => repeat x00 n
  end.

(** The big-endian unsigned number held by two, respectively four, bytes
    of the frame. *)
Definition be16 (d : list byte) (off : Z) : Z :=
  256 * byte_val (byte_at d off) + byte_val (byte_at d (off + 1)).

Definition be32 (d : list byte) (off : Z) : Z :=
  16777216 * byte_val (byte_at d off) + 65536 * byte_val (byte_at d (off + 1))
  + 256 * byte_val (byte_at d (off + 2)) + byte_val (byte_at d (off + 3)).

(** The fields of the block descriptor at offset [dnum]. *)
Definition desc_tag (d : list byte) (dnum : Z) : list byte := window d dnum 4.
Definition desc_stride (d : list byte) (dnum : Z) : Z := byte_val (byte_at d (dnum + 6)).
Definition desc_count (d : list byte) (dnum : Z) : Z := byte_val (byte_at d (dnum + 7)).

Definition tag_is (d : list byte) (dnum : Z) (lit : string) : bool :=
  bytes_eqb (desc_tag d dnum) (list_byte_of_string lit).

Arguments tag_is d dnum lit%_string.

(** The block of a response at a block index, and the blocks that the
    three block ids name. *)
Definition block_of (o : occ_response_t) (id : Z) : option sensor_data_block :=
  match blocks (data o) with
  | Some a => zth (elems a) id
  | None => None
  end.

Definition temperature_block (o : occ_response_t) : option sensor_data_block :=
  block_of o (temp_block_id o).

Definition power_block (o : occ_response_t) : option sensor_data_block :=
  block_of o (power_block_id o).

(** The records a block holds: those of its [sensor] array, and those of
    its [powr] array. *)
Definition sensors_of (k : sensor_data_block) : list occ_sensor :=
  match sensor k with Some a => elems a | None => [] end.

Definition powrs_of (k : sensor_data_block) : list powr_sensor :=
  match powr k with Some a => elems a | None => [] end.

(** Tag, stride, declared record count and number of decoded records. *)
Definition block_shape (k : sensor_data_block) : list byte * Z * Z * nat * nat :=
  (cstring (sensor_type k), sensor_length k, num_of_sensors k,
   length (sensors_of k), length (powrs_of k)).

Definition shapes_of (o : occ_response_t) : list (list byte * Z * Z * nat * nat) :=
  match blocks (data o) with
  | Some a => map block_shape (elems a)
  | None => []
  end.

(** The description of the sample frame as three blocks with a power
    block of one record. *)
Definition sample_frame_as_described (cs : bool) : Prop :=
  exists st',
    parse_occ_response cs fake_occ_rsp (init_state []) = Ok (0, st')
    /\ num_of_sensor_blocks (data (resp st')) = 3
    /\ temp_block_id (resp st') = 0
    /\ (exists k, temperature_block (resp st') = Some k
                  /\ length (sensors_of k) = 10%nat
                  /\ option_map sensor_id (hd_error (sensors_of k)) = Some 106)
    /\ (exists k, power_block (resp st') = Some k /\ length (powrs_of k) = 1%nat).

(** [st] with block [b] of the block array replaced by [k]. *)
Definition put_block (b : Z) (k : sensor_data_block) (st : kstate) : kstate :=
  match blocks (data (resp st)) with
  | Some a =>
      mk_kstate
        (with_data (with_blocks (Some (mk_array (base a) (zset (elems a) b k)))
                      (data (resp st))) (resp st))
        (heap st) (klog st)
  | None => st
  end.

(** The block that [read_block_head] makes of block [k0] from the
    descriptor at offset [dnum]. *)
Definition head_block (d : list byte) (dnum : Z) (k0 : sensor_data_block)
  : sensor_data_block :=
  with_descriptor (strncpy_bytes (window d dnum 4) 4 ++ skipn 4 (sensor_type k0))
    (byte_val (byte_at d (dnum + 4))) (byte_val (byte_at d (dnum + 5)))
    (desc_stride d dnum) (desc_count d dnum) k0.

(** The record that the FREQ/TEMP loop stores from the four bytes at
    [off], and the one the POWR loop stores from the twelve bytes at
    [off]. *)
Definition value_record (cs : bool) (d : list byte) (off : Z) : occ_sensor :=
  let c i := char_to_int cs (byte_at d (off + i)) in
  mk_occ_sensor (u16 (Z.lor (u16 (Z.shiftl (c 0) 8)) (c 1)))
                (u16 (Z.lor (u16 (Z.shiftl (c 2) 8)) (c 3))).

Definition power_record (cs : bool) (d : list byte) (off : Z) : powr_sensor :=
  let c i := char_to_int cs (byte_at d (off + i)) in
  mk_powr_sensor
    (u16 (Z.lor (u16 (Z.shiftl (c 0) 8)) (c 1)))
    (u32 (Z.lor (u32 (Z.lor (u32 (Z.lor (u32 (Z.shiftl (c 2) 24)) (Z.shiftl (c 3) 16)))
                            (Z.shiftl (c 4) 8))) (c 5)))
    (u32 (Z.lor (u32 (Z.lor (u32 (Z.lor (u32 (Z.shiftl (c 6) 24)) (Z.shiftl (c 7) 16)))
                            (Z.shiftl (c 8) 8))) (c 9)))
    (u16 (Z.lor (u16 (Z.shiftl (c 10) 8)) (c 11))).

(** [wpx F m Q st]: run from [st], [m] ends in a result and a state that
    satisfy [Q], or in a fault that satisfies [F]. *)
Definition wpx {A} (F : fault -> Prop) (m : M A) (Q : A -> kstate -> Prop)
           (st : kstate) : Prop :=
  match m st with
  | Ok (a, st') => Q a st'
  | Fault e => F e
  end.

(** [m] keeps the state property [J], unless it faults. *)
Definition pres (J : kstate -> Prop) {A} (m : M A) : Prop :=
  forall st, J st -> wpx (fun _ => True) m (fun _ st' => J st') st.

(** A state property that no step of the loop body on block [b] can
    break: it does not depend on the log, on the heap or on the fields of
    the response outside [data], and it survives a store to block [b]. *)
Record stable (J : kstate -> Prop) (b : Z) : Prop := mk_stable {
  stable_env : forall st o h l, data o = data (resp st) -> J st -> J (mk_kstate o h l);
  stable_put : forall st k k', block_of (resp st) b = Some k -> J st -> J (put_block b k' st)
}.

(** The state of the block array while the block loop runs on block [b]:
    it is the allocation [id], it has [n] blocks, [n] is the block count
    of the header, and the blocks from index [b] on are as [kzalloc]
    left them. *)
Definition blocks_inv (id : nat) (n b : Z) (st : kstate) : Prop :=
  exists l,
    blocks (data (resp st)) = Some (mk_array id l)
    /\ Z.of_nat (length l) = n
    /\ num_of_sensor_blocks (data (resp st)) = n
    /\ forall j, b <= j < n -> zth l j = Some zero_block.

(** A loop body that leaves for the abort label has set [ret] to
    -ENOMEM. *)
Definition abort_enomem (c : ctl) : Prop :=
  match c with
  | Abort r => r = - ENOMEM
  | Next _ => True
  end.

(** [valp P m]: whatever [m] returns satisfies [P]. *)
Definition valp {A} (P : A -> Prop) (m : M A) : Prop :=
  forall st, wpx (fun _ => True) m (fun a _ => P a) st.

(** The states in which [parse_occ_response cs d], started in [st0],
    enters the body of the block loop: [reaches cs d st0 b dnum st] says
    that the loop body is entered for block [b] with cursor [dnum] in
    state [st].  The first entry follows a good header, with the marker
    present, a non-zero block count and a successful allocation of the
    block array; a further entry follows a loop body that ended without
    [goto abort], when another block is left. *)
Inductive reaches (cs : bool) (d : list byte) (st0 : kstate)
  : Z -> Z -> kstate -> Prop :=
| reaches_first (sth : kstate) (i : nat) (h' : kheap) :
    45 <= len d ->
    parse_header cs d st0 = Ok (tt, sth) ->
    strcmp_eq (sensor_eye_catcher (data (resp sth))) "SENSOR" = true ->
    num_of_sensor_blocks (data (resp sth)) <> 0 ->
    heap_alloc (heap sth) = (Some i, h') ->
    reaches cs d st0 0 45
      (mk_kstate
         (with_data
            (with_blocks
               (Some (mk_array i (repeat zero_block
                                    (Z.to_nat (num_of_sensor_blocks (data (resp sth)))))))
               (data (resp sth)))
            (resp sth))
         h'
         (klog sth ++ [msg_reading_blocks (num_of_sensor_blocks (data (resp sth)))]))
| reaches_next (b dnum : Z) (st : kstate) (dnum' : Z) (st' : kstate) :
    reaches cs d st0 b dnum st ->
    b + 1 < num_of_sensor_blocks (data (resp st)) ->
    parse_block cs d b dnum st = Ok (Next dnum', st') ->
    reaches cs d st0 (b + 1) dnum' st'.

(** The state in which the block loop is first entered, and the state
    after one pass of the loop body. *)
Definition loop_entry (cs : bool) (d : list byte) (st0 : kstate) : kstate :=
  match parse_header cs d st0 with
  | Ok (_, sth) =>
      match heap_alloc (heap sth) with
      | (Some i, h') =>
          mk_kstate
            (with_data
               (with_blocks
                  (Some (mk_array i (repeat zero_block
                                       (Z.to_nat (num_of_sensor_blocks (data (resp sth)))))))
                  (data (resp sth)))
               (resp sth))
            h'
            (klog sth ++ [msg_reading_blocks (num_of_sensor_blocks (data (resp sth)))])
      | (None, _) => sth
      end
  | Fault _ => st0
  end.



(** *** The part of the frame that the decoder walks *)

(** The record loop runs on the block described at [dnum]: the block
    declares a record and a stride, and its tag is FREQ, TEMP or POWR. *)
Definition walks_records (d : list byte) (dnum : Z) : bool :=
  negb (desc_count d dnum =? 0) && negb (desc_stride d dnum =? 0)
  && (tag_is d dnum "FREQ" || tag_is d dnum "TEMP" || tag_is d dnum "POWR").

(** The bytes that the record loop reads of one record. *)
Definition record_size (d : list byte) (dnum : Z) : Z :=
  if tag_is d dnum "FREQ" || tag_is d dnum "TEMP" then 4 else 12.

(** Where the decoder looks for the descriptor after the one at [dnum]. *)
Definition next_cursor (d : list byte) (dnum : Z) : Z :=
  if walks_records d dnum
  then dnum + 8 + desc_count d dnum * desc_stride d dnum
  else dnum + 8.

(** The descriptor at [dnum] lies inside the frame, and so do the bytes
    read of each record of its block when the record loop runs. *)
Definition block_within (d : list byte) (dnum : Z) : bool :=
  (dnum + 8 <=? len d)
  && (if walks_records d dnum
      then dnum + 8 + (desc_count d dnum - 1) * desc_stride d dnum + record_size d dnum
           <=? len d
      else true).

Fixpoint blocks_within (d : list byte) (n : nat) (dnum : Z) : bool :=
  match n with
  | O => true
  | S n' => block_within d dnum && blocks_within d n' (next_cursor d dnum)
  end.

(** The frame holds the 45-byte header and, when the marker is present,
    all the blocks that its block count makes the decoder walk. *)
Definition frame_within (d : list byte) : bool :=
  (45 <=? len d)
  && (if bytes_eqb (window d 37 6) (list_byte_of_string "SENSOR")
      then blocks_within d (Z.to_nat (byte_val (byte_at d 43))) 45
      else true).

(** A fault that is not a read outside the frame. *)
Definition not_oob (e : fault) : Prop := forall off, e <> OobRead off.

(** The decoder never reads outside the frame it is given. *)
Definition reads_stay_inside_frame : Prop :=
  forall (cs : bool) (d : list byte) (st : kstate) (off : Z),
    parse_occ_response cs d st <> Fault (OobRead off).

(** A lookup of a temperature record outside the populated range of the
    temperature block comes back without fault. *)
Definition lookup_out_of_range_is_safe : Prop :=
  forall (st : kstate) (k : sensor_data_block) (n : Z),
    temperature_block (resp st) = Some k ->
    ~ 0 <= n - 1 < Z.of_nat (length (sensors_of k)) ->
    exists r, temp_sensor n st = Ok r.

(** A failed decode that leaves no trace: the response is as it was, and
    so is the set of live allocations. *)
Definition failed_decode_leaves_no_trace : Prop :=
  forall (cs : bool) (d : list byte) (st : kstate) (r : Z) (st' : kstate),
    parse_occ_response cs d st = Ok (r, st') -> r <> 0 ->
    resp st' = resp st /\ live (heap st') = live (heap st).


(** *** Allocations *)

(** Every live allocation was handed out before: its identifier is below
    the next one. *)
Definition wf_heap (h : kheap) : Prop :=
  forall j, In j (live h) -> (j < next_id h)%nat.

(** The allocations [L] are all live in [s]. *)
Definition keeps_live (L : list nat) (s : kstate) : Prop :=
  forall j, In j L -> In j (live (heap s)).

(** The response of [s] holds no block array, or one whose length is the
    block count of the header. *)
Definition resp_consistent (id : nat) (s : kstate) : Prop :=
  blocks (data (resp s)) = None
  \/ blocks_inv id (num_of_sensor_blocks (data (resp s)))
       (num_of_sensor_blocks (data (resp s))) s.

(** The state after decoding the sample frame a second time, on top of
    the state left by the first decode. *)
Definition after_refresh : kstate :=
  match parse_occ_response false fake_occ_rsp sample_state with
  | Ok (_, st) => st
  | Fault _ => sample_state
  end.

(** No block of the response holds a [powr] array, and the power block
    id is [v]. *)
Definition no_power (v : Z) (s : kstate) : Prop :=
  power_block_id (resp s) = v
  /\ forall j k, block_of (resp s) j = Some k -> powr k = None.

(** The state after a refresh of the decoded sample frame. *)
Definition refreshed_state : kstate :=
  match occ_update_device_from false fake_occ_rsp true sample_state with
  | Ok (_, st) => st
  | Fault _ => sample_state
  end.

(** The fixed header fields of the response [o] are those of the frame
    [d], multi-byte fields big-endian. *)
Definition decoded_header (d : list byte) (o : occ_response_t) : Prop :=
  sequence_num o = byte_val (byte_at d 0)
  /\ cmd_type o = byte_val (byte_at d 1)
  /\ rtn_status o = byte_val (byte_at d 2)
  /\ data_length o = be16 d 3
  /\ status (data o) = byte_val (byte_at d 5)
  /\ ext_status (data o) = byte_val (byte_at d 6)
  /\ occs_present (data o) = byte_val (byte_at d 7)
  /\ config (data o) = byte_val (byte_at d 8)
  /\ occ_state (data o) = byte_val (byte_at d 9)
  /\ data_reserved0 (data o) = byte_val (byte_at d 10)
  /\ data_reserved1 (data o) = byte_val (byte_at d 11)
  /\ error_log_id (data o) = byte_val (byte_at d 12)
  /\ error_log_addr_start (data o) = be32 d 13
  /\ error_log_length (data o) = be16 d 17
  /\ data_reserved2 (data o) = byte_val (byte_at d 19)
  /\ data_reserved3 (data o) = byte_val (byte_at d 20)
  /\ firstn 16 (occ_code_level (data o)) = strncpy_bytes (window d 21 16) 16
  /\ sensor_eye_catcher (data o) = strncpy_bytes (window d 37 6) 6 ++ [x00]
  /\ num_of_sensor_blocks (data o) = byte_val (byte_at d 43)
  /\ sensor_data_version (data o) = byte_val (byte_at d 44).

(** [decoded_header], and the checksum field as in [o0]. *)
Definition header_kept (d : list byte) (o0 : occ_response_t) (s : kstate) : Prop :=
  decoded_header d (resp s) /\ chk_sum (resp s) = chk_sum o0.

(** *** What a decode leaves in the block array *)

(** The block described at [dnum] is a FREQ or TEMP block on which the
    record loop runs. *)
Definition value_block (d : list byte) (dnum : Z) : bool :=
  negb (desc_count d dnum =? 0) && negb (desc_stride d dnum =? 0)
  && (tag_is d dnum "FREQ" || tag_is d dnum "TEMP").

(** The records that the record loop stores for the block described at
    [dnum]: one for each declared record, from the start of its stride
    window. *)
Definition decoded_records (cs : bool) (d : list byte) (dnum : Z) : list occ_sensor :=
  if value_block d dnum
  then map (fun s => value_record cs d (dnum + 8 + Z.of_nat s * desc_stride d dnum))
           (seq 0 (Z.to_nat (desc_count d dnum)))
  else [].

(** The offset at which the decoder reads the descriptor of block [b]. *)
Definition cursor_of (d : list byte) (b : nat) : Z := Nat.iter b (next_cursor d) 45.

(** [temp_block_id] and [freq_block_id] of a response, and what the loop
    body makes of them on block [b] with its descriptor at [dnum]: the
    FREQ branch is tested first. *)
Definition ids_of (o : occ_response_t) : Z * Z := (temp_block_id o, freq_block_id o).

Definition ids_after_block (d : list byte) (b dnum : Z) (ids : Z * Z) : Z * Z :=
  if value_block d dnum
  then if tag_is d dnum "FREQ" then (fst ids, u16 b) else (u16 b, snd ids)
  else ids.

Fixpoint ids_after_blocks (d : list byte) (fuel : nat) (b dnum : Z) (ids : Z * Z)
  : Z * Z :=
  match fuel with
  | O => ids
  | S fuel' =>
      ids_after_blocks d fuel' (b + 1) (next_cursor d dnum) (ids_after_block d b dnum ids)
  end.

(** Block [k] is what the loop body leaves of a fresh block whose
    descriptor is at [dnum]: the five descriptor fields, no power
    records, and the value records of [decoded_records]. *)
Definition decoded_block (cs : bool) (d : list byte) (dnum : Z) (k : sensor_data_block)
  : Prop :=
  (exists p, k = with_sensor p (head_block d dnum zero_block))
  /\ sensors_of k = decoded_records cs d dnum.

(** The index of the last block, among the [fuel] blocks walked from
    block [b] at cursor [dnum], that is a value block with tag [lit]. *)
Fixpoint last_value_block (d : list byte) (lit : string) (fuel : nat) (b dnum : Z)
  : option Z :=
  match fuel with
  | O => None
  | S fuel' =>
      match last_value_block d lit fuel' (b + 1) (next_cursor d dnum) with
      | Some j => Some j
      | None => if value_block d dnum && tag_is d dnum lit then Some b else None
      end
  end.

Arguments last_value_block d lit%_string fuel b dnum.

(** The block described at [dnum] is a POWR block on which the record
    loop runs, and none of the [n] blocks walked from [dnum] is one. *)
Definition power_block_with_records (d : list byte) (dnum : Z) : bool :=
  negb (desc_count d dnum =? 0) && negb (desc_stride d dnum =? 0)
  && tag_is d dnum "POWR".

Fixpoint no_power_records (d : list byte) (n : nat) (dnum : Z) : bool :=
  match n with
  | O => true
  | S n' => negb (power_block_with_records d dnum)
            && no_power_records d n' (next_cursor d dnum)
  end.

(** No coming [kzalloc] call fails. *)
Definition memory_available (s : kstate) : Prop :=
  forallb (fun ok => ok) (kzalloc_plan (heap s)) = true.

(** The number of value blocks among the [n] blocks walked from [dnum]. *)
Fixpoint count_value_blocks (d : list byte) (n : nat) (dnum : Z) : nat :=
  match n with
  | O => 0
  | S n' => (if value_block d dnum then 1 else 0)
            + count_value_blocks d n' (next_cursor d dnum)
  end.

(** From heap [h] to heap [h'], [v] allocations were made and none was
    released. *)
Definition allocated (h h' : kheap) (v : nat) : Prop :=
  live h' = rev (seq (next_id h) v) ++ live h /\ next_id h' = (next_id h + v)%nat.

(** *** occ_update_device with the device data (lines 95-104, 478-500)

    The fields of [struct occ_drv_data] that [occ_update_device] uses.
    [long_bits] is BITS_PER_LONG; [time_after(a, b)] is the kernel's
    [(long)(b - a) < 0] on [unsigned long].  [jiffies] is read twice:
    [now] in the test and [later] in the store to [last_updated]. *)
Record occ_drv_data : Type := mk_occ_drv_data {
  valid : Z;            (* != 0 if sensor data are valid *)
  last_updated : Z;     (* in jiffies *)
  sample_time : Z       (* in jiffies *)
}.

Definition ulong (long_bits : Z) (z : Z) : Z := z mod 2 ^ long_bits.

Definition time_after (long_bits : Z) (a b : Z) : bool :=
  2 ^ (long_bits - 1) <=? ulong long_bits (b - a).

Definition update_due (long_bits : Z) (now : Z) (dd : occ_drv_data) : bool :=
  time_after long_bits now (ulong long_bits (last_updated dd + sample_time dd))
  || (valid dd =? 0).

Definition occ_update_device (long_bits : Z) (char_signed : bool) (rsp : list byte)
           (now later : Z) (dd : occ_drv_data) : M (Z * occ_drv_data) :=
  if update_due long_bits now dd then
    r <- occ_update_device_from char_signed rsp true;;
    ret (r, mk_occ_drv_data 1 (ulong long_bits later) (sample_time dd))
  else
    r <- occ_update_device_from char_signed rsp false;;
    ret (r, dd).

(** ** The i2c transfers (lines 106-241)

    The bus is an oracle: [send_answers] are the results of the coming
    [i2c_master_send] calls, [recv_answers] the results of the coming
    [i2c_master_recv] calls with the contents of the receive buffer
    after the call (eight bytes are used of it, missing ones are zero);
    once a plan is used up every transfer fails with -EIO.  [sent] is
    the record of the messages handed to [i2c_master_send], latest
    first.  The [pr_debug] output is not part of the model. *)
Record i2c_bus : Type := mk_i2c_bus {
  send_answers : list Z;
  recv_answers : list (Z * list byte);
  sent : list (list byte)
}.

Definition EIO : Z := 5.
Definition I2C_READ_ERROR : Z := 1.
Definition I2C_WRITE_ERROR : Z := 2.
Definition SCOM_OCC_SRAM_WOX : Z := 0x0006B013.
Definition SCOM_OCC_SRAM_WAND : Z := 0x0006B012.
Definition SCOM_OCC_SRAM_ADDR : Z := 0x0006B010.
Definition SCOM_OCC_SRAM_DATA : Z := 0x0006B015.
Definition OCC_RESPONSE_ADDR : Z := 0xFFFF7000.

Definition byte_of (z : Z) : byte :=
  match Byte.of_N (Z.to_N (z mod 256)) with
  | Some c => c
  | None => x00
  end.

(** The four bytes of a [uint32_t] in memory, on a little-endian or a
    big-endian host. *)
Definition host_bytes (little_endian : bool) (z : Z) : list byte :=
  let l := [byte_of z; byte_of (Z.shiftr z 8); byte_of (Z.shiftr z 16);
            byte_of (Z.shiftr z 24)] in
  if little_endian then l else rev l.

(** occ_i2c_write (lines 159-169) and occ_i2c_read (lines 147-157). *)
Definition occ_i2c_write (buf : list byte) (count : Z) (w : i2c_bus) : Z * i2c_bus :=
  let count := if count >? 8192 then 8192 else count in
  let msg := firstn (Z.to_nat count) buf in
  match send_answers w with
  | r :: rest => (r, mk_i2c_bus rest (recv_answers w) (msg :: sent w))
  | [] => (- EIO, mk_i2c_bus [] (recv_answers w) (msg :: sent w))
  end.

Definition occ_i2c_read (count : Z) (w : i2c_bus) : Z * list byte * i2c_bus :=
  let count := if count >? 8192 then 8192 else count in
  match recv_answers w with
  | (r, l) :: rest =>
      (r, firstn (Z.to_nat count) (l ++ repeat x00 (Z.to_nat count)),
       mk_i2c_bus (send_answers w) rest (sent w))
  | [] => (- EIO, repeat x00 (Z.to_nat count), w)
  end.

(** A store to [data[i]]: [None] when it falls outside the array. *)
Definition store_byte (data : list byte) (i : Z) (c : byte) : option (list byte) :=
  if (0 <=? i) && (i <? len data) then Some (zset data i c) else None.

(** The loop of lines 214-216: [data[offset + b] = buf[7 - b]] for
    [b = 0 .. 7], with [n] iterations left. *)
Fixpoint reverse_into (n : nat) (b : Z) (data : list byte) (offset : Z) (buf : list byte)
  : option (list byte) :=
  match n with
  | O => Some data
  | S n' =>
      match store_byte data (offset + b) (nth (Z.to_nat (7 - b)) buf x00) with
      | Some data' => reverse_into n' (b + 1) data' offset buf
      | None => None
      end
  end.

(** occ_getscomb (lines 196-219): the result and the array [data], or
    [None] when a store falls outside [data]. *)
Definition occ_getscomb (little_endian : bool) (address : Z) (data : list byte)
           (offset : Z) (w : i2c_bus) : option (Z * list byte) * i2c_bus :=
  let address := u32 (Z.shiftl address 1) in
  let (ret, w) := occ_i2c_write (host_bytes little_endian address) 4 w in
  if negb (u32 ret =? 4) then (Some (- I2C_WRITE_ERROR, data), w)
  else
    let '(ret, buf, w) := occ_i2c_read 8 w in
    if negb (u32 ret =? 8) then (Some (- I2C_READ_ERROR, data), w)
    else
      match reverse_into 8 0 data offset buf with
      | Some data' => (Some (0, data'), w)
      | None => (None, w)
      end.

(** occ_putscom (lines 221-241). *)
Definition occ_putscom (little_endian : bool) (address data0 data1 : Z) (w : i2c_bus)
  : Z * i2c_bus :=
  let address := u32 (Z.shiftl address 1) in
  let buf := host_bytes little_endian address ++ host_bytes little_endian data1
             ++ host_bytes little_endian data0 in
  let (ret, w) := occ_i2c_write buf 12 w in
  if negb (u32 ret =? 12) then (I2C_WRITE_ERROR, w) else (0, w).

(** The loop of lines 465-467, with [fuel] iterations left. *)
Fixpoint read_words (little_endian : bool) (fuel : nat) (b num_bytes : Z)
         (data : list byte) (w : i2c_bus) : option (list byte) * i2c_bus :=
  if b <? num_bytes then
    match fuel with
    | O => (None, w)
    | S fuel' =>
        match occ_getscomb little_endian SCOM_OCC_SRAM_DATA data b w with
        | (Some (_, data'), w') => read_words little_endian fuel' (b + 8) num_bytes data' w'
        | (None, w') => (None, w')
        end
    end
  else (Some data, w).

(** occ_get_all with its transfers (lines 437-475).  [occ_data] is the
    local array as the function finds it, [rsp] the array that both
    [memcpy] calls copy over it, of the same size.  The result is [None]
    when a store falls outside [occ_data]; else it is the bus after the
    call and the outcome of the steps on the driver state. *)
Definition occ_get_all_io (little_endian char_signed : bool) (rsp occ_data : list byte)
           (w : i2c_bus) (st : kstate) : option (i2c_bus * res (Z * kstate)) :=
  let (_, w) := occ_putscom little_endian SCOM_OCC_SRAM_WOX 0x08000000 0 w in
  let (_, w) := occ_putscom little_endian SCOM_OCC_SRAM_WAND 0xFBFFFFFF 0xFFFFFFFF w in
  let (_, w) := occ_putscom little_endian SCOM_OCC_SRAM_ADDR OCC_RESPONSE_ADDR 0 w in
  let (_, w) := occ_putscom little_endian SCOM_OCC_SRAM_ADDR OCC_RESPONSE_ADDR 0 w in
  match occ_getscomb little_endian SCOM_OCC_SRAM_DATA occ_data 0 w with
  | (None, _) => None
  | (Some (_, occ_data), w) =>
      match printk msg_using_fake st with
      | Fault e => Some (w, Fault e)
      | Ok (_, st) =>
          let occ_data := rsp in                       (* memcpy *)
          match get_occdata_length char_signed occ_data st with
          | Fault e => Some (w, Fault e)
          | Ok (num_bytes, st) =>
              match printk (msg_data_length num_bytes) st with
              | Fault e => Some (w, Fault e)
              | Ok (_, st) =>
                  if num_bytes >? OCC_DATA_MAX then
                    Some (w, (printk msg_length_too_big;; ret (-1)) st)
                  else
                    match read_words little_endian 512 8 num_bytes occ_data w with
                    | (None, _) => None
                    | (Some occ_data, w) =>
                        let occ_data := rsp in         (* memcpy *)
                        Some (w, parse_occ_response char_signed occ_data st)
                    end
              end
          end
      end
  end.

(** The 16-bit number that the decoder makes of the two bytes at [off]
    where plain [char] is signed: a low byte of 0x80 or more is
    sign-extended over the high byte. *)
Definition be16_signed (d : list byte) (off : Z) : Z :=
  if 128 <=? byte_val (byte_at d (off + 1))
  then 65280 + byte_val (byte_at d (off + 1))
  else be16 d off.

(** The state after decoding the sample frame in a fresh driver where
    plain [char] is signed. *)
Definition sample_state_signed : kstate :=
  match parse_occ_response true fake_occ_rsp (init_state []) with
  | Ok (_, st) => st
  | Fault _ => init_state []
  end.

(** The state after the refresh that the first read of an attribute
    starts in a fresh driver. *)
Definition first_read_state : kstate :=
  match occ_update_device_from false fake_occ_rsp true (init_state []) with
  | Ok (_, st) => st
  | Fault _ => init_state []
  end.

(** ** Basic facts *)

Unset Implicit Arguments.

Lemma byte_val_range (c : byte) : 0 <= byte_val c < 256.
Proof.
  unfold byte_val. pose proof (Byte.to_N_bounded c). lia.
Qed.

Lemma u8_char_to_int (cs : bool) (c : byte) : u8 (char_to_int cs c) = byte_val c.
Proof.
  pose proof (byte_val_range c) as H. unfold u8, char_to_int.
  destruct (cs && (128 <=? byte_val c))%bool.
  - replace (byte_val c - 256) with (byte_val c + (-1) * 256) by lia.
    rewrite Z.mod_add by lia. apply Z.mod_small. lia.
  - apply Z.mod_small. lia.
Qed.

Lemma char_to_int_unsigned (c : byte) : char_to_int false c = byte_val c.
Proof. reflexivity. Qed.

Lemma zth_Some {A} (l : list A) (i : Z) (x0 : A) :
  0 <= i < Z.of_nat (length l) -> zth l i = Some (nth (Z.to_nat i) l x0).
Proof.
  intros H. unfold zth. destruct (i <? 0) eqn:E; [lia|].
  apply nth_error_nth'. lia.
Qed.

Lemma zth_None {A} (l : list A) (i : Z) :
  Z.of_nat (length l) <= i -> zth l i = None.
Proof.
  intros H. unfold zth. destruct (i <? 0) eqn:E; [lia|].
  apply nth_error_None. lia.
Qed.

Lemma zth_bound {A} (l : list A) (i : Z) (x : A) :
  zth l i = Some x -> 0 <= i < Z.of_nat (length l).
Proof.
  unfold zth. destruct (i <? 0) eqn:E; [discriminate|].
  intros H. assert (nth_error l (Z.to_nat i) <> None) as H1 by congruence.
  apply nth_error_Some in H1. lia.
Qed.

Lemma zth_bound_None {A} (l : list A) (i : Z) :
  zth l i = None -> i < 0 \/ Z.of_nat (length l) <= i.
Proof.
  unfold zth. destruct (i <? 0) eqn:E; [lia|].
  intros H. apply nth_error_None in H. lia.
Qed.

Lemma rd_ok (cs : bool) (d : list byte) (i : Z) (st : kstate) :
  0 <= i < len d -> rd cs d i st = Ok (char_to_int cs (byte_at d i), st).
Proof.
  intros H. unfold rd, byte_at. now rewrite (zth_Some d i x00 H).
Qed.

Lemma rd_oob (cs : bool) (d : list byte) (i : Z) (st : kstate) :
  len d <= i -> rd cs d i st = Fault (OobRead i).
Proof.
  intros H. unfold rd. now rewrite zth_None.
Qed.

Lemma window_cons (d : list byte) (off : Z) (n : nat) :
  0 <= off < len d -> window d off (S n) = byte_at d off :: window d (off + 1) n.
Proof.
  intros H. unfold window, byte_at, len in *.
  replace (Z.to_nat (off + 1)) with (S (Z.to_nat off)) by lia.
  assert (Z.to_nat off < length d)%nat as Hn by lia.
  revert Hn. generalize (Z.to_nat off). clear H. intros k.
  revert d. induction k as [|k IH]; intros [|c r] Hk; simpl in *; try lia.
  - reflexivity.
  - apply IH. lia.
Qed.

Lemma window_length (d : list byte) (off : Z) (n : nat) :
  0 <= off -> off + Z.of_nat n <= len d -> length (window d off n) = n.
Proof.
  intros H0 H. unfold window, len in *.
  rewrite length_firstn, length_skipn. lia.
Qed.

Lemma strncpy_ok (d : list byte) (n : nat) :
  forall off st, 0 <= off -> off + Z.of_nat n <= len d ->
    strncpy d off n st = Ok (strncpy_bytes (window d off n) n, st).
Proof.
  induction n as [|n IH]; intros off st H0 H.
  - reflexivity.
  - rewrite window_cons by lia. simpl strncpy. simpl strncpy_bytes.
    rewrite (zth_Some d off x00) by (unfold len in *; lia).
    fold (byte_at d off). destruct (Byte.eqb (byte_at d off) x00); [reflexivity|].
    unfold bind. rewrite IH by lia. reflexivity.
Qed.

Lemma strncpy_bytes_length (src : list byte) (n : nat) :
  length (strncpy_bytes src n) = n.
Proof.
  revert src. induction n as [|n IH]; intros [|c r]; simpl; auto.
  - now rewrite repeat_length.
  - destruct (Byte.eqb c x00); simpl; [now rewrite repeat_length | now rewrite IH].
Qed.

(** [strcmp] against a literal without NUL sees exactly the bytes that
    [strncpy] was given, as long as a NUL follows the copy. *)
Lemma strcmp_strncpy (lit : list byte) :
  forallb (fun c => negb (Byte.eqb c x00)) lit = true ->
  forall src rest, length src = length lit ->
    bytes_eqb (cstring (strncpy_bytes src (length lit) ++ x00 :: rest)) lit
    = bytes_eqb src lit.
Proof.
  induction lit as [|c lit IH]; intros Hl src rest Hlen.
  - destruct src; [reflexivity | discriminate].
  - destruct src as [|x src]; [discriminate|].
    simpl in Hl. apply andb_true_iff in Hl as [Hc Hl].
    simpl. destruct (Byte.eqb x x00) eqn:Ex.
    + apply Byte.byte_dec_bl in Ex. subst x. simpl.
      destruct (Byte.eqb x00 c) eqn:Ec; [|reflexivity].
      apply Byte.byte_dec_bl in Ec. subst c. discriminate.
    + simpl. rewrite Ex. simpl. rewrite IH; auto.
Qed.

Lemma bytes_eqb_eq (a b : list byte) : bytes_eqb a b = true <-> a = b.
Proof.
  revert b. induction a as [|x a IH]; intros [|y b]; simpl; split; intros H;
    try reflexivity; try discriminate.
  - apply andb_true_iff in H as [H1 H2]. apply Byte.byte_dec_bl in H1.
    apply IH in H2. now subst.
  - inversion H; subst. rewrite Byte.byte_dec_lb by reflexivity.
    simpl. now apply IH.
Qed.

(** ** Running the code symbolically *)

Lemma bind_Ok {A B} (m : M A) (f : A -> M B) (st st' : kstate) (a : A) :
  m st = Ok (a, st') -> bind m f st = f a st'.
Proof. intros H. unfold bind. now rewrite H. Qed.

Lemma bind_Fault {A B} (m : M A) (f : A -> M B) (st : kstate) (e : fault) :
  m st = Fault e -> bind m f st = Fault e.
Proof. intros H. unfold bind. now rewrite H. Qed.

Ltac step_rd :=
  erewrite bind_Ok by (apply rd_ok; lia); cbv beta.

Ltac step_strncpy :=
  erewrite bind_Ok by (apply strncpy_ok; simpl; lia); cbv beta.

(** The fixed header of a frame of at least 45 bytes is read without
    fault; only the response object changes. *)
Lemma parse_header_ok (cs : bool) (d : list byte) (st : kstate) :
  45 <= len d ->
  exists o',
    parse_header cs d st = Ok (tt, mk_kstate o' (heap st) (klog st))
    /\ sensor_eye_catcher (data o') = strncpy_bytes (window d 37 6) 6 ++ [x00]
    /\ num_of_sensor_blocks (data o') = byte_val (byte_at d 43)
    /\ sequence_num o' = byte_val (byte_at d 0)
    /\ data_length o' = u16 (Z.lor (u16 (Z.shiftl (char_to_int cs (byte_at d 3)) 8))
                                   (char_to_int cs (byte_at d 4)))
    /\ blocks (data o') = blocks (data (resp st))
    /\ temp_block_id o' = temp_block_id (resp st)
    /\ freq_block_id o' = freq_block_id (resp st)
    /\ power_block_id o' = power_block_id (resp st).
Proof.
  intros H. unfold parse_header.
  do 21 step_rd. do 2 step_strncpy. do 2 step_rd.
  unfold bind, get_resp, put_resp. cbv beta iota.
  eexists. split; [reflexivity|]. cbn [data sensor_eye_catcher num_of_sensor_blocks
    sequence_num data_length blocks temp_block_id freq_block_id power_block_id resp].
  rewrite !u8_char_to_int. repeat split; reflexivity.
Qed.

(** ** The frame marker *)

Lemma marker_test (src : list byte) :
  length src = 6%nat ->
  strcmp_eq (strncpy_bytes src 6 ++ [x00]) "SENSOR"
  = bytes_eqb src (list_byte_of_string "SENSOR").
Proof.
  intros H. unfold strcmp_eq.
  change 6%nat with (length (list_byte_of_string "SENSOR")).
  apply strcmp_strncpy; [reflexivity | exact H].
Qed.

(** C7. A frame of at least 45 bytes whose six bytes at offset 37 are not
    "SENSOR" is refused: [parse_occ_response] returns -1 after printing
    the marker error and nothing else, no [kzalloc] call has been made
    (the heap is as before) and the block pointer of the response is
    untouched. *)
Theorem bad_marker_rejected (cs : bool) (d : list byte) (st : kstate) :
  45 <= len d ->
  window d 37 6 <> list_byte_of_string "SENSOR" ->
  exists o',
    parse_occ_response cs d st
    = Ok (-1, mk_kstate o' (heap st)
                (klog st ++ [msg_sensor_not_found (cstring (sensor_eye_catcher (data o')))]))
    /\ blocks (data o') = blocks (data (resp st)).
Proof.
  intros Hlen Hmark.
  destruct (parse_header_ok cs d st Hlen) as (o' & Hrun & Heye & _ & _ & _ & Hblk & _).
  exists o'. split; [|exact Hblk].
  unfold parse_occ_response. rewrite (bind_Ok _ _ _ _ _ Hrun).
  unfold bind at 1. unfold get_resp. cbv beta iota. cbn [resp].
  assert (strcmp_eq (sensor_eye_catcher (data o')) "SENSOR" = false) as Hcmp.
  { rewrite Heye, marker_test by (apply window_length; lia).
    destruct (bytes_eqb (window d 37 6) (list_byte_of_string "SENSOR")) eqn:E;
      [apply bytes_eqb_eq in E; contradiction | reflexivity]. }
  rewrite Hcmp. reflexivity.
Qed.

Lemma bad_marker_rejected_witness :
  exists o',
    parse_occ_response false bad_marker_frame (init_state [])
    = Ok (-1, mk_kstate o' (heap (init_state []))
                (klog (init_state [])
                 ++ [msg_sensor_not_found (cstring (sensor_eye_catcher (data o')))]))
    /\ blocks (data o') = blocks (data (resp (init_state []))).
Proof.
  apply (bad_marker_rejected false bad_marker_frame (init_state [])).
  - vm_compute. discriminate.
  - vm_compute. discriminate.
Defined.

(** ** Big-endian fields *)

Lemma lor_shiftl_low (a b k : Z) :
  0 <= k -> 0 <= b < 2 ^ k -> Z.lor (Z.shiftl a k) b = a * 2 ^ k + b.
Proof.
  intros Hk Hb. rewrite Z.shiftl_mul_pow2 by lia.
  pose proof (Z.add_lor_land (a * 2 ^ k) b) as Hadd.
  enough (Z.land (a * 2 ^ k) b = 0) as Hland by lia.
  apply Z.bits_inj'. intros n Hn. rewrite Z.land_spec, Z.bits_0.
  destruct (Z.lt_ge_cases n k) as [Hlt|Hge].
  - rewrite Z.mul_pow2_bits_low by lia. reflexivity.
  - destruct (Z.eq_dec b 0) as [->|Hb0].
    + rewrite Z.bits_0. apply andb_false_r.
    + rewrite (Z.bits_above_log2 b n); [apply andb_false_r | lia |].
      apply Z.log2_lt_pow2; try lia.
      apply Z.lt_le_trans with (2 ^ k); [lia|].
      apply Z.pow_le_mono_r; lia.
Qed.

Lemma be16_unsigned (x y : byte) :
  u16 (Z.lor (u16 (Z.shiftl (byte_val x) 8)) (byte_val y))
  = 256 * byte_val x + byte_val y.
Proof.
  pose proof (byte_val_range x) as Hx. pose proof (byte_val_range y) as Hy.
  unfold u16. rewrite Z.shiftl_mul_pow2 by lia.
  rewrite (Z.mod_small (byte_val x * 2 ^ 8)) by lia.
  rewrite <- Z.shiftl_mul_pow2 by lia.
  rewrite lor_shiftl_low by lia.
  rewrite Z.mod_small by lia. lia.
Qed.

(** ** The declared data length *)

(** C9. With [char] unsigned, [get_occdata_length] yields the big-endian
    16-bit number of bytes 3 and 4, and when that number exceeds
    [OCC_DATA_MAX] = 4096 [occ_get_all] returns -1 after printing the
    length error: the decoder is not entered, the response and the heap
    are as before. *)
Theorem declared_length_checked (d : list byte) (st : kstate) :
  5 <= len d ->
  get_occdata_length false d st = Ok (be16 d 3, st)
  /\ (be16 d 3 > OCC_DATA_MAX ->
      occ_get_all_from false d st
      = Ok (-1, with_log (klog st ++ [msg_using_fake; msg_data_length (be16 d 3);
                                      msg_length_too_big]) st)).
Proof.
  intros Hlen.
  assert (forall st0, get_occdata_length false d st0 = Ok (be16 d 3, st0)) as Hget.
  { intros st0. unfold get_occdata_length. do 2 step_rd.
    rewrite !char_to_int_unsigned, be16_unsigned. reflexivity. }
  split; [apply Hget|].
  intros Hbig. unfold occ_get_all_from.
  unfold bind at 1. unfold printk at 1. cbv beta iota.
  rewrite (bind_Ok _ _ _ _ _ (Hget _)).
  unfold bind at 1. unfold printk at 1. cbv beta iota.
  destruct (be16 d 3 >? OCC_DATA_MAX) eqn:E; [|lia].
  unfold bind, printk, ret, with_log. cbn [resp heap klog].
  rewrite <- !app_assoc. reflexivity.
Qed.

Lemma declared_length_checked_witness :
  get_occdata_length false long_frame (init_state []) = Ok (8356, init_state [])
  /\ occ_get_all_from false long_frame (init_state [])
     = Ok (-1, with_log [msg_using_fake; msg_data_length 8356; msg_length_too_big]
                 (init_state [])).
Proof.
  assert (5 <= len long_frame) as H by (vm_compute; discriminate).
  destruct (declared_length_checked long_frame (init_state []) H) as [H1 H2].
  split; [exact H1|]. apply H2. vm_compute. reflexivity.
Defined.

(** Where plain [char] is signed, byte 4 of the sample frame (0xa4)
    is sign-extended: the declared length comes out as 0xffa4 and
    [occ_get_all] turns the sample frame down. *)
Example signed_char_length :
  get_occdata_length true fake_occ_rsp (init_state []) = Ok (65444, init_state [])
  /\ occ_get_all true (init_state [])
     = Ok (-1, with_log [msg_using_fake; msg_data_length 65444; msg_length_too_big]
                 (init_state []))
  /\ get_occdata_length false fake_occ_rsp (init_state []) = Ok (164, init_state []).
Proof. repeat split; vm_compute; reflexivity. Qed.

(** ** The sample frame *)

(** The sample frame declares four blocks, and its POWR block declares no
    record: the description with three blocks and one power record does
    not hold. *)
Lemma sample_frame_not_as_described : ~ sample_frame_as_described false.
Proof.
  intros (st' & Hrun & Hn & _).
  vm_compute in Hrun. injection Hrun as <-.
  vm_compute in Hn. discriminate.
Qed.

(** C10 (amended). Decoding [fake_occ_rsp] in a fresh driver state
    returns 0.  The frame has the marker and declares four blocks: TEMP
    with 10 records at stride 4, FREQ with 10 records at stride 4, POWR
    with no record at stride 12, and CAPS declaring one record at stride
    12, which is not a recognized tag and gets no record.  The
    temperature block is block 0, it holds 10 records and the first has
    sensor id 0x006a; the block at [power_block_id], which the decoder
    did not set, holds no power record. *)
Theorem sample_frame_decodes (cs : bool) :
  exists st',
    parse_occ_response cs fake_occ_rsp (init_state []) = Ok (0, st')
    /\ num_of_sensor_blocks (data (resp st')) = 4
    /\ shapes_of (resp st')
       = [(list_byte_of_string "TEMP", 4, 10, 10%nat, 0%nat);
          (list_byte_of_string "FREQ", 4, 10, 10%nat, 0%nat);
          (list_byte_of_string "POWR", 12, 0, 0%nat, 0%nat);
          (list_byte_of_string "CAPS", 12, 1, 0%nat, 0%nat)]
    /\ temp_block_id (resp st') = 0
    /\ (exists k, temperature_block (resp st') = Some k
                  /\ length (sensors_of k) = 10%nat
                  /\ hd_error (sensors_of k) = Some (mk_occ_sensor 106 0))
    /\ power_block_id (resp st') = 0
    /\ (exists k, power_block (resp st') = Some k /\ powrs_of k = []).
Proof.
  destruct cs.
  - eexists. split; [vm_compute; reflexivity|].
    repeat split; try (vm_compute; reflexivity).
    + eexists. repeat split; vm_compute; reflexivity.
    + eexists. repeat split; vm_compute; reflexivity.
  - eexists. split; [vm_compute; reflexivity|].
    repeat split; try (vm_compute; reflexivity).
    + eexists. repeat split; vm_compute; reflexivity.
    + eexists. repeat split; vm_compute; reflexivity.
Qed.

(** ** The block array *)

Lemma list_set_length {A} (l : list A) (n : nat) (x : A) :
  length (list_set l n x) = length l.
Proof.
  revert n. induction l as [|y l IH]; intros [|n]; simpl; auto.
Qed.

Lemma list_set_same {A} (l : list A) (n : nat) (x : A) :
  (n < length l)%nat -> nth_error (list_set l n x) n = Some x.
Proof.
  revert n. induction l as [|y l IH]; intros [|n] H; simpl in *; try lia; auto.
  apply IH. lia.
Qed.

Lemma list_set_other {A} (l : list A) (n m : nat) (x : A) :
  n <> m -> nth_error (list_set l n x) m = nth_error l m.
Proof.
  revert n m. induction l as [|y l IH]; intros [|n] [|m] H; simpl; auto; try lia.
Qed.

Lemma list_set_twice {A} (l : list A) (n : nat) (x y : A) :
  list_set (list_set l n x) n y = list_set l n y.
Proof.
  revert n. induction l as [|z l IH]; intros [|n]; simpl; auto. now rewrite IH.
Qed.

Lemma zth_zset_same {A} (l : list A) (i : Z) (x y : A) :
  zth l i = Some y -> zth (zset l i x) i = Some x.
Proof.
  intros H. apply zth_bound in H. unfold zth, zset.
  destruct (i <? 0) eqn:E; [lia|]. apply list_set_same. lia.
Qed.

Lemma zth_zset_other {A} (l : list A) (i j : Z) (x : A) :
  0 <= i -> i <> j -> zth (zset l i x) j = zth l j.
Proof.
  intros Hi H. unfold zth, zset. destruct (j <? 0) eqn:E; [reflexivity|].
  apply list_set_other. lia.
Qed.

Lemma zset_length {A} (l : list A) (i : Z) (x : A) :
  length (zset l i x) = length l.
Proof. apply list_set_length. Qed.

Lemma zset_twice {A} (l : list A) (i : Z) (x y : A) :
  zset (zset l i x) i y = zset l i y.
Proof. apply list_set_twice. Qed.

Lemma block_of_put_block_same (st : kstate) (b : Z) (k k' : sensor_data_block) :
  block_of (resp st) b = Some k -> block_of (resp (put_block b k' st)) b = Some k'.
Proof.
  unfold block_of, put_block. destruct (blocks (data (resp st))) as [a|]; [|discriminate].
  cbn. intros H. eapply zth_zset_same; eauto.
Qed.

Lemma block_of_put_block_other (st : kstate) (b j : Z) (k k' : sensor_data_block) :
  block_of (resp st) b = Some k -> b <> j ->
  block_of (resp (put_block b k' st)) j = block_of (resp st) j.
Proof.
  unfold block_of, put_block. destruct (blocks (data (resp st))) as [a|]; [|discriminate].
  cbn. intros H Hj. apply zth_bound in H. apply zth_zset_other; lia.
Qed.

Lemma put_block_twice (st : kstate) (b : Z) (k1 k2 : sensor_data_block) :
  put_block b k2 (put_block b k1 st) = put_block b k2 st.
Proof.
  unfold put_block. destruct (blocks (data (resp st))) as [a|] eqn:E.
  - cbn. unfold zset. now rewrite list_set_twice.
  - now rewrite E.
Qed.

Lemma heap_put_block (st : kstate) (b : Z) (k : sensor_data_block) :
  heap (put_block b k st) = heap st.
Proof. unfold put_block. now destruct (blocks (data (resp st))). Qed.


Lemma get_block_ok (st : kstate) (b : Z) (k : sensor_data_block) :
  block_of (resp st) b = Some k -> get_block b st = Ok (k, st).
Proof.
  unfold block_of, get_block, get_blocks, bind.
  destruct (blocks (data (resp st))) as [a|]; [|discriminate].
  intros ->. reflexivity.
Qed.

Lemma set_block_ok (st : kstate) (b : Z) (k k' : sensor_data_block) :
  block_of (resp st) b = Some k -> set_block b k' st = Ok (tt, put_block b k' st).
Proof.
  unfold block_of, set_block, get_blocks, put_block, bind.
  destruct (blocks (data (resp st))) as [a|]; [|discriminate].
  intros ->. reflexivity.
Qed.

Lemma store_block_ok (st : kstate) (b : Z) (k : sensor_data_block)
      (f : sensor_data_block -> sensor_data_block) :
  block_of (resp st) b = Some k -> store_block b f st = Ok (tt, put_block b (f k) st).
Proof.
  intros H. unfold store_block.
  rewrite (bind_Ok _ _ _ _ _ (get_block_ok _ _ _ H)).
  now apply set_block_ok with k.
Qed.

Lemma store_block_put (st : kstate) (b : Z) (k k1 : sensor_data_block)
      (f : sensor_data_block -> sensor_data_block) :
  block_of (resp st) b = Some k ->
  store_block b f (put_block b k1 st) = Ok (tt, put_block b (f k1) st).
Proof.
  intros H. rewrite (store_block_ok _ b k1) by (eapply block_of_put_block_same; eauto).
  now rewrite put_block_twice.
Qed.

(** The block head of an in-bounds descriptor is read without fault and
    rewrites block [b] only. *)
Lemma read_block_head_ok (cs : bool) (d : list byte) (b dnum : Z) (st : kstate)
      (k0 : sensor_data_block) :
  block_of (resp st) b = Some k0 -> 0 <= dnum -> dnum + 8 <= len d ->
  read_block_head cs d b dnum st = Ok (tt, put_block b (head_block d dnum k0) st).
Proof.
  intros Hb H0 Hlen. unfold read_block_head.
  step_strncpy.
  rewrite (bind_Ok _ _ _ _ _ (store_block_ok _ _ _ _ Hb)).
  step_rd. rewrite (bind_Ok _ _ _ _ _ (store_block_put _ _ _ _ _ Hb)).
  step_rd. rewrite (bind_Ok _ _ _ _ _ (store_block_put _ _ _ _ _ Hb)).
  step_rd. rewrite (bind_Ok _ _ _ _ _ (store_block_put _ _ _ _ _ Hb)).
  step_rd. rewrite (store_block_put _ _ _ _ _ Hb).
  unfold head_block, desc_stride, desc_count, with_descriptor.
  cbn [sensor_type reserved0 sensor_format sensor_length num_of_sensors sensor powr].
  rewrite !u8_char_to_int. reflexivity.
Qed.

(** ** Rules of the program logic *)

Section Rules.

Context {A B : Type} (F : fault -> Prop).

Lemma wpx_bind (m : M A) (f : A -> M B) (Q : B -> kstate -> Prop) (st : kstate) :
  wpx F m (fun a st' => wpx F (f a) Q st') st -> wpx F (bind m f) Q st.
Proof.
  unfold wpx, bind. destruct (m st) as [[a st']|e]; auto.
Qed.

Lemma wpx_ret (a : A) (Q : A -> kstate -> Prop) (st : kstate) :
  Q a st -> wpx F (ret a) Q st.
Proof. intros H. exact H. Qed.

Lemma wpx_weaken (m : M A) (Q Q' : A -> kstate -> Prop) (st : kstate) :
  wpx F m Q st -> (forall a st', Q a st' -> Q' a st') -> wpx F m Q' st.
Proof.
  unfold wpx. destruct (m st) as [[a st']|e]; auto.
Qed.

Lemma wpx_eq (m : M A) (Q : A -> kstate -> Prop) (st st' : kstate) (a : A) :
  m st = Ok (a, st') -> Q a st' -> wpx F m Q st.
Proof. unfold wpx. now intros ->. Qed.

End Rules.

Lemma wpx_rd (F : fault -> Prop) (cs : bool) (d : list byte) (i : Z)
      (Q : Z -> kstate -> Prop) (st : kstate) :
  0 <= i < len d -> Q (char_to_int cs (byte_at d i)) st -> wpx F (rd cs d i) Q st.
Proof. intros H HQ. exact (wpx_eq F _ _ _ _ _ (rd_ok cs d i st H) HQ). Qed.

Lemma wpx_printk (F : fault -> Prop) (m : kmsg) (Q : unit -> kstate -> Prop)
      (st : kstate) :
  Q tt (with_log (klog st ++ [m]) st) -> wpx F (printk m) Q st.
Proof. intros H. exact H. Qed.

Lemma wpx_get_resp (F : fault -> Prop) (Q : occ_response_t -> kstate -> Prop)
      (st : kstate) :
  Q (resp st) st -> wpx F get_resp Q st.
Proof. intros H. exact H. Qed.

Lemma wpx_put_resp (F : fault -> Prop) (o : occ_response_t)
      (Q : unit -> kstate -> Prop) (st : kstate) :
  Q tt (mk_kstate o (heap st) (klog st)) -> wpx F (put_resp o) Q st.
Proof. intros H. exact H. Qed.

Lemma wpx_get_block (F : fault -> Prop) (b : Z) (k : sensor_data_block)
      (Q : sensor_data_block -> kstate -> Prop) (st : kstate) :
  block_of (resp st) b = Some k -> Q k st -> wpx F (get_block b) Q st.
Proof. intros H HQ. exact (wpx_eq F _ _ _ _ _ (get_block_ok st b k H) HQ). Qed.

Lemma wpx_store_block (F : fault -> Prop) (b : Z) (k : sensor_data_block)
      (f : sensor_data_block -> sensor_data_block)
      (Q : unit -> kstate -> Prop) (st : kstate) :
  block_of (resp st) b = Some k -> Q tt (put_block b (f k) st) ->
  wpx F (store_block b f) Q st.
Proof. intros H HQ. exact (wpx_eq F _ _ _ _ _ (store_block_ok st b k f H) HQ). Qed.

(** ** Record arrays *)

Lemma elem_at_ok {A} (p : ptr A) (a : array A) (s : Z) (x : A) (st : kstate) :
  p = Some a -> zth (elems a) s = Some x -> elem_at p s st = Ok (x, st).
Proof. intros -> H. unfold elem_at. now rewrite H. Qed.

Lemma store_sensor_ok (st : kstate) (b s : Z) (k : sensor_data_block)
      (a : array occ_sensor) (x : occ_sensor) (f : occ_sensor -> occ_sensor) :
  block_of (resp st) b = Some k -> sensor k = Some a -> zth (elems a) s = Some x ->
  store_sensor b s f st
  = Ok (tt, put_block b (with_sensor (Some (mk_array (base a) (zset (elems a) s (f x)))) k) st).
Proof.
  intros Hb Hs Hx. unfold store_sensor.
  rewrite (bind_Ok _ _ _ _ _ (get_block_ok _ _ _ Hb)).
  rewrite (bind_Ok _ _ _ _ _ (elem_at_ok _ _ _ _ _ Hs Hx)).
  rewrite Hs. now apply set_block_ok with k.
Qed.

Lemma store_powr_ok (st : kstate) (b s : Z) (k : sensor_data_block)
      (a : array powr_sensor) (x : powr_sensor) (f : powr_sensor -> powr_sensor) :
  block_of (resp st) b = Some k -> powr k = Some a -> zth (elems a) s = Some x ->
  store_powr b s f st
  = Ok (tt, put_block b (with_powr (Some (mk_array (base a) (zset (elems a) s (f x)))) k) st).
Proof.
  intros Hb Hs Hx. unfold store_powr.
  rewrite (bind_Ok _ _ _ _ _ (get_block_ok _ _ _ Hb)).
  rewrite (bind_Ok _ _ _ _ _ (elem_at_ok _ _ _ _ _ Hs Hx)).
  rewrite Hs. now apply set_block_ok with k.
Qed.

Lemma wpx_store_sensor (F : fault -> Prop) (b s : Z) (k : sensor_data_block)
      (a : array occ_sensor) (x : occ_sensor) (f : occ_sensor -> occ_sensor)
      (Q : unit -> kstate -> Prop) (st : kstate) :
  block_of (resp st) b = Some k -> sensor k = Some a -> zth (elems a) s = Some x ->
  (forall st',
      block_of (resp st') b
      = Some (with_sensor (Some (mk_array (base a) (zset (elems a) s (f x)))) k) ->
      Q tt st') ->
  wpx F (store_sensor b s f) Q st.
Proof.
  intros Hb Hs Hx HQ.
  refine (wpx_eq F _ _ _ _ _ (store_sensor_ok st b s k a x f Hb Hs Hx) _).
  apply HQ. eapply block_of_put_block_same; eauto.
Qed.

Lemma wpx_store_powr (F : fault -> Prop) (b s : Z) (k : sensor_data_block)
      (a : array powr_sensor) (x : powr_sensor) (f : powr_sensor -> powr_sensor)
      (Q : unit -> kstate -> Prop) (st : kstate) :
  block_of (resp st) b = Some k -> powr k = Some a -> zth (elems a) s = Some x ->
  (forall st',
      block_of (resp st') b
      = Some (with_powr (Some (mk_array (base a) (zset (elems a) s (f x)))) k) ->
      Q tt st') ->
  wpx F (store_powr b s f) Q st.
Proof.
  intros Hb Hs Hx HQ.
  refine (wpx_eq F _ _ _ _ _ (store_powr_ok st b s k a x f Hb Hs Hx) _).
  apply HQ. eapply block_of_put_block_same; eauto.
Qed.

Lemma get_sensor_ok (st : kstate) (b s : Z) (k : sensor_data_block)
      (a : array occ_sensor) (x : occ_sensor) :
  block_of (resp st) b = Some k -> sensor k = Some a -> zth (elems a) s = Some x ->
  get_sensor b s st = Ok (x, st).
Proof.
  intros Hb Hs Hx. unfold get_sensor.
  rewrite (bind_Ok _ _ _ _ _ (get_block_ok _ _ _ Hb)).
  now apply elem_at_ok with a.
Qed.

(** Reading [blocks[b].sensor[s]] while [blocks[b].sensor] is NULL. *)
Lemma get_sensor_null (st : kstate) (b s : Z) (k : sensor_data_block) :
  block_of (resp st) b = Some k -> sensor k = None ->
  get_sensor b s st = Fault NullDeref.
Proof.
  intros Hb Hs. unfold get_sensor.
  rewrite (bind_Ok _ _ _ _ _ (get_block_ok _ _ _ Hb)).
  unfold elem_at. now rewrite Hs.
Qed.

Lemma with_sensor_twice (p q : ptr occ_sensor) (k : sensor_data_block) :
  with_sensor p (with_sensor q k) = with_sensor p k.
Proof. reflexivity. Qed.

Lemma with_powr_twice (p q : ptr powr_sensor) (k : sensor_data_block) :
  with_powr p (with_powr q k) = with_powr p k.
Proof. reflexivity. Qed.

(** One pass through the body of the FREQ/TEMP record loop. *)
Ltac sensor_store Hb :=
  apply wpx_bind; apply wpx_rd; [lia|];
  apply wpx_bind; eapply wpx_store_sensor;
  [exact Hb | reflexivity
  | first [eassumption | cbn [elems]; eapply zth_zset_same; eassumption] |];
  clear Hb; intros ? Hb;
  rewrite ?with_sensor_twice in Hb;
  cbn [sensor_id value base elems] in Hb; rewrite ?zset_twice in Hb.

(** The FREQ/TEMP record loop, run on records that lie inside the frame:
    it ends with the cursor [n] strides further, and has stored in
    [sensor[s .. s+n-1]] the records found at the successive stride
    offsets; the rest of the array and of block [b] is as before. *)
Lemma read_sensors_spec (F : fault -> Prop) (cs : bool) (d : list byte) (b : Z)
      (k : sensor_data_block) (n : nat) :
  forall (s dnum : Z) (a : array occ_sensor) (st : kstate),
    block_of (resp st) b = Some (with_sensor (Some a) k) ->
    0 <= s -> s + Z.of_nat n <= Z.of_nat (length (elems a)) ->
    0 <= dnum -> 0 <= sensor_length k ->
    (0 < Z.of_nat n -> dnum + (Z.of_nat n - 1) * sensor_length k + 4 <= len d) ->
    wpx F (read_sensors cs d b n s dnum)
      (fun dnum' st' =>
         dnum' = dnum + Z.of_nat n * sensor_length k
         /\ exists a',
             block_of (resp st') b = Some (with_sensor (Some a') k)
             /\ base a' = base a
             /\ length (elems a') = length (elems a)
             /\ (forall j, s <= j < s + Z.of_nat n ->
                   zth (elems a') j
                   = Some (value_record cs d (dnum + (j - s) * sensor_length k)))
             /\ (forall j, ~ s <= j < s + Z.of_nat n ->
                   zth (elems a') j = zth (elems a) j)) st.
Proof.
  induction n as [|n IH]; intros s dnum a st Hb Hs Hn Hd Hstride Hfit.
  - apply wpx_ret. split; [lia|]. exists a.
    repeat split; auto. intros j Hj. lia.
  - assert (0 <= (Z.of_nat (S n) - 1) * sensor_length k) as Hnn by nia.
    assert (dnum + (Z.of_nat (S n) - 1) * sensor_length k + 4 <= len d) as Hfit'
      by (apply Hfit; lia).
    destruct (zth (elems a) s) as [x0|] eqn:Hx0.
    2:{ apply zth_bound_None in Hx0. lia. }
    cbn [read_sensors].
    sensor_store Hb. sensor_store Hb. sensor_store Hb. sensor_store Hb.
    apply wpx_bind.
    match type of Hb with
    | _ = Some (with_sensor (Some ?a1) _) =>
        refine (wpx_eq F _ _ _ _ _ (get_sensor_ok _ b s _ a1 _ Hb eq_refl _) _);
        [eapply zth_zset_same; eassumption|]
    end.
    apply wpx_bind, wpx_printk. apply wpx_bind.
    eapply wpx_get_block; [exact Hb|].
    cbn [sensor_length with_sensor].
    eapply wpx_weaken.
    + eapply (IH (s + 1) (dnum + sensor_length k)); try lia.
      * exact Hb.
      * cbn [elems]. rewrite !zset_length. lia.
    + cbn beta. intros dnum' stf (Hcur & a' & Hb' & Hbase & Hlen & Hin & Hout).
      split; [lia|]. exists a'. split; [exact Hb'|].
      cbn [base elems] in *. rewrite !zset_length in Hlen.
      repeat split; auto.
      * intros j Hj. destruct (Z.eq_dec j s) as [->|Hne].
        -- rewrite Hout by lia.
           rewrite (zth_zset_same _ _ _ _ Hx0).
           replace (dnum + (s - s) * sensor_length k) with dnum by lia.
           unfold value_record. rewrite !Z.add_0_r. reflexivity.
        -- rewrite Hin by lia. f_equal. f_equal. lia.
      * intros j Hj. rewrite Hout by lia.
        apply zth_zset_other; lia.
Qed.

Lemma wpx_fault (e : fault) {A} (m : M A) (st : kstate) :
  wpx (eq e) m (fun _ _ => False) st <-> m st = Fault e.
Proof.
  unfold wpx. destruct (m st) as [[a st']|e0]; split; intros H;
    try contradiction; try discriminate; congruence.
Qed.

Ltac powr_store Hb :=
  apply wpx_bind; apply wpx_rd; [lia|];
  apply wpx_bind; eapply wpx_store_powr;
  [exact Hb | reflexivity
  | first [eassumption | cbn [elems]; eapply zth_zset_same; eassumption] |];
  clear Hb; intros ? Hb;
  rewrite ?with_powr_twice in Hb;
  cbn [powr_sensor_id update_tag accumulator powr_value base elems] in Hb;
  rewrite ?zset_twice in Hb.

(** The POWR record loop stops in its first pass: the record is stored
    in [powr[s]], then the printk reads [sensor[s]] through the NULL
    [sensor] pointer of the block. *)
Lemma read_powr_null (cs : bool) (d : list byte) (b : Z) (k : sensor_data_block)
      (n : nat) (s dnum : Z) (a : array powr_sensor) (st : kstate) :
  block_of (resp st) b = Some (with_powr (Some a) k) ->
  sensor k = None ->
  0 <= s < Z.of_nat (length (elems a)) ->
  0 <= dnum -> dnum + 12 <= len d ->
  read_powr cs d b (S n) s dnum st = Fault NullDeref.
Proof.
  intros Hb Hnull Hs Hd Hfit. apply wpx_fault.
  destruct (zth (elems a) s) as [x0|] eqn:Hx0.
  2:{ apply zth_bound_None in Hx0. lia. }
  cbn [read_powr].
  do 12 powr_store Hb.
  apply wpx_bind. unfold wpx.
  rewrite (get_sensor_null _ _ _ _ Hb) by exact Hnull. reflexivity.
Qed.

(** ** The loop body behind the block head *)

Lemma wpx_kzalloc (F : fault -> Prop) {A} (z : A) (n : Z)
      (Q : ptr A -> kstate -> Prop) (st : kstate) :
  (forall i h', heap_alloc (heap st) = (Some i, h') ->
                Q (Some (mk_array i (repeat z (Z.to_nat n))))
                  (mk_kstate (resp st) h' (klog st))) ->
  (forall h', heap_alloc (heap st) = (None, h') ->
              Q None (mk_kstate (resp st) h' (klog st))) ->
  wpx F (kzalloc z n) Q st.
Proof.
  intros Hsome Hnone. unfold wpx, kzalloc.
  destruct (heap_alloc (heap st)) as [[i|] h'] eqn:E; auto.
Qed.

(** An empty block: nothing but the printk happens. *)
Lemma dispatch_empty (cs : bool) (d : list byte) (b dnum : Z) (st : kstate)
      (k : sensor_data_block) :
  block_of (resp st) b = Some k ->
  num_of_sensors k <= 0 \/ sensor_length k = 0 ->
  dispatch_block cs d b dnum st
  = Ok (Next dnum,
        with_log (klog st ++ [msg_sensor_block b (sensor_type k) (num_of_sensors k)
                                (sensor_length k)]) st).
Proof.
  intros Hb Hempty. unfold dispatch_block.
  rewrite (bind_Ok _ _ _ _ _ (get_block_ok _ _ _ Hb)).
  unfold bind at 1. unfold printk at 1. cbv beta iota.
  destruct (num_of_sensors k <=? 0) eqn:E1; [reflexivity|].
  destruct (sensor_length k =? 0) eqn:E2; [reflexivity|]. lia.
Qed.

(** A non-empty block of another type than FREQ, TEMP and POWR: the block
    is reported and left; the cursor is still behind the head. *)
Lemma dispatch_other (cs : bool) (d : list byte) (b dnum : Z) (st : kstate)
      (k : sensor_data_block) :
  block_of (resp st) b = Some k ->
  0 < num_of_sensors k -> sensor_length k <> 0 ->
  strcmp_eq (sensor_type k) "FREQ" = false ->
  strcmp_eq (sensor_type k) "TEMP" = false ->
  strcmp_eq (sensor_type k) "POWR" = false ->
  dispatch_block cs d b dnum st
  = Ok (Next dnum,
        with_log (klog st ++ [msg_sensor_block b (sensor_type k) (num_of_sensors k)
                                (sensor_length k);
                              msg_not_supported (sensor_type k)]) st).
Proof.
  intros Hb Hn Hl HF HT HP. unfold dispatch_block.
  rewrite (bind_Ok _ _ _ _ _ (get_block_ok _ _ _ Hb)).
  unfold bind at 1. unfold printk at 1. cbv beta iota.
  destruct (num_of_sensors k <=? 0) eqn:E1; [lia|].
  destruct (sensor_length k =? 0) eqn:E2; [lia|].
  rewrite HF, HT, HP. unfold bind, printk, ret, with_log. cbn [resp heap klog].
  now rewrite <- app_assoc.
Qed.

(** A non-empty FREQ or TEMP block whose records lie inside the frame:
    either the allocation of the record array fails and the loop body
    leaves for the abort label with -ENOMEM, or all declared records are
    stored and the cursor has moved by [num_of_sensors * sensor_length]. *)
Lemma dispatch_value (F : fault -> Prop) (cs : bool) (d : list byte) (b dnum : Z)
      (st : kstate) (k : sensor_data_block) :
  block_of (resp st) b = Some k ->
  0 < num_of_sensors k -> 0 < sensor_length k ->
  strcmp_eq (sensor_type k) "FREQ" = true
  \/ strcmp_eq (sensor_type k) "TEMP" = true ->
  0 <= dnum ->
  dnum + (num_of_sensors k - 1) * sensor_length k + 4 <= len d ->
  wpx F (dispatch_block cs d b dnum)
    (fun c st' =>
       match c with
       | Abort r =>
           r = - ENOMEM /\ exists h', heap_alloc (heap st) = (None, h')
       | Next dnum' =>
           dnum' = dnum + num_of_sensors k * sensor_length k
           /\ exists a',
               block_of (resp st') b = Some (with_sensor (Some a') k)
               /\ Z.of_nat (length (elems a')) = num_of_sensors k
               /\ (forall j, 0 <= j < num_of_sensors k ->
                     zth (elems a') j
                     = Some (value_record cs d (dnum + j * sensor_length k)))
       end) st.
Proof.
  intros Hb Hn Hl Htag Hd Hfit. unfold dispatch_block.
  apply wpx_bind. eapply wpx_get_block; [exact Hb|].
  apply wpx_bind, wpx_printk.
  destruct (num_of_sensors k <=? 0) eqn:E1; [lia|].
  destruct (sensor_length k =? 0) eqn:E2; [lia|].
  assert (forall set_id : occ_response_t -> occ_response_t,
             (forall o j, block_of (set_id o) j = block_of o j) ->
             wpx F
               (p <- kzalloc zero_occ_sensor (num_of_sensors k);;
                store_block b (with_sensor p);;
                k0 <- get_block b;;
                match sensor k0 with
                | Some _ =>
                    o <- get_resp;;
                    put_resp (set_id o);;
                    k1 <- get_block b;;
                    dnum0 <- read_sensors cs d b (Z.to_nat (num_of_sensors k1)) 0 dnum;;
                    ret (Next dnum0)
                | None => ret (Abort (- ENOMEM))
                end)
               (fun c st' =>
                  match c with
                  | Abort r =>
                      r = - ENOMEM /\ exists h', heap_alloc (heap st) = (None, h')
                  | Next dnum' =>
                      dnum' = dnum + num_of_sensors k * sensor_length k
                      /\ exists a',
                          block_of (resp st') b = Some (with_sensor (Some a') k)
                          /\ Z.of_nat (length (elems a')) = num_of_sensors k
                          /\ (forall j, 0 <= j < num_of_sensors k ->
                                zth (elems a') j
                                = Some (value_record cs d (dnum + j * sensor_length k)))
                  end)
               (with_log (klog st ++ [msg_sensor_block b (sensor_type k)
                                        (num_of_sensors k) (sensor_length k)]) st))
    as Hbranch.
  { intros set_id Hid. apply wpx_bind, wpx_kzalloc.
    - intros i h' Halloc. apply wpx_bind.
      eapply wpx_store_block; [exact Hb|].
      match goal with
      | |- wpx _ _ _ ?s1 =>
          assert (block_of (resp s1) b
                  = Some (with_sensor
                            (Some (mk_array i (repeat zero_occ_sensor
                                                 (Z.to_nat (num_of_sensors k))))) k))
            as Hb1 by (eapply block_of_put_block_same; exact Hb);
          revert Hb1; generalize s1; intros sx Hb1
      end.
      apply wpx_bind. eapply wpx_get_block; [exact Hb1|]. cbn [sensor with_sensor].
      apply wpx_bind, wpx_get_resp. apply wpx_bind, wpx_put_resp.
      apply wpx_bind. eapply wpx_get_block; [cbn [resp]; rewrite Hid; exact Hb1|].
      cbn [num_of_sensors with_sensor].
      apply wpx_bind. eapply wpx_weaken.
      + eapply (read_sensors_spec F cs d b k); try lia.
        * cbn [resp]. rewrite Hid. exact Hb1.
        * cbn [elems]. rewrite repeat_length. lia.
      + cbn beta. intros dnum' stf (Hcur & a' & Hb' & _ & Hlen & Hin & _).
        apply wpx_ret. rewrite Z2Nat.id in * by lia.
        split; [lia|]. exists a'. split; [exact Hb'|].
        cbn [elems] in Hlen. rewrite repeat_length in Hlen.
        split; [lia|]. intros j Hj. rewrite Hin by lia.
        f_equal. f_equal. lia.
    - intros h' Halloc. apply wpx_bind.
      eapply wpx_store_block; [exact Hb|].
      apply wpx_bind. eapply wpx_get_block;
        [eapply block_of_put_block_same; exact Hb|].
      cbn [sensor with_sensor]. apply wpx_ret. split; [reflexivity|].
      now exists h'. }
  destruct (strcmp_eq (sensor_type k) "FREQ") eqn:EF.
  - apply Hbranch. reflexivity.
  - destruct Htag as [Htag|Htag]; [discriminate|]. rewrite Htag.
    apply Hbranch. reflexivity.
Qed.

Lemma wpx_faults (F F' : fault -> Prop) {A} (m : M A) (Q : A -> kstate -> Prop)
      (st : kstate) :
  wpx F m Q st -> (forall e, F e -> F' e) -> wpx F' m Q st.
Proof.
  unfold wpx. destruct (m st) as [[a st']|e]; auto.
Qed.

(** A non-empty POWR block whose first record lies inside the frame, in
    a block whose [sensor] pointer is NULL: unless the allocation of the
    [powr] array fails, the loop body ends in the NULL read. *)
Lemma dispatch_powr (cs : bool) (d : list byte) (b dnum : Z) (st : kstate)
      (k : sensor_data_block) :
  block_of (resp st) b = Some k ->
  sensor k = None ->
  0 < num_of_sensors k -> sensor_length k <> 0 ->
  strcmp_eq (sensor_type k) "FREQ" = false ->
  strcmp_eq (sensor_type k) "TEMP" = false ->
  strcmp_eq (sensor_type k) "POWR" = true ->
  0 <= dnum -> dnum + 12 <= len d ->
  wpx (eq NullDeref) (dispatch_block cs d b dnum)
    (fun c _ => c = Abort (- ENOMEM) /\ exists h', heap_alloc (heap st) = (None, h'))
    st.
Proof.
  intros Hb Hnull Hn Hl HF HT HP Hd Hfit. unfold dispatch_block.
  apply wpx_bind. eapply wpx_get_block; [exact Hb|].
  apply wpx_bind, wpx_printk.
  destruct (num_of_sensors k <=? 0) eqn:E1; [lia|].
  destruct (sensor_length k =? 0) eqn:E2; [lia|].
  rewrite HF, HT, HP.
  apply wpx_bind, wpx_kzalloc.
  - intros i h' Halloc. apply wpx_bind.
    eapply wpx_store_block; [exact Hb|].
    match goal with
    | |- wpx _ _ _ ?s1 =>
        assert (block_of (resp s1) b
                = Some (with_powr
                          (Some (mk_array i (repeat zero_powr_sensor
                                               (Z.to_nat (num_of_sensors k))))) k))
          as Hb1 by (eapply block_of_put_block_same; exact Hb);
        revert Hb1; generalize s1; intros sx Hb1
    end.
    apply wpx_bind. eapply wpx_get_block; [exact Hb1|]. cbn [powr with_powr].
    apply wpx_bind, wpx_get_resp. apply wpx_bind, wpx_put_resp.
    apply wpx_bind. eapply wpx_get_block; [exact Hb1|].
    cbn [num_of_sensors with_powr].
    apply wpx_bind. unfold wpx at 1.
    destruct (Z.to_nat (num_of_sensors k)) as [|n] eqn:En; [lia|].
    rewrite (read_powr_null cs d b k n 0 dnum
               (mk_array i (repeat zero_powr_sensor (S n)))); auto.
    cbn [elems]. rewrite repeat_length. lia.
  - intros h' Halloc. apply wpx_bind.
    eapply wpx_store_block; [exact Hb|].
    apply wpx_bind. eapply wpx_get_block;
      [eapply block_of_put_block_same; exact Hb|].
    cbn [powr with_powr]. apply wpx_ret. split; [reflexivity|].
    now exists h'.
Qed.

(** ** Properties kept by the loop body *)

Section Preservation.

Variable J : kstate -> Prop.

Lemma pres_ret {A} (a : A) : pres J (ret a).
Proof. intros st H. exact H. Qed.

Lemma pres_bind {A B} (m : M A) (f : A -> M B) :
  pres J m -> (forall a, pres J (f a)) -> pres J (bind m f).
Proof.
  intros Hm Hf st H. apply wpx_bind. eapply wpx_weaken; [apply Hm, H|].
  intros a st' H'. now apply Hf.
Qed.

Lemma pres_rd (cs : bool) (d : list byte) (i : Z) : pres J (rd cs d i).
Proof.
  intros st H. unfold wpx, rd. now destruct (zth d i).
Qed.

Lemma pres_strncpy (d : list byte) (n : nat) : forall off, pres J (strncpy d off n).
Proof.
  induction n as [|n IH]; intros off st H.
  - exact H.
  - unfold wpx. cbn [strncpy]. destruct (zth d off) as [c|]; [|exact I].
    destruct (Byte.eqb c x00); [exact H|].
    apply (pres_bind (strncpy d (off + 1) n) (fun r => ret (c :: r)));
      [apply IH | intros; apply pres_ret | exact H].
Qed.

Lemma pres_get_block (b : Z) : pres J (get_block b).
Proof.
  intros st H. unfold wpx, get_block, get_blocks, bind.
  destruct (blocks (data (resp st))) as [a|]; [|exact I].
  destruct (zth (elems a) b); [exact H | exact I].
Qed.

Lemma pres_elem_at {A} (p : ptr A) (s : Z) : pres J (elem_at p s).
Proof.
  intros st H. unfold wpx, elem_at. destruct p as [a|]; [|exact I].
  destruct (zth (elems a) s); [exact H | exact I].
Qed.

Lemma pres_get_sensor (b s : Z) : pres J (get_sensor b s).
Proof.
  apply pres_bind; [apply pres_get_block | intros; apply pres_elem_at].
Qed.

Variable b : Z.
Hypothesis Jstable : stable J b.

Lemma pres_printk (m : kmsg) : pres J (printk m).
Proof.
  intros st H. apply wpx_printk. now apply (@stable_env _ _ Jstable st).
Qed.

Lemma pres_kzalloc {A} (z : A) (n : Z) : pres J (kzalloc z n).
Proof.
  intros st H. apply wpx_kzalloc; intros; now apply (@stable_env _ _ Jstable st).
Qed.

Lemma pres_kfree {A} (p : ptr A) : pres J (kfree p).
Proof.
  intros st H. unfold wpx, kfree. destruct p; [|exact H].
  now apply (@stable_env _ _ Jstable st).
Qed.

(** [o->temp_block_id = b] and its like: a store to a field of the
    response outside [data]. *)
Lemma pres_set_id {A} (g : occ_response_t -> occ_response_t) (m : M A) :
  (forall o, data (g o) = data o) -> pres J m ->
  pres J (o <- get_resp;; put_resp (g o);; m).
Proof.
  intros Hg Hm st H. apply wpx_bind, wpx_get_resp. apply wpx_bind, wpx_put_resp.
  apply Hm. apply (@stable_env _ _ Jstable st); auto.
Qed.

Lemma pres_set_block (k : sensor_data_block) : pres J (set_block b k).
Proof.
  intros st H. destruct (block_of (resp st) b) as [k0|] eqn:Hb.
  - refine (wpx_eq _ _ _ _ _ _ (set_block_ok st b k0 k Hb) _).
    now apply (@stable_put _ _ Jstable st k0).
  - unfold wpx, set_block, get_blocks, bind. unfold block_of in Hb.
    destruct (blocks (data (resp st))) as [a|]; [|exact I].
    now rewrite Hb.
Qed.

Lemma pres_store_block (f : sensor_data_block -> sensor_data_block) :
  pres J (store_block b f).
Proof.
  apply pres_bind; [apply pres_get_block | intros; apply pres_set_block].
Qed.

Lemma pres_store_sensor (s : Z) (f : occ_sensor -> occ_sensor) :
  pres J (store_sensor b s f).
Proof.
  apply pres_bind; [apply pres_get_block | intros k].
  apply pres_bind; [apply pres_elem_at | intros x].
  destruct (sensor k); [apply pres_set_block | intros st H; exact I].
Qed.

Lemma pres_store_powr (s : Z) (f : powr_sensor -> powr_sensor) :
  pres J (store_powr b s f).
Proof.
  apply pres_bind; [apply pres_get_block | intros k].
  apply pres_bind; [apply pres_elem_at | intros x].
  destruct (powr k); [apply pres_set_block | intros st H; exact I].
Qed.

Ltac pres_step :=
  first [ apply pres_ret | apply pres_rd | apply pres_strncpy | apply pres_get_block
        | apply pres_get_sensor | apply pres_printk | apply pres_kzalloc
        | apply pres_store_block | apply pres_store_sensor | apply pres_store_powr
        | apply pres_set_id; [reflexivity|]
        | apply pres_bind; [|intros ?] ].

Lemma pres_read_sensors (cs : bool) (d : list byte) (n : nat) :
  forall s dnum, pres J (read_sensors cs d b n s dnum).
Proof.
  induction n as [|n IH]; intros s dnum; cbn [read_sensors].
  - apply pres_ret.
  - repeat pres_step. apply IH.
Qed.

Lemma pres_read_powr (cs : bool) (d : list byte) (n : nat) :
  forall s dnum, pres J (read_powr cs d b n s dnum).
Proof.
  induction n as [|n IH]; intros s dnum; cbn [read_powr].
  - apply pres_ret.
  - repeat pres_step. apply IH.
Qed.

Lemma pres_read_block_head (cs : bool) (d : list byte) (dnum : Z) :
  pres J (read_block_head cs d b dnum).
Proof. unfold read_block_head. repeat pres_step. Qed.

Lemma pres_dispatch_block (cs : bool) (d : list byte) (dnum : Z) :
  pres J (dispatch_block cs d b dnum).
Proof.
  unfold dispatch_block.
  apply pres_bind; [apply pres_get_block | intros k].
  apply pres_bind; [apply pres_printk | intros _].
  destruct (num_of_sensors k <=? 0); [apply pres_ret|].
  destruct (sensor_length k =? 0); [apply pres_ret|].
  destruct (strcmp_eq (sensor_type k) "FREQ").
  { apply pres_bind; [apply pres_kzalloc | intros p].
    apply pres_bind; [apply pres_store_block | intros _].
    apply pres_bind; [apply pres_get_block | intros k1].
    destruct (sensor k1); [|apply pres_ret].
    repeat pres_step. apply pres_read_sensors. }
  destruct (strcmp_eq (sensor_type k) "TEMP").
  { apply pres_bind; [apply pres_kzalloc | intros p].
    apply pres_bind; [apply pres_store_block | intros _].
    apply pres_bind; [apply pres_get_block | intros k1].
    destruct (sensor k1); [|apply pres_ret].
    repeat pres_step. apply pres_read_sensors. }
  destruct (strcmp_eq (sensor_type k) "POWR").
  { apply pres_bind; [apply pres_kzalloc | intros p].
    apply pres_bind; [apply pres_store_block | intros _].
    apply pres_bind; [apply pres_get_block | intros k1].
    destruct (powr k1); [|apply pres_ret].
    repeat pres_step. apply pres_read_powr. }
  repeat pres_step.
Qed.

Lemma pres_parse_block (cs : bool) (d : list byte) (dnum : Z) :
  pres J (parse_block cs d b dnum).
Proof.
  apply pres_bind; [apply pres_read_block_head | intros; apply pres_dispatch_block].
Qed.

End Preservation.

(** ** The block array during the loop *)

Lemma blocks_inv_stable (id : nat) (n b : Z) :
  0 <= b -> stable (blocks_inv id n (b + 1)) b.
Proof.
  intros Hb. split.
  - intros st o h l Hd (bl & H1 & H2 & H3 & H4). exists bl. cbn [resp].
    rewrite Hd. auto.
  - intros st k k' Hk (bl & H1 & H2 & H3 & H4).
    unfold put_block. rewrite H1. exists (zset bl b k'). cbn.
    rewrite zset_length. repeat split; auto.
    intros j Hj. rewrite zth_zset_other by lia. apply H4. lia.
Qed.

Lemma blocks_inv_weaken (id : nat) (n b b' : Z) (st : kstate) :
  b <= b' -> blocks_inv id n b st -> blocks_inv id n b' st.
Proof.
  intros Hle (bl & H1 & H2 & H3 & H4). exists bl. repeat split; auto.
  intros j Hj. apply H4. lia.
Qed.

Lemma blocks_inv_block (id : nat) (n b : Z) (st : kstate) :
  blocks_inv id n b st -> 0 <= b < n -> block_of (resp st) b = Some zero_block.
Proof.
  intros (bl & H1 & H2 & H3 & H4) Hb. unfold block_of. rewrite H1. apply H4. lia.
Qed.

(** One loop body keeps the block array and returns to the abort label
    with -ENOMEM only. *)
Lemma valp_bind {A B} (P : B -> Prop) (m : M A) (f : A -> M B) :
  (forall a, valp P (f a)) -> valp P (bind m f).
Proof.
  intros Hf st. unfold wpx, bind. destruct (m st) as [[a st']|e]; [|exact I].
  apply Hf.
Qed.

Lemma valp_ret {A} (P : A -> Prop) (a : A) : P a -> valp P (ret a).
Proof. intros H st. exact H. Qed.

Lemma parse_block_abort_code (cs : bool) (d : list byte) (b dnum : Z) :
  valp abort_enomem (parse_block cs d b dnum).
Proof.
  unfold parse_block. apply valp_bind. intros _. unfold dispatch_block.
  apply valp_bind. intros k. apply valp_bind. intros _.
  destruct (num_of_sensors k <=? 0); [now apply valp_ret|].
  destruct (sensor_length k =? 0); [now apply valp_ret|].
  destruct (strcmp_eq (sensor_type k) "FREQ").
  { do 3 (apply valp_bind; intros ?). destruct (sensor a1); [|now apply valp_ret].
    do 4 (apply valp_bind; intros ?). now apply valp_ret. }
  destruct (strcmp_eq (sensor_type k) "TEMP").
  { do 3 (apply valp_bind; intros ?). destruct (sensor a1); [|now apply valp_ret].
    do 4 (apply valp_bind; intros ?). now apply valp_ret. }
  destruct (strcmp_eq (sensor_type k) "POWR").
  { do 3 (apply valp_bind; intros ?). destruct (powr a1); [|now apply valp_ret].
    do 4 (apply valp_bind; intros ?). now apply valp_ret. }
  apply valp_bind. intros _. now apply valp_ret.
Qed.

Lemma wpx_conj (F : fault -> Prop) {A} (m : M A) (Q1 Q2 : A -> kstate -> Prop)
      (st : kstate) :
  wpx F m Q1 st -> wpx F m Q2 st -> wpx F m (fun a s => Q1 a s /\ Q2 a s) st.
Proof.
  unfold wpx. destruct (m st) as [[a st']|e]; auto.
Qed.

Lemma parse_block_keeps (cs : bool) (d : list byte) (id : nat) (n b dnum : Z)
      (st : kstate) :
  0 <= b -> blocks_inv id n b st ->
  wpx (fun _ => True) (parse_block cs d b dnum)
    (fun c st' => blocks_inv id n (b + 1) st' /\ abort_enomem c) st.
Proof.
  intros Hb Hinv. apply wpx_conj.
  - apply (pres_parse_block (blocks_inv id n (b + 1)) b (blocks_inv_stable id n b Hb)).
    eapply blocks_inv_weaken; [|exact Hinv]. lia.
  - apply parse_block_abort_code.
Qed.

(** *** deinit_occ_resp_buf on a block array *)

Lemma deinit_blocks_ok (fuel : nat) :
  forall (b : Z) (st : kstate) (id : nat) (n b' : Z),
    blocks_inv id n b' st -> 0 <= b -> b + Z.of_nat fuel <= n ->
    deinit_blocks fuel b st = Ok (tt, st).
Proof.
  induction fuel as [|fuel IH]; intros b st id n b' Hinv Hb Hle.
  - reflexivity.
  - assert (exists k, block_of (resp st) b = Some k) as [k Hk].
    { destruct Hinv as (bl & H1 & H2 & _). unfold block_of. rewrite H1.
      exists (nth (Z.to_nat b) bl zero_block). apply zth_Some. cbn [elems]. lia. }
    cbn [deinit_blocks].
    rewrite (bind_Ok _ _ _ _ _ (get_block_ok _ _ _ Hk)).
    assert ((match sensor k with
             | Some _ => ret tt
             | None => kfree (sensor k)
             end) st = Ok (tt, st)) as H1 by (now destruct (sensor k) eqn:E; try rewrite E).
    rewrite (bind_Ok _ _ _ _ _ H1).
    rewrite (bind_Ok _ _ _ _ _ (get_block_ok _ _ _ Hk)).
    assert ((match powr k with
             | Some _ => ret tt
             | None => kfree (powr k)
             end) st = Ok (tt, st)) as H2 by (now destruct (powr k) eqn:E; try rewrite E).
    rewrite (bind_Ok _ _ _ _ _ H2).
    apply (IH (b + 1) st id n b'); auto; lia.
Qed.

(** With a block array in place, [deinit_occ_resp_buf] releases the
    block array, and only it, and zeroes the response. *)
Lemma deinit_ok (st : kstate) (id : nat) (n b' : Z) :
  blocks_inv id n b' st ->
  deinit_occ_resp_buf st
  = Ok (0, mk_kstate zero_response (heap_free id (heap st)) (klog st)).
Proof.
  intros Hinv. pose proof Hinv as (bl & H1 & H2 & H3 & H4).
  unfold deinit_occ_resp_buf. unfold bind at 1. unfold get_resp at 1. cbv beta iota.
  rewrite H1.
  assert (0 + Z.of_nat (Z.to_nat (num_of_sensor_blocks (data (resp st)))) <= n) as Hle
    by (rewrite H3; lia).
  rewrite (bind_Ok _ _ _ _ _ (deinit_blocks_ok _ 0 st id n b' Hinv (Z.le_refl 0) Hle)).
  reflexivity.
Qed.

Lemma heap_free_not_live (id : nat) (h : kheap) : ~ In id (live (heap_free id h)).
Proof. unfold heap_free. cbn [live]. apply remove_In. Qed.

(** ** Failed decodes *)

Lemma valp_const {A} (P : Prop) (m : M A) : P -> valp (fun _ => P) m.
Proof.
  intros H st. unfold wpx. destruct (m st) as [[a st']|e]; auto.
Qed.

Lemma valp_rd_in (P : Prop) {B} (cs : bool) (d : list byte) (i : Z) (f : Z -> M B) :
  (0 <= i < len d -> forall c, valp (fun _ => P) (f c)) ->
  valp (fun _ => P) (bind (rd cs d i) f).
Proof.
  intros Hf st. unfold wpx, bind, rd. destruct (zth d i) as [c|] eqn:E; [|exact I].
  apply zth_bound in E. now apply Hf.
Qed.

(** The header is read in full only from a frame of 45 bytes or more. *)
Lemma parse_header_len (cs : bool) (d : list byte) (st sth : kstate) :
  parse_header cs d st = Ok (tt, sth) -> 45 <= len d.
Proof.
  intros Hrun.
  assert (valp (fun _ : unit => 45 <= len d) (parse_header cs d)) as Hv.
  { unfold parse_header. do 24 (apply valp_bind; intros ?).
    apply valp_rd_in. intros Hin c44. apply valp_const. lia. }
  specialize (Hv st). unfold wpx in Hv. now rewrite Hrun in Hv.
Qed.

Lemma heap_alloc_some (h h' : kheap) (i : nat) :
  heap_alloc h = (Some i, h') -> i = next_id h /\ live h' = i :: live h.
Proof.
  unfold heap_alloc. destruct (kzalloc_plan h) as [|[|] pl]; intros H;
    inversion H; subst; auto.
Qed.

Lemma heap_alloc_none (h h' : kheap) :
  heap_alloc h = (None, h') -> live h' = live h.
Proof.
  unfold heap_alloc. destruct (kzalloc_plan h) as [|[|] pl]; intros H;
    inversion H; subst; auto.
Qed.

(** The block loop returns 0, or it went through the abort label: then
    it returns -ENOMEM, the response is zeroed and the block array is no
    longer allocated. *)
Lemma parse_blocks_outcome (cs : bool) (d : list byte) (id : nat) (n : Z)
      (fuel : nat) :
  forall (b dnum : Z) (st : kstate),
    blocks_inv id n b st -> 0 <= b ->
    wpx (fun _ => True) (parse_blocks cs d fuel b dnum)
      (fun r st' =>
         r = 0
         \/ (r = - ENOMEM /\ resp st' = zero_response /\ ~ In id (live (heap st'))))
      st.
Proof.
  induction fuel as [|fuel IH]; intros b dnum st Hinv Hb.
  - apply wpx_ret. now left.
  - cbn [parse_blocks]. apply wpx_bind.
    eapply wpx_weaken; [apply (parse_block_keeps cs d id n b dnum st Hb Hinv)|].
    cbn beta. intros [dnum'|r] st1 [Hinv1 Hcode].
    + apply IH; [exact Hinv1 | lia].
    + cbn in Hcode. subst r.
      apply wpx_bind.
      refine (wpx_eq _ _ _ _ _ _ (deinit_ok st1 id n (b + 1) Hinv1) _).
      apply wpx_ret. right. cbn [resp heap]. repeat split.
      apply heap_free_not_live.
Qed.

(** The block array right after its allocation. *)
Lemma blocks_inv_fresh (o : occ_response_t) (i : nat) (h : kheap) (l : list kmsg) :
  0 <= num_of_sensor_blocks (data o) ->
  blocks_inv i (num_of_sensor_blocks (data o)) 0
    (mk_kstate
       (with_data
          (with_blocks
             (Some (mk_array i (repeat zero_block
                                  (Z.to_nat (num_of_sensor_blocks (data o))))))
             (data o)) o) h l).
Proof.
  intros Hn. eexists. cbn. split; [reflexivity|].
  rewrite repeat_length. repeat split; try lia.
  intros j Hj. rewrite (zth_Some _ _ zero_block) by (rewrite repeat_length; lia).
  f_equal. apply nth_repeat.
Qed.

(** A decode that fails on the marker has overwritten the header fields
    of the response: a failed decode does leave a trace. *)
Lemma failed_decode_leaves_trace : ~ failed_decode_leaves_no_trace.
Proof.
  intros H.
  destruct (parse_occ_response false bad_marker_frame (init_state []))
    as [[r st']|e] eqn:Hrun; [|vm_compute in Hrun; discriminate].
  assert (r <> 0) as Hr by (vm_compute in Hrun; injection Hrun as <- _; discriminate).
  destruct (H false bad_marker_frame (init_state []) r st' Hrun Hr) as [Hresp _].
  vm_compute in Hrun. injection Hrun as _ <-.
  apply (f_equal sequence_num) in Hresp. vm_compute in Hresp. discriminate.
Qed.

(** C4 (amended). A decode that returns a non-zero code has taken one of
    three exits.  (1) -1, on a marker mismatch or a zero block count:
    nothing has been allocated, the heap is as before and the block
    pointer of the response is untouched; the header fields read so far
    stay written in the response.  (2) -ENOMEM because the block array
    could not be allocated: the live allocations are as before and the
    block pointer is NULL.  (3) -ENOMEM by way of the abort label, after
    a record array could not be allocated: the response has been zeroed,
    so no partly built response is reachable, and the block array, the
    first allocation of the call, has been released. *)
Theorem failed_decode_state (cs : bool) (d : list byte) (st : kstate)
        (r : Z) (st' : kstate) :
  parse_occ_response cs d st = Ok (r, st') -> r <> 0 ->
  (r = -1 /\ heap st' = heap st
   /\ blocks (data (resp st')) = blocks (data (resp st)))
  \/ (r = - ENOMEM /\ live (heap st') = live (heap st)
      /\ blocks (data (resp st')) = None)
  \/ (r = - ENOMEM /\ resp st' = zero_response
      /\ ~ In (next_id (heap st)) (live (heap st'))).
Proof.
  intros Hrun Hr. unfold parse_occ_response in Hrun.
  unfold bind at 1 in Hrun.
  destruct (parse_header cs d st) as [[[] sth]|e] eqn:Hh; [|discriminate].
  pose proof (parse_header_len _ _ _ _ Hh) as Hlen.
  destruct (parse_header_ok cs d st Hlen) as (o' & Hok & Heye & Hnum & _ & _ & Hblk & _).
  rewrite Hok in Hh. injection Hh as <-.
  unfold bind at 1 in Hrun. unfold get_resp at 1 in Hrun.
  cbv beta iota in Hrun. cbn [resp] in Hrun.
  destruct (negb (strcmp_eq (sensor_eye_catcher (data o')) "SENSOR")).
  { left. cbv [bind printk ret] in Hrun. cbn [resp heap klog] in Hrun.
    injection Hrun as <- <-. cbn [resp heap]. auto. }
  destruct (num_of_sensor_blocks (data o') =? 0) eqn:En.
  { left. cbv [bind printk ret] in Hrun. cbn [resp heap klog] in Hrun.
    injection Hrun as <- <-. cbn [resp heap]. auto. }
  right. unfold bind at 1 in Hrun. unfold kzalloc at 1 in Hrun.
  cbn [heap resp klog] in Hrun.
  destruct (heap_alloc (heap st)) as [[i|] h'] eqn:Ha.
  - right. apply heap_alloc_some in Ha as [Hi Hlive]. subst i.
    unfold bind at 1 in Hrun. unfold get_resp at 1 in Hrun.
    cbv beta iota in Hrun. cbn [resp] in Hrun.
    unfold bind at 1 in Hrun. unfold put_resp at 1 in Hrun.
    cbv beta iota in Hrun. cbn [resp heap klog] in Hrun.
    unfold bind at 1 in Hrun. unfold get_resp at 1 in Hrun.
    cbv beta iota in Hrun. cbn [resp] in Hrun.
    unfold bind at 1 in Hrun. unfold printk at 1 in Hrun.
    cbv beta iota in Hrun. cbn [resp heap klog] in Hrun.
    assert (0 <= num_of_sensor_blocks (data o')) as Hn0
      by (rewrite Hnum; apply byte_val_range).
    match type of Hrun with
    | parse_blocks _ _ ?fuel _ _ ?s1 = _ =>
        pose proof (parse_blocks_outcome cs d (next_id (heap st))
                      (num_of_sensor_blocks (data o')) fuel 0 45 s1) as Hout
    end.
    unfold wpx in Hout. rewrite Hrun in Hout.
    destruct Hout as [H0|H1]; [| | contradiction | exact H1]; [|lia].
    apply blocks_inv_fresh. exact Hn0.
  - left. apply heap_alloc_none in Ha.
    cbv [bind get_resp put_resp ret] in Hrun. cbn [resp heap klog] in Hrun.
    injection Hrun as <- <-. cbn [resp heap data with_data with_blocks blocks]. auto.
Qed.

Lemma failed_decode_state_witness :
  (- ENOMEM = -1 /\ heap enomem_state = heap (init_state [true; true; false])
   /\ blocks (data (resp enomem_state))
      = blocks (data (resp (init_state [true; true; false]))))
  \/ (- ENOMEM = - ENOMEM
      /\ live (heap enomem_state) = live (heap (init_state [true; true; false]))
      /\ blocks (data (resp enomem_state)) = None)
  \/ (- ENOMEM = - ENOMEM /\ resp enomem_state = zero_response
      /\ ~ In (next_id (heap (init_state [true; true; false])))
              (live (heap enomem_state))).
Proof.
  apply (failed_decode_state false fake_occ_rsp (init_state [true; true; false])
           (- ENOMEM) enomem_state).
  - vm_compute. reflexivity.
  - vm_compute. discriminate.
Defined.

(** On the abort path the record arrays allocated before the failure
    stay allocated: [deinit_occ_resp_buf] calls [kfree] on the NULL
    pointers only.  Here the TEMP record array (allocation 1) is still
    live after the FREQ allocation failed. *)
Example abort_keeps_record_arrays :
  live (heap enomem_state) = [1%nat] /\ resp enomem_state = zero_response.
Proof. vm_compute. split; reflexivity. Qed.

(** ** Entries of the block loop *)

(** At every entry of the loop body the block array is in place and the
    blocks from the current one on are untouched. *)
Lemma reaches_inv (cs : bool) (d : list byte) (st0 : kstate) (b dnum : Z)
      (st : kstate) :
  reaches cs d st0 b dnum st ->
  exists id, blocks_inv id (num_of_sensor_blocks (data (resp st))) b st
             /\ 0 <= b < num_of_sensor_blocks (data (resp st)).
Proof.
  induction 1 as [sth i h' Hlen Hh Heye Hnum Ha | b dnum st dnum' st' Hreach IH Hlt Hrun].
  - destruct (parse_header_ok cs d st0 Hlen) as (o' & Hok & _ & Hn & _).
    rewrite Hok in Hh. injection Hh as <-. cbn [resp] in *.
    assert (0 <= num_of_sensor_blocks (data o')) as Hn0
      by (rewrite Hn; apply byte_val_range).
    exists i. split; [|cbn; lia].
    apply (blocks_inv_fresh o' i h'). exact Hn0.
  - destruct IH as (id & Hinv & Hb).
    pose proof (parse_block_keeps cs d id _ b dnum st (proj1 Hb) Hinv) as Hk.
    unfold wpx in Hk. rewrite Hrun in Hk. destruct Hk as [Hinv' _].
    pose proof Hinv' as (bl & _ & _ & Hn' & _).
    exists id. rewrite Hn'. split; [exact Hinv' | lia].
Qed.

Lemma reaches_block (cs : bool) (d : list byte) (st0 : kstate) (b dnum : Z)
      (st : kstate) :
  reaches cs d st0 b dnum st -> block_of (resp st) b = Some zero_block.
Proof.
  intros H. destruct (reaches_inv _ _ _ _ _ _ H) as (id & Hinv & Hb).
  eapply blocks_inv_block; eauto.
Qed.

(** From an entry of the loop body on, the decoder is the block loop
    with the blocks that are left. *)
Lemma reaches_run (cs : bool) (d : list byte) (st0 : kstate) (b dnum : Z)
      (st : kstate) :
  reaches cs d st0 b dnum st ->
  parse_occ_response cs d st0
  = parse_blocks cs d (Z.to_nat (num_of_sensor_blocks (data (resp st)) - b)) b dnum st.
Proof.
  induction 1 as [sth i h' Hlen Hh Heye Hnum Ha | b dnum st dnum' st' Hreach IH Hlt Hrun].
  - unfold parse_occ_response. rewrite (bind_Ok _ _ _ _ _ Hh).
    unfold bind at 1. unfold get_resp at 1. cbv beta iota.
    rewrite Heye. cbn [negb].
    destruct (num_of_sensor_blocks (data (resp sth)) =? 0) eqn:E; [lia|].
    unfold bind at 1. unfold kzalloc at 1. rewrite Ha.
    cbv [bind get_resp put_resp printk]. cbn [resp heap klog].
    cbn [num_of_sensor_blocks data with_data with_blocks].
    now rewrite Z.sub_0_r.
  - rewrite IH.
    destruct (reaches_inv _ _ _ _ _ _ Hreach) as (id & Hinv & Hb).
    pose proof (parse_block_keeps cs d id _ b dnum st (proj1 Hb) Hinv) as Hk.
    unfold wpx in Hk. rewrite Hrun in Hk. destruct Hk as [(bl & _ & _ & Hn' & _) _].
    rewrite Hn'.
    replace (Z.to_nat (num_of_sensor_blocks (data (resp st)) - b))
      with (S (Z.to_nat (num_of_sensor_blocks (data (resp st)) - (b + 1)))) by lia.
    cbn [parse_blocks]. now rewrite (bind_Ok _ _ _ _ _ Hrun).
Qed.

(** The tag of a fresh block after its head was read. *)
Lemma head_block_tag (d : list byte) (dnum : Z) (lit : string) :
  0 <= dnum -> dnum + 4 <= len d ->
  length (list_byte_of_string lit) = 4%nat ->
  forallb (fun c => negb (Byte.eqb c x00)) (list_byte_of_string lit) = true ->
  strcmp_eq (sensor_type (head_block d dnum zero_block)) lit = tag_is d dnum lit.
Proof.
  intros H0 Hlen H4 Hnz. unfold strcmp_eq, tag_is, desc_tag, head_block.
  cbn [sensor_type with_descriptor zero_block repeat skipn].
  assert (length (window d dnum 4) = length (list_byte_of_string lit)) as Hw
    by (rewrite H4; apply window_length; simpl; lia).
  pose proof (strcmp_strncpy _ Hnz (window d dnum 4) [] Hw) as H.
  rewrite H4 in H. exact H.
Qed.



Lemma reaches_loop_entry (cs : bool) (d : list byte) (st0 : kstate) :
  45 <= len d ->
  window d 37 6 = list_byte_of_string "SENSOR" ->
  byte_val (byte_at d 43) <> 0 ->
  fst (heap_alloc (heap st0)) <> None ->
  reaches cs d st0 0 45 (loop_entry cs d st0).
Proof.
  intros Hlen Hmark Hcount Halloc.
  destruct (parse_header_ok cs d st0 Hlen) as (o' & Hok & Heye & Hn & _).
  unfold loop_entry. rewrite Hok. cbn [heap].
  destruct (heap_alloc (heap st0)) as [[i|] h'] eqn:Ha; [|now cbn in Halloc].
  eapply (@reaches_first cs d st0 (mk_kstate o' (heap st0) (klog st0)) i h'); auto.
  - cbn [resp]. rewrite Heye, marker_test by (apply window_length; lia).
    now apply bytes_eqb_eq.
  - cbn [resp]. now rewrite Hn.
Qed.

(** ** The sandwich frame *)


(** The records of the TEMP block behind the empty block of the sandwich
    frame are decoded from their own bytes. *)
Example sandwich_decodes :
  exists st',
    parse_occ_response false sandwich_frame (init_state []) = Ok (0, st')
    /\ option_map (fun a => map sensors_of (elems a)) (blocks (data (resp st')))
       = Some [[mk_occ_sensor 106 42]; []; [mk_occ_sensor 108 43; mk_occ_sensor 109 44]]
    /\ temp_block_id (resp st') = 2.
Proof.
  eexists. split; [vm_compute; reflexivity|]. split; vm_compute; reflexivity.
Qed.

(** ** POWR blocks *)

Lemma tag_is_powr (d : list byte) (dnum : Z) :
  tag_is d dnum "POWR" = true ->
  tag_is d dnum "FREQ" = false /\ tag_is d dnum "TEMP" = false.
Proof.
  unfold tag_is. intros H. apply bytes_eqb_eq in H. rewrite H. split; reflexivity.
Qed.

(** C5. When the loop body is entered for a POWR block that declares at
    least one record and a non-zero stride, with its descriptor and first
    record inside the frame, and the allocation of the [powr] array
    succeeds, the decoder ends in a read through a NULL pointer: the
    printk of the record loop reads [blocks[b].sensor[0]] while only
    [blocks[b].powr] was allocated. *)
Theorem powr_block_null_read (cs : bool) (d : list byte) (st0 : kstate)
        (b dnum : Z) (st : kstate) :
  reaches cs d st0 b dnum st ->
  0 <= dnum -> dnum + 8 + 12 <= len d ->
  tag_is d dnum "POWR" = true ->
  0 < desc_count d dnum -> 0 < desc_stride d dnum ->
  fst (heap_alloc (heap st)) <> None ->
  parse_occ_response cs d st0 = Fault NullDeref.
Proof.
  intros Hreach H0 Hlen Htag Hcount Hstride Halloc.
  pose proof (reaches_block _ _ _ _ _ _ Hreach) as Hb.
  destruct (reaches_inv _ _ _ _ _ _ Hreach) as (id & _ & Hbn).
  destruct (tag_is_powr d dnum Htag) as [HF HT].
  rewrite (reaches_run _ _ _ _ _ _ Hreach).
  replace (Z.to_nat (num_of_sensor_blocks (data (resp st)) - b))
    with (S (Z.to_nat (num_of_sensor_blocks (data (resp st)) - (b + 1)))) by lia.
  cbn [parse_blocks]. apply bind_Fault. unfold parse_block.
  rewrite (bind_Ok _ _ _ _ _ (read_block_head_ok cs d b dnum st _ Hb H0 ltac:(lia))).
  pose proof (dispatch_powr cs d b (dnum + 8) (put_block b (head_block d dnum zero_block) st)
                (head_block d dnum zero_block)) as Hd.
  unfold wpx in Hd.
  destruct (dispatch_block cs d b (dnum + 8)
              (put_block b (head_block d dnum zero_block) st)) as [[c st1]|e].
  - exfalso. destruct Hd as [_ [h' Hnone]]; try lia; try reflexivity.
    + eapply block_of_put_block_same; exact Hb.
    + cbn [num_of_sensors head_block with_descriptor]. exact Hcount.
    + cbn [sensor_length head_block with_descriptor]. lia.
    + rewrite head_block_tag; auto; lia.
    + rewrite head_block_tag; auto; lia.
    + rewrite head_block_tag; auto; lia.
    + rewrite heap_put_block in Hnone. rewrite Hnone in Halloc. now cbn in Halloc.
  - rewrite <- Hd; try lia; try reflexivity.
    + eapply block_of_put_block_same; exact Hb.
    + cbn [num_of_sensors head_block with_descriptor]. exact Hcount.
    + cbn [sensor_length head_block with_descriptor]. lia.
    + rewrite head_block_tag; auto; lia.
    + rewrite head_block_tag; auto; lia.
    + rewrite head_block_tag; auto; lia.
Qed.

Lemma powr_block_null_read_witness :
  parse_occ_response false powr_frame (init_state []) = Fault NullDeref.
Proof.
  apply (powr_block_null_read false powr_frame (init_state []) 0 45
           (loop_entry false powr_frame (init_state []))).
  - apply reaches_loop_entry; vm_compute; discriminate || reflexivity.
  - lia.
  - vm_compute. discriminate.
  - vm_compute. reflexivity.
  - vm_compute. reflexivity.
  - vm_compute. reflexivity.
  - vm_compute. discriminate.
Defined.

(** ** FREQ and TEMP blocks *)

Lemma value_record_unsigned (d : list byte) (off : Z) :
  value_record false d off = mk_occ_sensor (be16 d off) (be16 d (off + 2)).
Proof.
  unfold value_record, be16. rewrite !char_to_int_unsigned, !be16_unsigned.
  rewrite Z.add_0_r. replace (off + 2 + 1) with (off + 3) by lia. reflexivity.
Qed.

(** When the loop body is entered for a FREQ or TEMP block that declares
    [count >= 1] records at a stride [>= 1], all inside the frame, then,
    unless the allocation of the record array fails, it ends with the
    cursor [count * stride] behind the descriptor, and record [s] of the
    block is the one found at the start of the stride window
    [dnum + 8 + s * stride]. *)
Lemma value_block_records (cs : bool) (d : list byte) (st0 : kstate)
      (b dnum : Z) (st : kstate) :
  reaches cs d st0 b dnum st ->
  0 <= dnum ->
  tag_is d dnum "FREQ" = true \/ tag_is d dnum "TEMP" = true ->
  0 < desc_count d dnum -> 0 < desc_stride d dnum ->
  dnum + 8 + (desc_count d dnum - 1) * desc_stride d dnum + 4 <= len d ->
  wpx (fun _ => False) (parse_block cs d b dnum)
    (fun c st' =>
       match c with
       | Abort r => r = - ENOMEM /\ fst (heap_alloc (heap st)) = None
       | Next dnum' =>
           dnum' = dnum + 8 + desc_count d dnum * desc_stride d dnum
           /\ exists k',
               block_of (resp st') b = Some k'
               /\ Z.of_nat (length (sensors_of k')) = desc_count d dnum
               /\ forall s, 0 <= s < desc_count d dnum ->
                    zth (sensors_of k') s
                    = Some (value_record cs d (dnum + 8 + s * desc_stride d dnum))
       end) st.
Proof.
  intros Hreach H0 Htag Hcount Hstride Hfit.
  pose proof (reaches_block _ _ _ _ _ _ Hreach) as Hb.
  assert (0 <= (desc_count d dnum - 1) * desc_stride d dnum) as Hnn by nia.
  unfold parse_block. apply wpx_bind.
  refine (wpx_eq _ _ _ _ _ _ (read_block_head_ok cs d b dnum st _ Hb H0 ltac:(lia)) _).
  eapply wpx_weaken.
  - apply (dispatch_value (fun _ => False) cs d b (dnum + 8) _
             (head_block d dnum zero_block)).
    + eapply block_of_put_block_same; exact Hb.
    + exact Hcount.
    + exact Hstride.
    + rewrite !head_block_tag; auto; lia.
    + lia.
    + cbn [num_of_sensors sensor_length head_block with_descriptor]. lia.
  - cbn beta. cbn [num_of_sensors sensor_length head_block with_descriptor].
    intros [dnum'|r] st'.
    + intros (Hcur & a' & Hb' & Hlen' & Hrec). split; [lia|].
      eexists. split; [exact Hb'|]. unfold sensors_of. cbn [sensor with_sensor].
      split; [exact Hlen'|exact Hrec].
    + intros (Hr & h' & Hnone). rewrite heap_put_block in Hnone.
      split; [exact Hr|]. now rewrite Hnone.
Qed.

(** C2, on the POWR part.  In the sample frame with one POWR record the
    TEMP and FREQ blocks are decoded, and the POWR block is the third:
    the decoder stops in the NULL read of its record loop, so no power
    record is delivered. *)
Theorem power_record_not_delivered (cs : bool) :
  parse_occ_response cs sample_with_power_record (init_state []) = Fault NullDeref.
Proof. destruct cs; vm_compute; reflexivity. Qed.

(** ** Unrecognized blocks *)

(** When the loop body is entered for a non-empty block of another tag
    than FREQ, TEMP and POWR, it ends without error and without
    allocation, with the cursor at [dnum + 8]: the [count * stride]
    bytes of the block's records are not skipped. *)
Lemma unrecognized_block_cursor (cs : bool) (d : list byte) (st0 : kstate)
      (b dnum : Z) (st : kstate) :
  reaches cs d st0 b dnum st ->
  0 <= dnum -> dnum + 8 <= len d ->
  tag_is d dnum "FREQ" = false -> tag_is d dnum "TEMP" = false ->
  tag_is d dnum "POWR" = false ->
  0 < desc_count d dnum -> 0 < desc_stride d dnum ->
  exists st',
    parse_block cs d b dnum st = Ok (Next (dnum + 8), st')
    /\ heap st' = heap st
    /\ sensors_of (head_block d dnum zero_block) = []
    /\ block_of (resp st') b = Some (head_block d dnum zero_block).
Proof.
  intros Hreach H0 Hlen HF HT HP Hcount Hstride.
  pose proof (reaches_block _ _ _ _ _ _ Hreach) as Hb.
  eexists. split; [|split; [|split]].
  - unfold parse_block.
    rewrite (bind_Ok _ _ _ _ _ (read_block_head_ok cs d b dnum st _ Hb H0 Hlen)).
    apply (dispatch_other cs d b (dnum + 8) _ (head_block d dnum zero_block)).
    + eapply block_of_put_block_same; exact Hb.
    + exact Hcount.
    + cbn [sensor_length head_block with_descriptor]. lia.
    + rewrite head_block_tag; auto; lia.
    + rewrite head_block_tag; auto; lia.
    + rewrite head_block_tag; auto; lia.
  - cbn [heap with_log]. apply heap_put_block.
  - reflexivity.
  - cbn [resp with_log]. eapply block_of_put_block_same; exact Hb.
Qed.

(** C3, at a frame with a block "FOOX" of one 4-byte record followed by
    a TEMP block of one record.  The decoder returns 0 and records the
    FOOX block without records, but it reads the second descriptor at
    offset 53, inside the FOOX record, instead of offset 57: block 1 is
    recorded with an empty tag, stride 77 and count 80, and the TEMP
    record is not decoded. *)
Theorem unrecognized_block_desynchronizes (cs : bool) :
  exists st',
    parse_occ_response cs foox_frame (init_state []) = Ok (0, st')
    /\ desc_tag foox_frame 57 = list_byte_of_string "TEMP"
    /\ shapes_of (resp st')
       = [(list_byte_of_string "FOOX", 4, 1, 0%nat, 0%nat);
          ([], 77, 80, 0%nat, 0%nat)].
Proof.
  destruct cs; eexists; (split; [vm_compute; reflexivity|]);
    split; vm_compute; reflexivity.
Qed.

(** ** Reads inside the frame *)

(** A frame of 4096 bytes whose only block declares 255 records at stride
    255: the decoder reads byte 4133. *)
Lemma overlong_block_read_outside : ~ reads_stay_inside_frame.
Proof.
  intros H. apply (H false overlong_frame (init_state []) 4133).
  vm_compute. reflexivity.
Qed.

(** Neither is a short or truncated frame refused: with 44 bytes the
    decoder reads byte 44 of the header, and with the last byte of the
    only record missing it reads that byte. *)
Example short_frames_read_outside :
  parse_occ_response false (firstn 44 fake_occ_rsp) (init_state []) = Fault (OobRead 44)
  /\ parse_occ_response false (firstn 56 one_temp_frame) (init_state [])
     = Fault (OobRead 56)
  /\ parse_occ_response false (firstn 52 one_temp_frame) (init_state [])
     = Fault (OobRead 52).
Proof. repeat split; vm_compute; reflexivity. Qed.

Lemma wpx_both (F1 F2 : fault -> Prop) {A} (m : M A) (Q1 Q2 : A -> kstate -> Prop)
      (st : kstate) :
  wpx F1 m Q1 st -> wpx F2 m Q2 st ->
  wpx (fun e => F1 e /\ F2 e) m (fun a s => Q1 a s /\ Q2 a s) st.
Proof.
  unfold wpx. destruct (m st) as [[a st']|e]; auto.
Qed.

Lemma parse_block_cursor (cs : bool) (d : list byte) (b dnum : Z) (st : kstate) :
  block_of (resp st) b = Some zero_block ->
  0 <= dnum -> block_within d dnum = true ->
  wpx not_oob (parse_block cs d b dnum)
    (fun c _ => match c with
                | Next dnum' => dnum' = next_cursor d dnum
                | Abort _ => True
                end) st.
Proof.
  intros Hb H0 Hin. unfold block_within in Hin.
  apply andb_true_iff in Hin as [Hhead Hbody]. apply Z.leb_le in Hhead.
  pose proof (byte_val_range (byte_at d (dnum + 7))) as Hc.
  pose proof (byte_val_range (byte_at d (dnum + 6))) as Hs.
  fold (desc_count d dnum) in Hc. fold (desc_stride d dnum) in Hs.
  unfold parse_block. apply wpx_bind.
  refine (wpx_eq _ _ _ _ _ _ (read_block_head_ok cs d b dnum st _ Hb H0 Hhead) _).
  assert (block_of (resp (put_block b (head_block d dnum zero_block) st)) b
          = Some (head_block d dnum zero_block)) as Hb1
    by (eapply block_of_put_block_same; exact Hb).
  unfold next_cursor. unfold walks_records in *. unfold record_size in Hbody.
  destruct (desc_count d dnum =? 0) eqn:Ec.
  { refine (wpx_eq _ _ _ _ _ _ (dispatch_empty cs d b _ _ _ Hb1 _) _); [|reflexivity].
    cbn [num_of_sensors head_block with_descriptor]. lia. }
  destruct (desc_stride d dnum =? 0) eqn:Es.
  { refine (wpx_eq _ _ _ _ _ _ (dispatch_empty cs d b _ _ _ Hb1 _) _); [|reflexivity].
    cbn [sensor_length head_block with_descriptor]. lia. }
  cbn [negb andb] in *.
  assert (0 <= (desc_count d dnum - 1) * desc_stride d dnum) as Hnn by nia.
  destruct (tag_is d dnum "FREQ" || tag_is d dnum "TEMP") eqn:Ev.
  - cbn [orb] in *. apply Z.leb_le in Hbody. eapply wpx_weaken.
    + apply (dispatch_value not_oob cs d b (dnum + 8) _ (head_block d dnum zero_block));
        [exact Hb1 | | | | lia | ]; cbn [num_of_sensors sensor_length head_block with_descriptor];
        try lia.
      rewrite !head_block_tag; auto; try lia. now apply orb_true_iff.
    + cbn beta. cbn [num_of_sensors sensor_length head_block with_descriptor].
      intros [dnum'|r] st'; [intros [Hcur _]; lia | auto].
  - cbn [orb] in *. apply orb_false_iff in Ev as [EF ET].
    destruct (tag_is d dnum "POWR") eqn:EP.
    + apply Z.leb_le in Hbody. eapply wpx_weaken; [eapply wpx_faults|].
      * apply (dispatch_powr cs d b (dnum + 8) _ (head_block d dnum zero_block));
          [exact Hb1 | reflexivity | | | | | | lia | lia];
          cbn [num_of_sensors sensor_length head_block with_descriptor]; try lia;
          rewrite head_block_tag; auto; lia.
      * intros e <- off. discriminate.
      * cbn beta. intros c st' [-> _]. exact I.
    + refine (wpx_eq _ _ _ _ _ _ (dispatch_other cs d b _ _ _ Hb1 _ _ _ _ _) _);
        cbn [num_of_sensors sensor_length head_block with_descriptor]; try lia;
        try (rewrite head_block_tag; auto; lia).
Qed.

Lemma parse_blocks_within (cs : bool) (d : list byte) (id : nat) (n : Z) (fuel : nat) :
  forall (b dnum : Z) (st : kstate),
    blocks_inv id n b st -> 0 <= b -> b + Z.of_nat fuel <= n -> 0 <= dnum ->
    blocks_within d fuel dnum = true ->
    wpx not_oob (parse_blocks cs d fuel b dnum) (fun _ _ => True) st.
Proof.
  induction fuel as [|fuel IH]; intros b dnum st Hinv Hb Hle H0 Hin.
  - apply wpx_ret. exact I.
  - cbn [blocks_within] in Hin. apply andb_true_iff in Hin as [Hin1 Hin2].
    cbn [parse_blocks]. apply wpx_bind.
    eapply wpx_weaken; [eapply wpx_faults|].
    + apply wpx_both.
      * apply (parse_block_keeps cs d id n b dnum st Hb Hinv).
      * apply (parse_block_cursor cs d b dnum st); auto.
        eapply blocks_inv_block; eauto. lia.
    + cbn beta. intros e [_ He]. exact He.
    + cbn beta. intros [dnum'|r] st1 [[Hinv1 _] Hcur].
      * subst dnum'. apply IH; auto; try lia.
        pose proof (byte_val_range (byte_at d (dnum + 7))) as Hc.
        pose proof (byte_val_range (byte_at d (dnum + 6))) as Hs.
        unfold next_cursor, desc_count, desc_stride.
        destruct (walks_records d dnum); nia.
      * apply wpx_bind.
        refine (wpx_eq _ _ _ _ _ _ (deinit_ok st1 id n (b + 1) Hinv1) _).
        apply wpx_ret. exact I.
Qed.

Lemma frame_within_wpx (cs : bool) (d : list byte) (st : kstate) :
  frame_within d = true ->
  wpx not_oob (parse_occ_response cs d) (fun _ _ => True) st.
Proof.
  intros Hin. unfold frame_within in Hin.
  apply andb_true_iff in Hin as [Hlen Hin]. apply Z.leb_le in Hlen.
  destruct (parse_header_ok cs d st Hlen) as (o' & Hok & Heye & Hn & _).
  unfold parse_occ_response. apply wpx_bind.
  refine (wpx_eq _ _ _ _ _ _ Hok _).
  apply wpx_bind, wpx_get_resp. cbn [resp].
  rewrite Heye, marker_test by (apply window_length; lia).
  destruct (bytes_eqb (window d 37 6) (list_byte_of_string "SENSOR")); cbn [negb].
  2:{ apply wpx_bind, wpx_printk. apply wpx_ret. exact I. }
  destruct (num_of_sensor_blocks (data o') =? 0) eqn:En.
  { apply wpx_bind, wpx_printk. apply wpx_ret. exact I. }
  pose proof (byte_val_range (byte_at d 43)) as Hc. rewrite <- Hn in Hc, Hin.
  apply wpx_bind, wpx_kzalloc.
  - intros i h' Ha. apply wpx_bind, wpx_get_resp. apply wpx_bind, wpx_put_resp.
    apply wpx_bind, wpx_get_resp. apply wpx_bind, wpx_printk.
    cbn [resp num_of_sensor_blocks data with_data with_blocks].
    apply (parse_blocks_within cs d i (num_of_sensor_blocks (data o'))); try lia.
    + apply (blocks_inv_fresh o' i h'). lia.
    + exact Hin.
  - intros h' Ha. apply wpx_bind, wpx_get_resp. apply wpx_bind, wpx_put_resp.
    apply wpx_ret. exact I.
Qed.

(** C1 (amended). The decoder has no length argument and no bounds check
    of its own.  On a frame that holds the 45-byte header and every
    block that the decoder walks (each descriptor, and each record of a
    non-empty FREQ, TEMP or POWR block at its stride offset), it reads
    no byte outside the frame. *)
Theorem frame_within_no_read_outside (cs : bool) (d : list byte) (st : kstate)
        (off : Z) :
  frame_within d = true ->
  parse_occ_response cs d st <> Fault (OobRead off).
Proof.
  intros Hin Hrun. pose proof (frame_within_wpx cs d st Hin) as H.
  unfold wpx in H. rewrite Hrun in H. now apply (H off).
Qed.

Lemma frame_within_no_read_outside_witness :
  parse_occ_response false fake_occ_rsp (init_state []) <> Fault (OobRead 4096).
Proof.
  apply (frame_within_no_read_outside false fake_occ_rsp (init_state []) 4096).
  vm_compute. reflexivity.
Defined.

(** ** The temperature accessors *)

(** With one temperature record decoded, the lookup for attribute index
    2 reads [sensor[1]], outside the record array. *)
Lemma lookup_out_of_range_faults : ~ lookup_out_of_range_is_safe.
Proof.
  intros H.
  destruct (H one_temp_state
              (mk_sensor_data_block [x54; x45; x4d; x50; x00] 0 1 4 1
                 (Some (mk_array 1%nat [mk_occ_sensor 106 42])) None) 2)
    as [r Hr].
  - vm_compute. reflexivity.
  - vm_compute. intros [_ Hlt]. discriminate.
  - vm_compute in Hr. discriminate.
Qed.

Example show_occ_temp_out_of_range :
  show_occ_temp_from false one_temp_frame true 2 (init_state []) = Fault (HeapOob 1)
  /\ show_occ_temp_label_from false one_temp_frame true 2 (init_state []) = Fault (HeapOob 1).
Proof. split; vm_compute; reflexivity. Qed.

(** C6 (amended). The temperature accessors index the record array of
    the temperature block with [n - 1] and make no range check.  They
    first run [occ_update_device], which refreshes the response when a
    refresh is due ([stale]) and else leaves everything as it is, and
    drop its result [r].  Whether a refresh is due or not: when record
    [n - 1] lies in the populated range of the temperature block of the
    response as that step leaves it, [show_occ_temp] yields the record's
    value and [show_occ_temp_label] its sensor id. *)
Theorem temp_lookup_in_range (cs : bool) (rsp : list byte) (stale : bool) (n : Z)
        (st : kstate) (r : Z) (st1 : kstate) (k : sensor_data_block) (x : occ_sensor) :
  occ_update_device_from cs rsp stale st = Ok (r, st1) ->
  temperature_block (resp st1) = Some k ->
  zth (sensors_of k) (n - 1) = Some x ->
  temp_sensor n st1 = Ok (x, st1)
  /\ show_occ_temp_from cs rsp stale n st
     = Ok (value x,
           with_log (klog st1 ++ [msg_temp_lookup (temp_block_id (resp st1)) (n - 1);
                                  msg_temp_value n (value x); msg_output_follows]) st1)
  /\ show_occ_temp_label_from cs rsp stale n st
     = Ok (sensor_id x,
           with_log (klog st1 ++ [msg_temp_id n (sensor_id x); msg_output_follows]) st1)
  /\ (stale = false -> st1 = st /\ r = 0).
Proof.
  intros Hrun Hk Hx. unfold temperature_block in Hk. unfold sensors_of in Hx.
  destruct (sensor k) as [a|] eqn:Hs; [|unfold zth in Hx; destruct (n - 1 <? 0);
                                        [discriminate | now destruct (Z.to_nat (n - 1))]].
  assert (forall s, resp s = resp st1 -> temp_sensor n s = Ok (x, s)) as Hlook.
  { intros s Hresp. unfold temp_sensor. unfold bind at 1. unfold get_resp at 1.
    cbv beta iota. rewrite Hresp.
    assert (block_of (resp s) (temp_block_id (resp st1)) = Some k) as Hb
      by (now rewrite Hresp).
    rewrite (bind_Ok _ _ _ _ _ (get_block_ok _ _ _ Hb)).
    now apply elem_at_ok with a. }
  split; [now apply Hlook|]. split; [|split].
  - unfold show_occ_temp_from. rewrite (bind_Ok _ _ _ _ _ Hrun).
    cbv [bind ret get_resp printk]. cbn [resp]. rewrite Hlook by reflexivity.
    unfold with_log. cbn [resp heap klog]. now rewrite <- !app_assoc.
  - unfold show_occ_temp_label_from. rewrite (bind_Ok _ _ _ _ _ Hrun).
    cbv [bind ret printk]. rewrite Hlook by reflexivity.
    unfold with_log. cbn [resp heap klog]. now rewrite <- !app_assoc.
  - intros ->. unfold occ_update_device_from, ret in Hrun. now injection Hrun as <- <-.
Qed.

Lemma temp_lookup_in_range_witness :
  temp_sensor 10 first_read_state = Ok (mk_occ_sensor 117 0, first_read_state)
  /\ show_occ_temp_from false fake_occ_rsp true 10 (init_state [])
     = Ok (value (mk_occ_sensor 117 0),
           with_log (klog first_read_state
                     ++ [msg_temp_lookup (temp_block_id (resp first_read_state)) (10 - 1);
                         msg_temp_value 10 (value (mk_occ_sensor 117 0));
                         msg_output_follows])
             first_read_state)
  /\ show_occ_temp_label_from false fake_occ_rsp true 10 (init_state [])
     = Ok (sensor_id (mk_occ_sensor 117 0),
           with_log (klog first_read_state
                     ++ [msg_temp_id 10 (sensor_id (mk_occ_sensor 117 0));
                         msg_output_follows])
             first_read_state)
  /\ (true = false -> first_read_state = init_state [] /\ 0 = 0).
Proof.
  apply (temp_lookup_in_range false fake_occ_rsp true 10 (init_state []) 0
           first_read_state
           (mk_sensor_data_block [x54; x45; x4d; x50; x00] 0 1 4 10
              (Some (mk_array 1%nat
                       [mk_occ_sensor 106 0; mk_occ_sensor 108 0; mk_occ_sensor 109 0;
                        mk_occ_sensor 110 0; mk_occ_sensor 111 0; mk_occ_sensor 112 0;
                        mk_occ_sensor 113 0; mk_occ_sensor 115 0; mk_occ_sensor 116 0;
                        mk_occ_sensor 117 0])) None)).
  - vm_compute. reflexivity.
  - vm_compute. reflexivity.
  - vm_compute. reflexivity.
Defined.

(** The same lookup while no refresh is due, on the decoded sample
    frame: the response is read as it is. *)
Example temp_lookup_without_refresh :
  show_occ_temp_from false fake_occ_rsp false 10 sample_state
  = Ok (0, with_log (klog sample_state
                     ++ [msg_temp_lookup 0 9; msg_temp_value 10 0; msg_output_follows])
             sample_state)
  /\ show_occ_temp_label_from false fake_occ_rsp false 10 sample_state
     = Ok (117, with_log (klog sample_state ++ [msg_temp_id 10 117; msg_output_follows])
                  sample_state).
Proof. split; vm_compute; reflexivity. Qed.

(** In the driver as it is, every registered attribute index 1..10 names
    a record of the sample frame's temperature block. *)
Example sample_temp_attributes :
  map (fun n => match show_occ_temp false true n (init_state []) with
                | Ok (v, _) => Some v
                | Fault _ => None
                end) [1; 2; 3; 4; 5; 6; 7; 8; 9; 10]
  = repeat (Some 0) 10
  /\ map (fun n => match show_occ_temp_label false true n (init_state []) with
                   | Ok (v, _) => Some v
                   | Fault _ => None
                   end) [1; 2; 3; 4; 5; 6; 7; 8; 9; 10]
     = map Some [106; 108; 109; 110; 111; 112; 113; 115; 116; 117].
Proof. split; vm_compute; reflexivity. Qed.

(** ** State properties kept by the loop body, in general *)

Lemma get_block_none (st : kstate) (b : Z) :
  block_of (resp st) b = None -> exists e, get_block b st = Fault e.
Proof.
  unfold block_of, get_block, get_blocks, bind.
  destruct (blocks (data (resp st))) as [a|]; [|now eexists].
  intros ->. now eexists.
Qed.

Section Keeping.

Variable J : kstate -> Prop.
Variable b : Z.

(** The stores that [J] is known to survive: a change of the log, and a
    store to block [b] that replaces the block by a related one. *)
Variable R : sensor_data_block -> sensor_data_block -> Prop.
Hypothesis Klog : forall st l, J st -> J (with_log l st).
Hypothesis Kput : forall st k k',
    block_of (resp st) b = Some k -> R k k' -> J st -> J (put_block b k' st).

Lemma keep_printk (m : kmsg) : pres J (printk m).
Proof. intros st H. apply wpx_printk. now apply Klog. Qed.

Lemma keep_store_block (f : sensor_data_block -> sensor_data_block) :
  (forall k, R k (f k)) -> pres J (store_block b f).
Proof.
  intros Hf st H. destruct (block_of (resp st) b) as [k|] eqn:Hb.
  - refine (wpx_eq _ _ _ _ _ _ (store_block_ok st b k f Hb) _).
    apply (Kput st k); auto.
  - destruct (get_block_none st b Hb) as [e He].
    unfold wpx, store_block. now rewrite (bind_Fault _ _ _ _ He).
Qed.

Hypothesis Rsensor : forall k p, R k (with_sensor p k).

Lemma keep_store_sensor (s : Z) (f : occ_sensor -> occ_sensor) :
  pres J (store_sensor b s f).
Proof.
  intros st H. destruct (block_of (resp st) b) as [k|] eqn:Hb.
  - unfold wpx, store_sensor.
    rewrite (bind_Ok _ _ _ _ _ (get_block_ok _ _ _ Hb)).
    unfold bind, elem_at. destruct (sensor k) as [a|] eqn:Hs; [|exact I].
    destruct (zth (elems a) s) as [x|]; [|exact I]. unfold ret.
    rewrite (set_block_ok st b k _ Hb). apply (Kput st k); auto.
  - destruct (get_block_none st b Hb) as [e He].
    unfold wpx, store_sensor. now rewrite (bind_Fault _ _ _ _ He).
Qed.

Lemma keep_read_sensors (cs : bool) (d : list byte) (n : nat) :
  forall s dnum, pres J (read_sensors cs d b n s dnum).
Proof.
  induction n as [|n IH]; intros s dnum; cbn [read_sensors].
  - apply pres_ret.
  - repeat first [ apply pres_rd | apply keep_store_sensor | apply pres_get_sensor
                 | apply keep_printk | apply pres_get_block
                 | apply pres_bind; [|intros ?] ].
    apply IH.
Qed.

Hypothesis Rhead : forall k t r f l n, R k (with_descriptor t r f l n k).

Lemma keep_read_block_head (cs : bool) (d : list byte) (dnum : Z) :
  pres J (read_block_head cs d b dnum).
Proof.
  unfold read_block_head.
  repeat first [ apply pres_rd | apply pres_strncpy
               | apply keep_store_block; intros; apply Rhead
               | apply pres_bind; [|intros ?] ].
Qed.

End Keeping.

(** The POWR record loop never gets through a pass while the [sensor]
    pointer of the block is NULL, wherever the records lie. *)
Lemma wpx_rd_any (cs : bool) (d : list byte) (i : Z) (Q : Z -> kstate -> Prop)
      (st : kstate) :
  (forall c, Q c st) -> wpx (fun _ => True) (rd cs d i) Q st.
Proof.
  intros H. unfold wpx, rd. destruct (zth d i); [apply H | exact I].
Qed.

Lemma wpx_store_powr_any (b s : Z) (k : sensor_data_block)
      (f : powr_sensor -> powr_sensor) (Q : unit -> kstate -> Prop) (st : kstate) :
  block_of (resp st) b = Some k ->
  (forall st' p, block_of (resp st') b = Some (with_powr p k) -> Q tt st') ->
  wpx (fun _ => True) (store_powr b s f) Q st.
Proof.
  intros Hb HQ. unfold wpx, store_powr.
  rewrite (bind_Ok _ _ _ _ _ (get_block_ok _ _ _ Hb)).
  unfold bind, elem_at. destruct (powr k) as [a|]; [|exact I].
  destruct (zth (elems a) s) as [x|]; [|exact I]. unfold ret.
  rewrite (set_block_ok st b k _ Hb). eapply HQ.
  eapply block_of_put_block_same; exact Hb.
Qed.

Ltac powr_store_any Hb :=
  apply wpx_bind; apply wpx_rd_any; intros ?;
  apply wpx_bind; eapply wpx_store_powr_any; [exact Hb|];
  clear Hb; intros ? ? Hb; rewrite ?with_powr_twice in Hb.

Lemma read_powr_faults (cs : bool) (d : list byte) (b : Z) (k : sensor_data_block)
      (p : ptr powr_sensor) (n : nat) (s dnum : Z) (st : kstate) :
  block_of (resp st) b = Some (with_powr p k) ->
  sensor k = None ->
  wpx (fun _ => True) (read_powr cs d b (S n) s dnum) (fun _ _ => False) st.
Proof.
  intros Hb Hnull. cbn [read_powr].
  do 12 powr_store_any Hb.
  apply wpx_bind. unfold wpx.
  now rewrite (get_sensor_null _ _ _ _ Hb Hnull).
Qed.

(** The block head is read in full only when the descriptor lies inside
    the frame. *)
Lemma valp_strncpy_in (P : Prop) {B} (d : list byte) (off : Z) (n : nat)
      (f : list byte -> M B) :
  (0 <= off < len d -> forall t, valp (fun _ => P) (f t)) ->
  valp (fun _ => P) (bind (strncpy d off (S n)) f).
Proof.
  intros Hf st. unfold wpx, bind. cbn [strncpy].
  destruct (zth d off) as [c|] eqn:E; [|exact I].
  apply zth_bound in E.
  destruct (Byte.eqb c x00); [now apply Hf|].
  unfold bind. destruct (strncpy d (off + 1) n st) as [[r st']|e]; [|exact I].
  now apply Hf.
Qed.

Lemma read_block_head_bounds (cs : bool) (d : list byte) (b dnum : Z)
      (st st1 : kstate) :
  read_block_head cs d b dnum st = Ok (tt, st1) -> 0 <= dnum /\ dnum + 8 <= len d.
Proof.
  intros Hrun.
  assert (valp (fun _ : unit => 0 <= dnum /\ dnum + 8 <= len d)
            (read_block_head cs d b dnum)) as Hv.
  { unfold read_block_head. apply valp_strncpy_in. intros H1 t.
    do 7 (apply valp_bind; intros ?).
    apply valp_rd_in. intros H2 c. apply valp_const.
    unfold len in *. lia. }
  specialize (Hv st). unfold wpx in Hv. now rewrite Hrun in Hv.
Qed.

Section KeepingBlocks.

Variable J : kstate -> Prop.
Variable R : sensor_data_block -> sensor_data_block -> Prop.
Hypothesis Klog : forall st l, J st -> J (with_log l st).
Hypothesis Kput : forall b st k k',
    block_of (resp st) b = Some k -> R k k' -> J st -> J (put_block b k' st).
Hypothesis Rsensor : forall k p, R k (with_sensor p k).
Hypothesis Rhead : forall k t r f l n, R k (with_descriptor t r f l n k).
Hypothesis RpowrNull : forall k, powr k = None -> R k (with_powr None k).
Hypothesis Kheap : forall st r h',
    heap_alloc (heap st) = (r, h') -> J st -> J (mk_kstate (resp st) h' (klog st)).
Hypothesis Ktemp : forall st v,
    J st -> J (mk_kstate (with_temp_block_id v (resp st)) (heap st) (klog st)).
Hypothesis Kfreq : forall st v,
    J st -> J (mk_kstate (with_freq_block_id v (resp st)) (heap st) (klog st)).

Lemma keep_kzalloc {A} (z : A) (n : Z) : pres J (kzalloc z n).
Proof.
  intros st H. apply wpx_kzalloc; intros; eapply Kheap; eauto.
Qed.

Lemma keep_value_branch (cs : bool) (d : list byte) (b dnum : Z)
      (k : sensor_data_block) (set_id : Z -> occ_response_t -> occ_response_t) :
  (forall st v, J st -> J (mk_kstate (set_id v (resp st)) (heap st) (klog st))) ->
  pres J (p <- kzalloc zero_occ_sensor (num_of_sensors k);;
          store_block b (with_sensor p);;
          k0 <- get_block b;;
          match sensor k0 with
          | Some _ =>
              o <- get_resp;;
              put_resp (set_id (u16 b) o);;
              k1 <- get_block b;;
              dnum0 <- read_sensors cs d b (Z.to_nat (num_of_sensors k1)) 0 dnum;;
              ret (Next dnum0)
          | None => ret (Abort (- ENOMEM))
          end).
Proof.
  intros Kid.
  apply pres_bind; [apply keep_kzalloc | intros p].
  apply pres_bind; [apply (keep_store_block J b R (Kput b)); intros; apply Rsensor
                   | intros _].
  apply pres_bind; [apply pres_get_block | intros k0].
  destruct (sensor k0); [|apply pres_ret].
  intros st H. apply wpx_bind, wpx_get_resp. apply wpx_bind, wpx_put_resp.
  revert H. generalize st. clear st. intros st H.
  assert (J (mk_kstate (set_id (u16 b) (resp st)) (heap st) (klog st))) as H1
    by now apply Kid.
  revert H1. generalize (mk_kstate (set_id (u16 b) (resp st)) (heap st) (klog st)).
  apply pres_bind; [apply pres_get_block | intros k1].
  apply pres_bind; [|intros; apply pres_ret].
  apply (keep_read_sensors J b R Klog (Kput b) Rsensor).
Qed.

(** The part of the loop body behind the head keeps [J] when it starts
    on a block without record arrays. *)
Lemma keep_dispatch_block (cs : bool) (d : list byte) (b dnum : Z)
      (k : sensor_data_block) (st : kstate) :
  block_of (resp st) b = Some k -> sensor k = None -> powr k = None -> J st ->
  wpx (fun _ => True) (dispatch_block cs d b dnum) (fun _ s => J s) st.
Proof.
  intros Hb Hs Hp HJ. unfold dispatch_block.
  apply wpx_bind. eapply wpx_get_block; [exact Hb|].
  apply wpx_bind, wpx_printk.
  assert (J (with_log (klog st ++ [msg_sensor_block b (sensor_type k) (num_of_sensors k)
                                     (sensor_length k)]) st)) as HJ1 by now apply Klog.
  assert (block_of (resp (with_log (klog st ++ [msg_sensor_block b (sensor_type k)
                                                  (num_of_sensors k) (sensor_length k)])
                            st)) b = Some k) as Hb1 by exact Hb.
  revert HJ1 Hb1.
  generalize (with_log (klog st ++ [msg_sensor_block b (sensor_type k) (num_of_sensors k)
                                      (sensor_length k)]) st).
  clear st Hb HJ. intros st HJ Hb.
  destruct (num_of_sensors k <=? 0) eqn:En; [apply wpx_ret; exact HJ|].
  destruct (sensor_length k =? 0); [apply wpx_ret; exact HJ|].
  destruct (strcmp_eq (sensor_type k) "FREQ").
  { apply (keep_value_branch cs d b dnum k with_freq_block_id Kfreq); exact HJ. }
  destruct (strcmp_eq (sensor_type k) "TEMP").
  { apply (keep_value_branch cs d b dnum k with_temp_block_id Ktemp); exact HJ. }
  destruct (strcmp_eq (sensor_type k) "POWR").
  - apply wpx_bind, wpx_kzalloc.
    + intros i h' Ha. apply wpx_bind. eapply wpx_store_block; [exact Hb|].
      match goal with
      | |- wpx _ _ _ ?s1 =>
          assert (block_of (resp s1) b
                  = Some (with_powr
                            (Some (mk_array i (repeat zero_powr_sensor
                                                 (Z.to_nat (num_of_sensors k))))) k))
            as Hb1 by (eapply block_of_put_block_same; exact Hb);
          revert Hb1; generalize s1; intros sx Hb1
      end.
      apply wpx_bind. eapply wpx_get_block; [exact Hb1|]. cbn [powr with_powr].
      apply wpx_bind, wpx_get_resp. apply wpx_bind, wpx_put_resp.
      apply wpx_bind. eapply wpx_get_block; [exact Hb1|].
      cbn [num_of_sensors with_powr].
      apply wpx_bind.
      destruct (Z.to_nat (num_of_sensors k)) as [|n] eqn:E; [lia|].
      eapply wpx_weaken; [eapply read_powr_faults; [exact Hb1 | exact Hs]|].
      cbn beta. intros _ _ [].
    + intros h' Ha. apply wpx_bind. eapply wpx_store_block; [exact Hb|].
      assert (J (put_block b (with_powr None k) (mk_kstate (resp st) h' (klog st)))) as HJ1.
      { apply (Kput b _ k); [exact Hb | now apply RpowrNull |].
        eapply Kheap; eauto. }
      apply wpx_bind. eapply wpx_get_block;
        [eapply block_of_put_block_same; exact Hb|].
      cbn [powr with_powr]. apply wpx_ret. exact HJ1.
  - apply wpx_bind, wpx_printk. apply wpx_ret. now apply Klog.
Qed.

(** One pass of the loop body on a fresh block keeps [J]. *)
Lemma keep_parse_block (cs : bool) (d : list byte) (b dnum : Z) (st : kstate) :
  block_of (resp st) b = Some zero_block -> J st ->
  wpx (fun _ => True) (parse_block cs d b dnum) (fun _ s => J s) st.
Proof.
  intros Hb HJ. unfold parse_block. apply wpx_bind. unfold wpx at 1.
  destruct (read_block_head cs d b dnum st) as [[[] st1]|e] eqn:Hh; [|exact I].
  destruct (read_block_head_bounds _ _ _ _ _ _ Hh) as [H0 Hlen].
  rewrite (read_block_head_ok cs d b dnum st _ Hb H0 Hlen) in Hh.
  injection Hh as <-.
  apply (keep_dispatch_block cs d b (dnum + 8) (head_block d dnum zero_block)).
  - eapply block_of_put_block_same; exact Hb.
  - reflexivity.
  - reflexivity.
  - apply (Kput b st zero_block); auto. apply Rhead.
Qed.

(** The block loop keeps [J] up to its return, or up to the state from
    which the abort label calls [deinit_occ_resp_buf]. *)
Lemma keep_parse_blocks (cs : bool) (d : list byte) (id : nat) (n : Z) (fuel : nat) :
  forall (b dnum : Z) (st : kstate),
    blocks_inv id n b st -> 0 <= b -> b + Z.of_nat fuel <= n -> J st ->
    wpx (fun _ => True) (parse_blocks cs d fuel b dnum)
      (fun r s =>
         (r = 0 /\ J s /\ blocks_inv id n n s)
         \/ (r = - ENOMEM
             /\ exists s1, J s1
                           /\ s = mk_kstate zero_response (heap_free id (heap s1)) (klog s1)))
      st.
Proof.
  induction fuel as [|fuel IH]; intros b dnum st Hinv Hb Hle HJ.
  - apply wpx_ret. left. repeat split; auto.
    eapply blocks_inv_weaken; [|exact Hinv]. lia.
  - cbn [parse_blocks]. apply wpx_bind.
    eapply wpx_weaken; [eapply wpx_faults|].
    + apply wpx_both.
      * apply (parse_block_keeps cs d id n b dnum st Hb Hinv).
      * apply (keep_parse_block cs d b dnum st); auto.
        eapply blocks_inv_block; eauto. lia.
    + auto.
    + cbn beta. intros [dnum'|r] st1 [[Hinv1 Hcode] HJ1].
      * apply IH; auto; lia.
      * cbn in Hcode. subst r. apply wpx_bind.
        refine (wpx_eq _ _ _ _ _ _ (deinit_ok st1 id n (b + 1) Hinv1) _).
        apply wpx_ret. right. split; [reflexivity|]. now exists st1.
Qed.

End KeepingBlocks.

(** ** The three ways through the decoder *)

(** A decode that returns has read the header of a frame of at least 45
    bytes into the response, and then either returned -1 at one of the
    two checks, or returned -ENOMEM for want of a block array, or
    allocated the block array and run the block loop. *)
Lemma decode_prologue (cs : bool) (d : list byte) (st : kstate) (r : Z) (st' : kstate) :
  parse_occ_response cs d st = Ok (r, st') ->
  45 <= len d
  /\ exists o',
      parse_header cs d st = Ok (tt, mk_kstate o' (heap st) (klog st))
      /\ ((r = -1 /\ resp st' = o' /\ heap st' = heap st)
          \/ (r = - ENOMEM
              /\ resp st' = with_data (with_blocks None (data o')) o'
              /\ exists h', heap_alloc (heap st) = (None, h') /\ heap st' = h')
          \/ (exists i h',
                 heap_alloc (heap st) = (Some i, h')
                 /\ strcmp_eq (sensor_eye_catcher (data o')) "SENSOR" = true
                 /\ num_of_sensor_blocks (data o') <> 0
                 /\ parse_blocks cs d (Z.to_nat (num_of_sensor_blocks (data o'))) 0 45
                      (mk_kstate
                         (with_data
                            (with_blocks
                               (Some (mk_array i
                                        (repeat zero_block
                                           (Z.to_nat (num_of_sensor_blocks (data o'))))))
                               (data o')) o')
                         h'
                         (klog st ++ [msg_reading_blocks (num_of_sensor_blocks (data o'))]))
                    = Ok (r, st'))).
Proof.
  intros Hrun. unfold parse_occ_response in Hrun.
  unfold bind at 1 in Hrun.
  destruct (parse_header cs d st) as [[[] sth]|e] eqn:Hh; [|discriminate].
  pose proof (parse_header_len _ _ _ _ Hh) as Hlen. split; [exact Hlen|].
  destruct (parse_header_ok cs d st Hlen) as (o' & Hok & _).
  rewrite Hok in Hh. injection Hh as <-. exists o'. split; [reflexivity|].
  unfold bind at 1 in Hrun. unfold get_resp at 1 in Hrun.
  cbv beta iota in Hrun. cbn [resp] in Hrun.
  destruct (strcmp_eq (sensor_eye_catcher (data o')) "SENSOR") eqn:Em; cbn [negb] in Hrun.
  2:{ left. cbv [bind printk ret] in Hrun. cbn [resp heap klog] in Hrun.
      injection Hrun as <- <-. cbn [resp heap]. auto. }
  destruct (num_of_sensor_blocks (data o') =? 0) eqn:En.
  { left. cbv [bind printk ret] in Hrun. cbn [resp heap klog] in Hrun.
    injection Hrun as <- <-. cbn [resp heap]. auto. }
  right. unfold bind at 1 in Hrun. unfold kzalloc at 1 in Hrun.
  cbn [heap resp klog] in Hrun.
  destruct (heap_alloc (heap st)) as [[i|] h'] eqn:Ha.
  - right. exists i, h'. split; [reflexivity|]. split; [reflexivity|]. split; [lia|].
    cbv [bind get_resp put_resp printk] in Hrun. cbn [resp heap klog] in Hrun.
    exact Hrun.
  - left. cbv [bind get_resp put_resp ret] in Hrun. cbn [resp heap klog] in Hrun.
    injection Hrun as <- <-. cbn [resp heap]. split; [reflexivity|].
    split; [reflexivity|]. now exists h'.
Qed.

Lemma heap_alloc_incl (h h' : kheap) (r : option nat) :
  heap_alloc h = (r, h') -> forall j, In j (live h) -> In j (live h').
Proof.
  unfold heap_alloc. destruct (kzalloc_plan h) as [|[|] pl]; intros H j Hj;
    inversion H; subst; cbn [live]; auto using in_cons.
Qed.

Lemma put_block_ids (b : Z) (k : sensor_data_block) (st : kstate) :
  temp_block_id (resp (put_block b k st)) = temp_block_id (resp st)
  /\ freq_block_id (resp (put_block b k st)) = freq_block_id (resp st)
  /\ power_block_id (resp (put_block b k st)) = power_block_id (resp st).
Proof.
  unfold put_block. destruct (blocks (data (resp st))); auto.
Qed.

Lemma keeps_live_loop (cs : bool) (d : list byte) (L : list nat) (id : nat) (n : Z)
      (fuel : nat) (b dnum : Z) (st : kstate) :
  blocks_inv id n b st -> 0 <= b -> b + Z.of_nat fuel <= n -> keeps_live L st ->
  wpx (fun _ => True) (parse_blocks cs d fuel b dnum)
    (fun r s =>
       (r = 0 /\ keeps_live L s /\ blocks_inv id n n s)
       \/ (r = - ENOMEM
           /\ exists s1, keeps_live L s1
                         /\ s = mk_kstate zero_response (heap_free id (heap s1)) (klog s1)))
    st.
Proof.
  apply (keep_parse_blocks (keeps_live L) (fun _ _ => True)); auto.
  - intros b0 s k k' _ _ H j Hj. rewrite heap_put_block. now apply H.
  - intros s r h' Ha H j Hj. cbn [heap]. eapply heap_alloc_incl; eauto.
Qed.

(** X1.  A decode never releases an allocation that was live when it was
    called, and a decode that returns 0 leaves its block array, the
    first allocation it made, live and in the response. *)
Theorem decode_keeps_allocations (cs : bool) (d : list byte) (st : kstate)
        (r : Z) (st' : kstate) :
  wf_heap (heap st) ->
  parse_occ_response cs d st = Ok (r, st') ->
  (forall j, In j (live (heap st)) -> In j (live (heap st')))
  /\ (r = 0 ->
      In (next_id (heap st)) (live (heap st'))
      /\ exists l, blocks (data (resp st')) = Some (mk_array (next_id (heap st)) l)).
Proof.
  intros Hwf Hrun.
  destruct (decode_prologue cs d st r st' Hrun)
    as (Hlen & o' & Hh & [(Hr & _ & Hheap) | [(Hr & _ & h' & Ha & Hheap) | Hloop]]).
  - rewrite Hheap. split; [auto|]. intros ->. discriminate.
  - rewrite Hheap. split; [eapply heap_alloc_incl; eauto|]. intros ->. discriminate.
  - destruct Hloop as (i & h' & Ha & _ & Hn & Hblocks).
    destruct (parse_header_ok cs d st Hlen) as (o1 & Hok & _ & Hnum & _).
    rewrite Hh in Hok. injection Hok as <-.
    pose proof (byte_val_range (byte_at d 43)) as Hc. rewrite <- Hnum in Hc.
    destruct (heap_alloc_some _ _ _ Ha) as [Hi Hlive]. subst i.
    match type of Hblocks with
    | parse_blocks _ _ ?fuel _ _ ?s1 = _ =>
        pose proof (keeps_live_loop cs d (next_id (heap st) :: live (heap st))
                      (next_id (heap st)) (num_of_sensor_blocks (data o')) fuel 0 45 s1)
          as Hk
    end.
    unfold wpx in Hk. rewrite Hblocks in Hk.
    destruct Hk as [(-> & Hkeep & Hinv) | (-> & s1 & Hkeep & ->)].
    + apply blocks_inv_fresh. lia.
    + lia.
    + lia.
    + intros j Hj. cbn [heap]. now rewrite Hlive.
    + split; [intros j Hj; apply Hkeep; now right|]. intros _.
      split; [apply Hkeep; now left|].
      destruct Hinv as (l & Hl & _). now exists l.
    + split; [|discriminate]. intros j Hj. cbn [heap]. unfold heap_free. cbn [live].
      apply in_in_remove.
      * specialize (Hwf j Hj). lia.
      * apply Hkeep. now right.
Qed.

Lemma decode_keeps_allocations_witness :
  (forall j, In j (live (heap sample_state)) -> In j (live (heap (after_refresh))))
  /\ (0 = 0 ->
      In (next_id (heap sample_state)) (live (heap after_refresh))
      /\ exists l, blocks (data (resp after_refresh))
                   = Some (mk_array (next_id (heap sample_state)) l)).
Proof.
  apply (decode_keeps_allocations false fake_occ_rsp sample_state 0 after_refresh).
  - intros j Hj. vm_compute in Hj. vm_compute.
    destruct Hj as [<-|[<-|[<-|[]]]]; repeat constructor.
  - vm_compute. reflexivity.
Defined.

(** ** Power records *)

Lemma no_power_loop (cs : bool) (d : list byte) (v : Z) (id : nat) (n : Z)
      (fuel : nat) (b dnum : Z) (st : kstate) :
  blocks_inv id n b st -> 0 <= b -> b + Z.of_nat fuel <= n -> no_power v st ->
  wpx (fun _ => True) (parse_blocks cs d fuel b dnum)
    (fun r s =>
       (r = 0 /\ no_power v s /\ blocks_inv id n n s)
       \/ (r = - ENOMEM
           /\ exists s1, no_power v s1
                         /\ s = mk_kstate zero_response (heap_free id (heap s1)) (klog s1)))
    st.
Proof.
  apply (keep_parse_blocks (no_power v) (fun k k' => powr k' = powr k)); auto.
  - intros b0 s k k' Hk HR [Hid Hnone]. split.
    + now rewrite (proj2 (proj2 (put_block_ids b0 k' s))).
    + intros j kj Hj. destruct (Z.eq_dec b0 j) as [->|Hne].
      * rewrite (block_of_put_block_same _ _ _ k' Hk) in Hj. injection Hj as <-.
        rewrite HR. eapply Hnone; eauto.
      * rewrite (block_of_put_block_other _ _ _ _ k' Hk Hne) in Hj. eapply Hnone; eauto.
Qed.

(** X2.  No decode that returns 0 delivers a power record: every block of
    the response it leaves has a NULL [powr] pointer, and
    [power_block_id] is what it was before the call. *)
Theorem successful_decode_has_no_power_record (cs : bool) (d : list byte)
        (st st' : kstate) :
  parse_occ_response cs d st = Ok (0, st') ->
  power_block_id (resp st') = power_block_id (resp st)
  /\ forall j k, block_of (resp st') j = Some k -> powrs_of k = [].
Proof.
  intros Hrun.
  destruct (decode_prologue cs d st 0 st' Hrun)
    as (Hlen & o' & Hh & [(Hr & _) | [(Hr & _) | Hloop]]); try discriminate.
  destruct Hloop as (i & h' & Ha & _ & Hn & Hblocks).
  destruct (parse_header_ok cs d st Hlen)
    as (o1 & Hok & _ & Hnum & _ & _ & _ & _ & _ & Hpow).
  rewrite Hh in Hok. injection Hok as <-.
  pose proof (byte_val_range (byte_at d 43)) as Hc. rewrite <- Hnum in Hc.
  match type of Hblocks with
  | parse_blocks _ _ ?fuel _ _ ?s1 = _ =>
      pose proof (no_power_loop cs d (power_block_id (resp st)) i
                    (num_of_sensor_blocks (data o')) fuel 0 45 s1) as Hk
  end.
  unfold wpx in Hk. rewrite Hblocks in Hk.
  destruct Hk as [(_ & [Hid Hnone] & _) | (Hr & _)]; try discriminate.
  - apply blocks_inv_fresh. lia.
  - lia.
  - split; [exact Hpow|]. intros j k. unfold block_of. cbn [resp data with_data with_blocks blocks elems].
    intros Hj. unfold zth in Hj. destruct (j <? 0); [discriminate|].
    apply nth_error_In in Hj. apply repeat_spec in Hj. now subst k.
  - split; [exact Hid|]. intros j k Hj. unfold powrs_of. now rewrite (Hnone j k Hj).
Qed.

Lemma successful_decode_has_no_power_record_witness :
  power_block_id (resp sample_state) = power_block_id (resp (init_state []))
  /\ forall j k, block_of (resp sample_state) j = Some k -> powrs_of k = [].
Proof.
  apply (successful_decode_has_no_power_record false fake_occ_rsp (init_state [])).
  vm_compute. reflexivity.
Defined.

(** ** Releasing the response *)

Lemma heap_free_live (id : nat) (h : kheap) (j : nat) :
  In j (live (heap_free id h)) <-> In j (live h) /\ j <> id.
Proof.
  unfold heap_free. cbn [live]. split.
  - apply in_remove.
  - intros [H1 H2]. now apply in_in_remove.
Qed.

Lemma heap_free_wf (id : nat) (h : kheap) : wf_heap h -> wf_heap (heap_free id h).
Proof.
  intros H j Hj. apply heap_free_live in Hj as [Hj _]. apply H in Hj. exact Hj.
Qed.

(** X3.  On a response whose block array has as many blocks as the header
    counts, [deinit_occ_resp_buf] returns 0, zeroes the response, and
    releases the block array and nothing else: every record array that
    was allocated stays allocated.  Run again, it changes nothing. *)
Theorem deinit_releases_block_array_only (st : kstate) (id : nat) (n : Z) :
  blocks_inv id n n st ->
  exists s1,
    deinit_occ_resp_buf st = Ok (0, s1)
    /\ resp s1 = zero_response
    /\ klog s1 = klog st
    /\ (forall j, In j (live (heap s1)) <-> In j (live (heap st)) /\ j <> id)
    /\ deinit_occ_resp_buf s1 = Ok (0, s1).
Proof.
  intros Hinv. eexists. split; [apply (deinit_ok st id n n Hinv)|].
  cbn [resp heap klog]. split; [reflexivity|]. split; [reflexivity|].
  split; [intros j; apply heap_free_live|]. reflexivity.
Qed.

Lemma sample_state_blocks : blocks_inv 0 4 4 sample_state.
Proof.
  eexists. split; [vm_compute; reflexivity|].
  split; [reflexivity|]. split; [vm_compute; reflexivity|]. intros j Hj. lia.
Qed.

Lemma deinit_releases_block_array_only_witness :
  exists s1,
    deinit_occ_resp_buf sample_state = Ok (0, s1)
    /\ resp s1 = zero_response
    /\ klog s1 = klog sample_state
    /\ (forall j, In j (live (heap s1)) <-> In j (live (heap sample_state)) /\ j <> 0%nat)
    /\ deinit_occ_resp_buf s1 = Ok (0, s1).
Proof.
  apply (deinit_releases_block_array_only sample_state 0 4).
  exact sample_state_blocks.
Defined.

(** What a refresh keeps: helper forms for the decoder and for
    [occ_get_all]. *)
Lemma decode_keeps_live (cs : bool) (d : list byte) (st : kstate) (r : Z) (st' : kstate) :
  wf_heap (heap st) ->
  parse_occ_response cs d st = Ok (r, st') ->
  forall j, In j (live (heap st)) -> In j (live (heap st')).
Proof.
  intros Hwf Hrun.
  destruct (decode_prologue cs d st r st' Hrun)
    as (Hlen & o' & Hh & [(Hr & _ & Hheap) | [(Hr & _ & h' & Ha & Hheap) | Hloop]]).
  - now rewrite Hheap.
  - rewrite Hheap. eapply heap_alloc_incl; eauto.
  - destruct Hloop as (i & h' & Ha & _ & Hn & Hblocks).
    destruct (parse_header_ok cs d st Hlen) as (o1 & Hok & _ & Hnum & _).
    rewrite Hh in Hok. injection Hok as <-.
    pose proof (byte_val_range (byte_at d 43)) as Hc. rewrite <- Hnum in Hc.
    destruct (heap_alloc_some _ _ _ Ha) as [Hi Hlive]. subst i.
    match type of Hblocks with
    | parse_blocks _ _ ?fuel _ _ ?s1 = _ =>
        pose proof (keeps_live_loop cs d (live (heap st))
                      (next_id (heap st)) (num_of_sensor_blocks (data o')) fuel 0 45 s1)
          as Hk
    end.
    unfold wpx in Hk. rewrite Hblocks in Hk.
    destruct Hk as [(-> & Hkeep & Hinv) | (-> & s1 & Hkeep & ->)].
    + apply blocks_inv_fresh. lia.
    + lia.
    + lia.
    + intros j Hj. cbn [heap]. rewrite Hlive. now right.
    + exact Hkeep.
    + intros j Hj. cbn [heap]. apply heap_free_live. split; [now apply Hkeep|].
      specialize (Hwf j Hj). lia.
Qed.

Lemma get_occdata_length_state (cs : bool) (d : list byte) (st : kstate) (v : Z)
      (st' : kstate) :
  get_occdata_length cs d st = Ok (v, st') -> st' = st.
Proof.
  unfold get_occdata_length, bind, rd, ret.
  destruct (zth d 3); [|discriminate]. destruct (zth d 4); [|discriminate].
  now intros [= _ <-].
Qed.

Lemma occ_get_all_keeps_live (cs : bool) (rsp : list byte) (st : kstate) (r : Z)
      (st' : kstate) :
  wf_heap (heap st) ->
  occ_get_all_from cs rsp st = Ok (r, st') ->
  forall j, In j (live (heap st)) -> In j (live (heap st')).
Proof.
  intros Hwf Hrun. unfold occ_get_all_from in Hrun.
  unfold bind at 1 in Hrun. unfold printk at 1 in Hrun. cbv beta iota in Hrun.
  unfold bind at 1 in Hrun.
  destruct (get_occdata_length cs rsp _) as [[v s1]|e] eqn:Hlen; [|discriminate].
  apply get_occdata_length_state in Hlen. subst s1.
  unfold bind at 1 in Hrun. unfold printk at 1 in Hrun. cbv beta iota in Hrun.
  cbn [resp heap klog] in Hrun.
  destruct (v >? OCC_DATA_MAX).
  - cbv [bind printk ret] in Hrun. injection Hrun as _ <-. cbn [heap]. auto.
  - match type of Hrun with
    | parse_occ_response _ _ ?s = _ => exact (decode_keeps_live cs rsp s r st' Hwf Hrun)
    end.
Qed.

(** X4.  A refresh releases at most the block array of the response it
    replaces.  Every other allocation that was live before it is live
    after it; so the record arrays of the replaced response, which the
    zeroed and rebuilt response no longer points to, are never
    released. *)
Theorem refresh_keeps_record_arrays (cs : bool) (rsp : list byte) (st : kstate)
        (id : nat) (r : Z) (st' : kstate) :
  wf_heap (heap st) ->
  resp_consistent id st ->
  occ_update_device_from cs rsp true st = Ok (r, st') ->
  forall j, In j (live (heap st)) -> j <> id -> In j (live (heap st')).
Proof.
  intros Hwf Hcons Hrun j Hj Hne. unfold occ_update_device_from in Hrun.
  unfold bind at 1 in Hrun.
  destruct Hcons as [Hnull|Hinv].
  - assert (deinit_occ_resp_buf st = Ok (0, st)) as Hd.
    { unfold deinit_occ_resp_buf. unfold bind, get_resp. now rewrite Hnull. }
    rewrite Hd in Hrun.
    eapply (occ_get_all_keeps_live cs rsp st r st'); eauto.
  - rewrite (deinit_ok st id _ _ Hinv) in Hrun.
    eapply (occ_get_all_keeps_live cs rsp _ r st'); [|exact Hrun|].
    + cbn [heap]. now apply heap_free_wf.
    + cbn [heap]. apply heap_free_live. auto.
Qed.

Lemma refresh_keeps_record_arrays_witness :
  In 1%nat (live (heap sample_state)) /\ In 1%nat (live (heap refreshed_state)).
Proof.
  assert (In 1%nat (live (heap sample_state))) as H1 by (vm_compute; auto).
  split; [exact H1|].
  apply (refresh_keeps_record_arrays false fake_occ_rsp sample_state 0 0 refreshed_state).
  - intros j Hj. vm_compute in Hj. vm_compute.
    destruct Hj as [<-|[<-|[<-|[]]]]; repeat constructor.
  - right. exact sample_state_blocks.
  - vm_compute. reflexivity.
  - exact H1.
  - discriminate.
Defined.

(** ** The header fields *)

Lemma be32_unsigned (x y z w : byte) :
  u32 (Z.lor (u32 (Z.lor (u32 (Z.lor (u32 (Z.shiftl (byte_val x) 24))
                                      (Z.shiftl (byte_val y) 16)))
                          (Z.shiftl (byte_val z) 8)))
             (byte_val w))
  = 16777216 * byte_val x + 65536 * byte_val y + 256 * byte_val z + byte_val w.
Proof.
  pose proof (byte_val_range x) as Hx. pose proof (byte_val_range y) as Hy.
  pose proof (byte_val_range z) as Hz. pose proof (byte_val_range w) as Hw.
  unfold u32.
  rewrite (Z.mod_small (Z.shiftl (byte_val x) 24))
    by (rewrite Z.shiftl_mul_pow2; lia).
  replace (Z.shiftl (byte_val x) 24) with (Z.shiftl (Z.shiftl (byte_val x) 8) 16)
    by (rewrite Z.shiftl_shiftl by lia; reflexivity).
  rewrite <- Z.shiftl_lor. rewrite (lor_shiftl_low (byte_val x) (byte_val y) 8) by lia.
  rewrite (Z.mod_small (Z.shiftl _ 16)) by (rewrite Z.shiftl_mul_pow2; lia).
  replace (Z.shiftl (byte_val x * 2 ^ 8 + byte_val y) 16)
    with (Z.shiftl (Z.shiftl (byte_val x * 2 ^ 8 + byte_val y) 8) 8)
    by (rewrite Z.shiftl_shiftl by lia; reflexivity).
  rewrite <- Z.shiftl_lor. rewrite (lor_shiftl_low _ (byte_val z) 8) by lia.
  rewrite (Z.mod_small (Z.shiftl _ 8)) by (rewrite Z.shiftl_mul_pow2; lia).
  rewrite (lor_shiftl_low _ (byte_val w) 8) by lia.
  rewrite Z.mod_small by lia. lia.
Qed.

Lemma parse_header_fields (d : list byte) (st : kstate) :
  45 <= len d ->
  exists o',
    parse_header false d st = Ok (tt, mk_kstate o' (heap st) (klog st))
    /\ decoded_header d o' /\ chk_sum o' = chk_sum (resp st).
Proof.
  intros H. unfold parse_header.
  do 21 step_rd. do 2 step_strncpy. do 2 step_rd.
  unfold bind, get_resp, put_resp. cbv beta iota.
  eexists. split; [reflexivity|]. unfold decoded_header.
  cbn [sequence_num cmd_type rtn_status data_length data status ext_status
       occs_present config occ_state data_reserved0 data_reserved1 error_log_id
       error_log_addr_start error_log_length data_reserved2 data_reserved3
       occ_code_level sensor_eye_catcher num_of_sensor_blocks sensor_data_version
       chk_sum resp].
  rewrite !u8_char_to_int. unfold char_to_int. cbn [andb].
  rewrite !be16_unsigned, be32_unsigned.
  unfold be16, be32.
  repeat split; try reflexivity.
  rewrite firstn_app, firstn_all2 by (rewrite strncpy_bytes_length; lia).
  rewrite strncpy_bytes_length. cbn. now rewrite app_nil_r.
Qed.

Lemma put_block_header (d : list byte) (o0 : occ_response_t) (b : Z)
      (k : sensor_data_block) (st : kstate) :
  header_kept d o0 st -> header_kept d o0 (put_block b k st).
Proof.
  unfold put_block. destruct (blocks (data (resp st))); auto.
Qed.

Lemma header_kept_loop (cs : bool) (d : list byte) (o0 : occ_response_t) (id : nat)
      (n : Z) (fuel : nat) (b dnum : Z) (st : kstate) :
  blocks_inv id n b st -> 0 <= b -> b + Z.of_nat fuel <= n -> header_kept d o0 st ->
  wpx (fun _ => True) (parse_blocks cs d fuel b dnum)
    (fun r s =>
       (r = 0 /\ header_kept d o0 s /\ blocks_inv id n n s)
       \/ (r = - ENOMEM
           /\ exists s1, header_kept d o0 s1
                         /\ s = mk_kstate zero_response (heap_free id (heap s1)) (klog s1)))
    st.
Proof.
  apply (keep_parse_blocks (header_kept d o0) (fun _ _ => True)); auto.
  intros b0 s k k' _ _ H. now apply put_block_header.
Qed.

(** X5.  With [char] unsigned, a decode that returns 0 or -1 leaves in the
    response the header fields of the frame, taken from their fixed
    byte offsets, the multi-byte ones big-endian.  The checksum field of
    the response is never written: the decoder does not look at the
    frame's checksum. *)
Theorem decoded_header_fields (d : list byte) (st : kstate) (r : Z) (st' : kstate) :
  parse_occ_response false d st = Ok (r, st') ->
  r = 0 \/ r = -1 ->
  decoded_header d (resp st') /\ chk_sum (resp st') = chk_sum (resp st).
Proof.
  intros Hrun Hr.
  destruct (decode_prologue false d st r st' Hrun)
    as (Hlen & o' & Hh & Hcases).
  destruct (parse_header_fields d st Hlen) as (o1 & Hok & Hdec & Hsum).
  rewrite Hh in Hok. injection Hok as <-.
  destruct Hcases as [(_ & Hresp & _) | [(Hr' & _) | Hloop]].
  - rewrite Hresp. auto.
  - destruct Hr as [-> | ->]; discriminate.
  - destruct Hloop as (i & h' & Ha & _ & Hn & Hblocks).
    assert (0 <= num_of_sensor_blocks (data o')) as Hc.
    { destruct Hdec as (_&_&_&_&_&_&_&_&_&_&_&_&_&_&_&_&_&_&Hnum&_).
      rewrite Hnum. apply byte_val_range. }
    match type of Hblocks with
    | parse_blocks _ _ ?fuel _ _ ?s1 = _ =>
        pose proof (header_kept_loop false d (resp st) i
                      (num_of_sensor_blocks (data o')) fuel 0 45 s1) as Hk
    end.
    unfold wpx in Hk. rewrite Hblocks in Hk.
    destruct Hk as [(_ & Hkept & _) | (-> & _)].
    + apply blocks_inv_fresh. lia.
    + lia.
    + lia.
    + split; [exact Hdec | exact Hsum].
    + exact Hkept.
    + destruct Hr as [Hr | Hr]; discriminate.
Qed.

Lemma decoded_header_fields_witness :
  decoded_header fake_occ_rsp (resp sample_state)
  /\ chk_sum (resp sample_state) = chk_sum (resp (init_state [])).
Proof.
  apply (decoded_header_fields fake_occ_rsp (init_state []) 0 sample_state).
  - vm_compute. reflexivity.
  - now left.
Defined.

(** ** What a run of the loop body tells about the frame *)

Lemma read_sensors_first (cs : bool) (d : list byte) (b : Z) (n : nat) (s dnum : Z) :
  valp (fun _ => 0 <= dnum /\ dnum + 4 <= len d) (read_sensors cs d b (S n) s dnum).
Proof.
  cbn [read_sensors].
  apply valp_rd_in. intros H1 c1.
  do 5 (apply valp_bind; intros ?).
  apply valp_rd_in. intros H4 c4. apply valp_const. lia.
Qed.

(** The record loop gets through only when the four bytes read of each
    record lie inside the frame. *)
Lemma read_sensors_run (cs : bool) (d : list byte) (b : Z) (k : sensor_data_block)
      (n : nat) :
  forall (s dnum : Z) (a : array occ_sensor) (st : kstate),
    block_of (resp st) b = Some (with_sensor (Some a) k) ->
    0 <= s -> s + Z.of_nat n <= Z.of_nat (length (elems a)) ->
    0 <= sensor_length k ->
    wpx (fun _ => True) (read_sensors cs d b n s dnum)
      (fun _ _ => 0 < Z.of_nat n ->
                  0 <= dnum /\ dnum + (Z.of_nat n - 1) * sensor_length k + 4 <= len d) st.
Proof.
  induction n as [|n IH]; intros s dnum a st Hb Hs Hn Hstride.
  - apply wpx_ret. lia.
  - destruct (Z_le_dec 0 dnum) as [H0|H0];
      [destruct (Z_le_dec (dnum + 4) (len d)) as [H4|H4]|].
    2,3: eapply wpx_weaken; [apply read_sensors_first | cbn beta; intros; lia].
    destruct (zth (elems a) s) as [x0|] eqn:Hx0.
    2:{ apply zth_bound_None in Hx0. lia. }
    cbn [read_sensors].
    sensor_store Hb. sensor_store Hb. sensor_store Hb. sensor_store Hb.
    apply wpx_bind.
    match type of Hb with
    | _ = Some (with_sensor (Some ?a1) _) =>
        refine (wpx_eq _ _ _ _ _ _ (get_sensor_ok _ b s _ a1 _ Hb eq_refl _) _);
        [eapply zth_zset_same; eassumption|]
    end.
    apply wpx_bind, wpx_printk. apply wpx_bind.
    eapply wpx_get_block; [exact Hb|].
    cbn [sensor_length with_sensor].
    eapply wpx_weaken.
    + eapply (IH (s + 1) (dnum + sensor_length k)); try lia.
      * exact Hb.
      * cbn [elems]. rewrite !zset_length. lia.
    + cbn beta. intros _ _ Hrest _. destruct n as [|n]; [lia|].
      specialize (Hrest ltac:(lia)). nia.
Qed.

Lemma ids_put_block (b : Z) (k : sensor_data_block) (st : kstate) :
  ids_of (resp (put_block b k st)) = ids_of (resp st).
Proof.
  unfold ids_of. destruct (put_block_ids b k st) as (-> & -> & _). reflexivity.
Qed.

Lemma ids_read_sensors (cs : bool) (d : list byte) (b : Z) (n : nat) (s dnum : Z)
      (v : Z * Z) (h : kheap) :
  pres (fun st => ids_of (resp st) = v /\ heap st = h) (read_sensors cs d b n s dnum).
Proof.
  apply (keep_read_sensors (fun st => ids_of (resp st) = v /\ heap st = h) b
           (fun _ _ => True)); auto.
  intros st k k' _ _ [H1 H2]. now rewrite ids_put_block, heap_put_block.
Qed.

(** The branch that the FREQ and the TEMP blocks share, from the
    allocation of the record array on: it gets through only when the
    records lie inside the frame, and then the block id that it sets is
    still the index of the block, and the record array is the one
    allocation made. *)
Lemma value_branch_run (cs : bool) (d : list byte) (b dnum : Z) (k : sensor_data_block)
      (set_id : Z -> occ_response_t -> occ_response_t) (st : kstate) :
  block_of (resp st) b = Some k ->
  0 < num_of_sensors k -> 0 <= sensor_length k ->
  (forall v o, data (set_id v o) = data o) ->
  (forall v o o', ids_of o = ids_of o' -> ids_of (set_id v o) = ids_of (set_id v o')) ->
  wpx (fun _ => True)
    (p <- kzalloc zero_occ_sensor (num_of_sensors k);;
     store_block b (with_sensor p);;
     k0 <- get_block b;;
     match sensor k0 with
     | Some _ =>
         o <- get_resp;;
         put_resp (set_id (u16 b) o);;
         k1 <- get_block b;;
         dnum0 <- read_sensors cs d b (Z.to_nat (num_of_sensors k1)) 0 dnum;;
         ret (Next dnum0)
     | None => ret (Abort (- ENOMEM))
     end)
    (fun c st' =>
       match c with
       | Abort _ => True
       | Next _ =>
           (0 <= dnum /\ dnum + (num_of_sensors k - 1) * sensor_length k + 4 <= len d)
           /\ ids_of (resp st') = ids_of (set_id (u16 b) (resp st))
           /\ exists i, heap_alloc (heap st) = (Some i, heap st')
       end) st.
Proof.
  intros Hb Hn Hl Hdata Hids.
  assert (forall v o j, block_of (set_id v o) j = block_of o j) as Hid
    by (intros; unfold block_of; now rewrite Hdata).
  apply wpx_bind, wpx_kzalloc.
  - intros i h' Halloc. apply wpx_bind.
    eapply wpx_store_block; [exact Hb|].
    match goal with
    | |- wpx _ _ _ ?s1 =>
        assert (block_of (resp s1) b
                = Some (with_sensor
                          (Some (mk_array i (repeat zero_occ_sensor
                                               (Z.to_nat (num_of_sensors k))))) k))
          as Hb1 by (eapply block_of_put_block_same; exact Hb);
        assert (ids_of (resp s1) = ids_of (resp st)) as Hi1
          by (now rewrite ids_put_block);
        assert (heap s1 = h') as Hh1 by (now rewrite heap_put_block);
        revert Hb1 Hi1 Hh1; generalize s1; intros sx Hb1 Hi1 Hh1
    end.
    apply wpx_bind. eapply wpx_get_block; [exact Hb1|]. cbn [sensor with_sensor].
    apply wpx_bind, wpx_get_resp. apply wpx_bind, wpx_put_resp.
    apply wpx_bind. eapply wpx_get_block; [cbn [resp]; rewrite Hid; exact Hb1|].
    cbn [num_of_sensors with_sensor].
    apply wpx_bind. eapply wpx_weaken; [eapply wpx_faults|].
    + apply wpx_both.
      * eapply (read_sensors_run cs d b k); try lia.
        -- cbn [resp]. rewrite Hid. exact Hb1.
        -- cbn [elems]. rewrite repeat_length. lia.
      * apply (ids_read_sensors cs d b _ 0 dnum (ids_of (set_id (u16 b) (resp st))) h').
        cbn [resp heap]. split; [now apply Hids | exact Hh1].
    + auto.
    + cbn beta. intros dnum' stf [Hbound [Hi Hh]]. apply wpx_ret.
      rewrite Z2Nat.id in Hbound by lia. split; [apply Hbound; lia|].
      split; [exact Hi|]. exists i. now rewrite Hh.
  - intros h' Halloc. apply wpx_bind.
    eapply wpx_store_block; [exact Hb|].
    apply wpx_bind. eapply wpx_get_block;
      [eapply block_of_put_block_same; exact Hb|].
    cbn [sensor with_sensor]. apply wpx_ret. exact I.
Qed.

(** The part of the loop body behind the head, on a block without record
    arrays: when it goes on to the next block, the block was empty or of
    an unrecognized type and the ids are as before, or it was a FREQ or
    TEMP block whose records lie inside the frame and its index is the
    FREQ or TEMP block id.  It never goes on from a POWR block with
    records. *)
Lemma dispatch_block_run (cs : bool) (d : list byte) (b dnum : Z)
      (k : sensor_data_block) (st : kstate) :
  block_of (resp st) b = Some k -> sensor k = None -> 0 <= sensor_length k ->
  wpx (fun _ => True) (dispatch_block cs d b dnum)
    (fun c st' =>
       match c with
       | Abort _ => True
       | Next _ =>
           if (num_of_sensors k <=? 0) || (sensor_length k =? 0)
           then ids_of (resp st') = ids_of (resp st) /\ heap st' = heap st
           else if strcmp_eq (sensor_type k) "FREQ"
           then (0 <= dnum
                 /\ dnum + (num_of_sensors k - 1) * sensor_length k + 4 <= len d)
                /\ ids_of (resp st') = (temp_block_id (resp st), u16 b)
                /\ exists i, heap_alloc (heap st) = (Some i, heap st')
           else if strcmp_eq (sensor_type k) "TEMP"
           then (0 <= dnum
                 /\ dnum + (num_of_sensors k - 1) * sensor_length k + 4 <= len d)
                /\ ids_of (resp st') = (u16 b, freq_block_id (resp st))
                /\ exists i, heap_alloc (heap st) = (Some i, heap st')
           else strcmp_eq (sensor_type k) "POWR" = false
                /\ ids_of (resp st') = ids_of (resp st) /\ heap st' = heap st
       end) st.
Proof.
  intros Hb Hs Hl. unfold dispatch_block.
  apply wpx_bind. eapply wpx_get_block; [exact Hb|].
  apply wpx_bind, wpx_printk.
  assert (ids_of (resp (with_log (klog st ++ [msg_sensor_block b (sensor_type k)
                                                (num_of_sensors k) (sensor_length k)])
                          st)) = ids_of (resp st)
          /\ heap (with_log (klog st ++ [msg_sensor_block b (sensor_type k)
                                           (num_of_sensors k) (sensor_length k)])
                     st) = heap st) as Hi1 by (split; reflexivity).
  assert (block_of (resp (with_log (klog st ++ [msg_sensor_block b (sensor_type k)
                                                  (num_of_sensors k) (sensor_length k)])
                            st)) b = Some k) as Hb1 by exact Hb.
  revert Hi1 Hb1.
  generalize (with_log (klog st ++ [msg_sensor_block b (sensor_type k) (num_of_sensors k)
                                      (sensor_length k)]) st).
  intros s1 [Hi1 Hh1] Hb1.
  destruct (num_of_sensors k <=? 0) eqn:En; [apply wpx_ret; now split|].
  destruct (sensor_length k =? 0) eqn:El; [apply wpx_ret; now split|].
  cbn [orb]. apply Z.leb_gt in En.
  destruct (strcmp_eq (sensor_type k) "FREQ").
  { eapply wpx_weaken;
      [apply (value_branch_run cs d b dnum k with_freq_block_id s1 Hb1 En Hl)|].
    - reflexivity.
    - unfold ids_of. cbn. intros v o o' H. now inversion H.
    - cbn beta. intros [dnum'|r] st'; [|auto]. intros [Hbound [Hi Hh]].
      split; [exact Hbound|]. rewrite <- Hh1. split; [|exact Hh].
      rewrite Hi. unfold ids_of in *. cbn. now inversion Hi1. }
  destruct (strcmp_eq (sensor_type k) "TEMP").
  { eapply wpx_weaken;
      [apply (value_branch_run cs d b dnum k with_temp_block_id s1 Hb1 En Hl)|].
    - reflexivity.
    - unfold ids_of. cbn. intros v o o' H. now inversion H.
    - cbn beta. intros [dnum'|r] st'; [|auto]. intros [Hbound [Hi Hh]].
      split; [exact Hbound|]. rewrite <- Hh1. split; [|exact Hh].
      rewrite Hi. unfold ids_of in *. cbn. now inversion Hi1. }
  destruct (strcmp_eq (sensor_type k) "POWR").
  - apply wpx_bind, wpx_kzalloc.
    + intros i h' Ha. apply wpx_bind. eapply wpx_store_block; [exact Hb1|].
      match goal with
      | |- wpx _ _ _ ?s2 =>
          assert (block_of (resp s2) b
                  = Some (with_powr
                            (Some (mk_array i (repeat zero_powr_sensor
                                                 (Z.to_nat (num_of_sensors k))))) k))
            as Hb2 by (eapply block_of_put_block_same; exact Hb1);
          revert Hb2; generalize s2; intros sx Hb2
      end.
      apply wpx_bind. eapply wpx_get_block; [exact Hb2|]. cbn [powr with_powr].
      apply wpx_bind, wpx_get_resp. apply wpx_bind, wpx_put_resp.
      apply wpx_bind. eapply wpx_get_block; [exact Hb2|].
      cbn [num_of_sensors with_powr].
      apply wpx_bind.
      destruct (Z.to_nat (num_of_sensors k)) as [|n] eqn:E; [lia|].
      eapply wpx_weaken; [eapply read_powr_faults; [exact Hb2 | exact Hs]|].
      cbn beta. intros _ _ [].
    + intros h' Ha. apply wpx_bind. eapply wpx_store_block; [exact Hb1|].
      apply wpx_bind. eapply wpx_get_block;
        [eapply block_of_put_block_same; exact Hb1|].
      cbn [powr with_powr]. apply wpx_ret. exact I.
  - apply wpx_bind, wpx_printk. apply wpx_ret. split; [reflexivity | now split].
Qed.

Lemma nth_error_map_seq {A} (g : nat -> A) (l : list A) :
  forall start,
    (forall j, (j < length l)%nat -> nth_error l j = Some (g (start + j)%nat)) ->
    l = map g (seq start (length l)).
Proof.
  induction l as [|x l IH]; intros start H; [reflexivity|].
  cbn [length seq map]. f_equal.
  - specialize (H 0%nat ltac:(cbn; lia)). cbn in H. rewrite Nat.add_0_r in H.
    now injection H.
  - apply IH. intros j Hj. specialize (H (S j) ltac:(cbn; lia)). cbn in H.
    rewrite H. f_equal. f_equal. lia.
Qed.

Lemma zth_map_seq {A} (f : Z -> A) (l : list A) (n : Z) :
  Z.of_nat (length l) = n ->
  (forall j, 0 <= j < n -> zth l j = Some (f j)) ->
  l = map (fun s => f (Z.of_nat s)) (seq 0 (Z.to_nat n)).
Proof.
  intros Hn H. subst n. rewrite Nat2Z.id.
  apply nth_error_map_seq. intros j Hj. cbn [Nat.add].
  specialize (H (Z.of_nat j) ltac:(lia)). unfold zth in H.
  destruct (Z.of_nat j <? 0) eqn:E; [lia|]. now rewrite Nat2Z.id in H.
Qed.

(** One pass of the loop body on a fresh block that goes on to the next
    block: the descriptor and the records read lie inside the frame, the
    cursor is where [next_cursor] says, the block is decoded, and the
    block ids follow [ids_after_block]. *)
Lemma parse_block_run (cs : bool) (d : list byte) (b dnum : Z) (st : kstate)
      (dnum' : Z) (st' : kstate) :
  block_of (resp st) b = Some zero_block ->
  parse_block cs d b dnum st = Ok (Next dnum', st') ->
  0 <= dnum /\ block_within d dnum = true /\ dnum' = next_cursor d dnum
  /\ ids_of (resp st') = ids_after_block d b dnum (ids_of (resp st))
  /\ (if value_block d dnum
      then exists i, heap_alloc (heap st) = (Some i, heap st')
      else heap st' = heap st)
  /\ exists k, block_of (resp st') b = Some k /\ decoded_block cs d dnum k.
Proof.
  intros Hb Hrun. unfold parse_block in Hrun.
  destruct (read_block_head cs d b dnum st) as [[[] st1]|e] eqn:Hh.
  2:{ rewrite (bind_Fault _ _ _ _ Hh) in Hrun. discriminate. }
  destruct (read_block_head_bounds _ _ _ _ _ _ Hh) as [H0 Hlen]. clear Hh.
  rewrite (bind_Ok _ _ _ _ _ (read_block_head_ok cs d b dnum st _ Hb H0 Hlen)) in Hrun.
  assert (block_of (resp (put_block b (head_block d dnum zero_block) st)) b
          = Some (head_block d dnum zero_block)) as Hb1
    by (eapply block_of_put_block_same; exact Hb).
  assert (ids_of (resp (put_block b (head_block d dnum zero_block) st))
          = ids_of (resp st)) as Hi1 by apply ids_put_block.
  assert (heap (put_block b (head_block d dnum zero_block) st) = heap st) as Hh1
    by apply heap_put_block.
  revert Hrun Hb1 Hi1 Hh1. generalize (put_block b (head_block d dnum zero_block) st).
  intros s1 Hrun Hb1 Hi1 Hh1.
  pose proof (byte_val_range (byte_at d (dnum + 7))) as Hc.
  pose proof (byte_val_range (byte_at d (dnum + 6))) as Hs.
  fold (desc_count d dnum) in Hc. fold (desc_stride d dnum) in Hs.
  assert (forall lit : string,
             length (list_byte_of_string lit) = 4%nat ->
             forallb (fun c => negb (Byte.eqb c x00)) (list_byte_of_string lit) = true ->
             strcmp_eq (sensor_type (head_block d dnum zero_block)) lit
             = tag_is d dnum lit) as Htag
    by (intros; apply head_block_tag; auto; lia).
  pose proof (Htag "FREQ"%string eq_refl eq_refl) as HF.
  pose proof (Htag "TEMP"%string eq_refl eq_refl) as HT.
  pose proof (Htag "POWR"%string eq_refl eq_refl) as HP.
  pose proof (dispatch_block_run cs d b (dnum + 8) (head_block d dnum zero_block) s1
                Hb1 eq_refl ltac:(cbn; lia)) as Hd.
  unfold wpx in Hd. rewrite Hrun in Hd. rewrite HF, HT, HP in Hd.
  cbn [num_of_sensors sensor_length head_block with_descriptor] in Hd.
  split; [exact H0|].
  unfold block_within, next_cursor, walks_records, record_size, ids_after_block,
    decoded_block, decoded_records, value_block.
  apply Z.leb_le in Hlen. rewrite Hlen. cbn [andb].
  destruct (desc_count d dnum =? 0) eqn:Ec.
  { rewrite (dispatch_empty cs d b _ s1 _ Hb1) in Hrun
      by (cbn [num_of_sensors head_block with_descriptor]; lia).
    injection Hrun as <- <-. cbn [negb andb].
    repeat split; auto. exists (head_block d dnum zero_block).
    split; [exact Hb1|]. split; [now exists None | reflexivity]. }
  destruct (desc_stride d dnum =? 0) eqn:Es.
  { rewrite (dispatch_empty cs d b _ s1 _ Hb1) in Hrun
      by (cbn [sensor_length head_block with_descriptor]; lia).
    injection Hrun as <- <-. cbn [negb andb].
    repeat split; auto. exists (head_block d dnum zero_block).
    split; [exact Hb1|]. split; [now exists None | reflexivity]. }
  cbn [negb andb].
  replace (desc_count d dnum <=? 0) with false in Hd by (symmetry; apply Z.leb_gt; lia).
  cbn [orb] in Hd.
  assert (tag_is d dnum "FREQ" || tag_is d dnum "TEMP" = true ->
          (0 <= dnum + 8
           /\ dnum + 8 + (desc_count d dnum - 1) * desc_stride d dnum + 4 <= len d) ->
          dnum' = dnum + 8 + desc_count d dnum * desc_stride d dnum
          /\ exists k, block_of (resp st') b = Some k
                       /\ (exists p, k = with_sensor p (head_block d dnum zero_block))
                       /\ sensors_of k
                          = map (fun s => value_record cs d
                                            (dnum + 8 + Z.of_nat s * desc_stride d dnum))
                                (seq 0 (Z.to_nat (desc_count d dnum)))) as Hvalue.
  { intros Hv [_ Hfit].
    pose proof (dispatch_value (fun _ => True) cs d b (dnum + 8) s1
                  (head_block d dnum zero_block) Hb1) as Hdv.
    cbn [num_of_sensors sensor_length head_block with_descriptor] in Hdv.
    rewrite HF, HT in Hdv.
    specialize (Hdv ltac:(lia) ltac:(lia) ltac:(now apply orb_true_iff) ltac:(lia) Hfit).
    unfold wpx in Hdv. rewrite Hrun in Hdv.
    destruct Hdv as (Hcur & a' & Hb' & Hlen' & Hrec).
    split; [exact Hcur|]. eexists. split; [exact Hb'|].
    split; [now eexists|]. unfold sensors_of. cbn [sensor with_sensor].
    apply (zth_map_seq (fun j => value_record cs d (dnum + 8 + j * desc_stride d dnum)));
      assumption. }
  destruct (tag_is d dnum "FREQ") eqn:EF.
  { cbn [orb]. destruct Hd as (Hfit & -> & Hh). destruct (Hvalue eq_refl Hfit) as [-> Hk].
    split; [apply Z.leb_le; lia|]. split; [reflexivity|].
    split; [unfold ids_of in *; cbn [fst]; now inversion Hi1|].
    split; [now rewrite <- Hh1 | exact Hk]. }
  destruct (tag_is d dnum "TEMP") eqn:ET.
  { cbn [orb]. destruct Hd as (Hfit & -> & Hh). destruct (Hvalue eq_refl Hfit) as [-> Hk].
    split; [apply Z.leb_le; lia|]. split; [reflexivity|].
    split; [unfold ids_of in *; cbn [snd]; now inversion Hi1|].
    split; [now rewrite <- Hh1 | exact Hk]. }
  cbn [orb]. destruct Hd as (EP & Hi & _). rewrite EP.
  rewrite (dispatch_other cs d b _ s1 _ Hb1) in Hrun;
    cbn [num_of_sensors sensor_length head_block with_descriptor]; try lia;
    try congruence.
  injection Hrun as <- <-.
  repeat split; auto; try congruence. exists (head_block d dnum zero_block).
  split; [exact Hb1|]. split; [now exists None | reflexivity].
Qed.

Lemma allocated_none (h : kheap) : allocated h h 0.
Proof. split; [reflexivity | now rewrite Nat.add_0_r]. Qed.

Lemma allocated_more (h h1 h' : kheap) (i : nat) (v : nat) :
  heap_alloc h = (Some i, h1) -> allocated h1 h' v -> allocated h h' (S v).
Proof.
  intros Ha [Hl Hn]. destruct (heap_alloc_some _ _ _ Ha) as [-> Hl1].
  assert (next_id h1 = S (next_id h)) as Hn1.
  { unfold heap_alloc in Ha. destruct (kzalloc_plan h) as [|[|] pl];
      inversion Ha; reflexivity. }
  split.
  - rewrite Hl, Hl1, Hn1. cbn [seq rev]. now rewrite <- app_assoc.
  - rewrite Hn, Hn1. lia.
Qed.

Lemma parse_block_other (cs : bool) (d : list byte) (b dnum : Z) (st : kstate)
      (c : ctl) (st' : kstate) (j : Z) :
  j <> b -> parse_block cs d b dnum st = Ok (c, st') ->
  block_of (resp st') j = block_of (resp st) j.
Proof.
  intros Hj Hrun.
  assert (stable (fun s => block_of (resp s) j = block_of (resp st) j) b) as Hst.
  { split.
    - intros s o h l Hd H. cbn [resp]. rewrite <- H. unfold block_of. now rewrite Hd.
    - intros s k k' Hk H. rewrite <- H. eapply block_of_put_block_other; eauto. }
  pose proof (pres_parse_block _ b Hst cs d dnum st eq_refl) as H.
  unfold wpx in H. now rewrite Hrun in H.
Qed.

(** The block loop that returns 0 has walked its blocks inside the
    frame, has decoded each of them at the cursor that [next_cursor]
    gives, and has left the earlier blocks alone. *)
Lemma parse_blocks_run (cs : bool) (d : list byte) (id : nat) (n : Z) (fuel : nat) :
  forall (b dnum : Z) (st st' : kstate),
    blocks_inv id n b st -> 0 <= b -> b + Z.of_nat fuel <= n ->
    parse_blocks cs d fuel b dnum st = Ok (0, st') ->
    blocks_within d fuel dnum = true
    /\ ids_of (resp st') = ids_after_blocks d fuel b dnum (ids_of (resp st))
    /\ (forall j, (j < fuel)%nat ->
          exists k, block_of (resp st') (b + Z.of_nat j) = Some k
                    /\ decoded_block cs d (Nat.iter j (next_cursor d) dnum) k)
    /\ (forall j, 0 <= j < b -> block_of (resp st') j = block_of (resp st) j)
    /\ allocated (heap st) (heap st') (count_value_blocks d fuel dnum).
Proof.
  induction fuel as [|fuel IH]; intros b dnum st st' Hinv Hb Hle Hrun.
  - cbn in Hrun. injection Hrun as <-.
    split; [reflexivity|]. split; [reflexivity|].
    split; [intros j Hj; lia|]. split; [reflexivity | apply allocated_none].
  - cbn [parse_blocks] in Hrun.
    destruct (parse_block cs d b dnum st) as [[c st1]|e] eqn:Hpb.
    2:{ rewrite (bind_Fault _ _ _ _ Hpb) in Hrun. discriminate. }
    rewrite (bind_Ok _ _ _ _ _ Hpb) in Hrun.
    pose proof (parse_block_keeps cs d id n b dnum st Hb Hinv) as Hk.
    unfold wpx in Hk. rewrite Hpb in Hk. destruct Hk as [Hinv1 Hcode].
    destruct c as [dnum1|r].
    + assert (block_of (resp st) b = Some zero_block) as Hzero
        by (eapply blocks_inv_block; eauto; lia).
      destruct (parse_block_run cs d b dnum st dnum1 st1 Hzero Hpb)
        as (H0 & Hin & -> & Hids & Hheap & k & Hbk & Hdec).
      destruct (IH (b + 1) (next_cursor d dnum) st1 st' Hinv1 ltac:(lia) ltac:(lia) Hrun)
        as (Hin' & Hids' & Hblocks & Hold & Hal).
      split; [cbn [blocks_within]; now rewrite Hin, Hin'|].
      split; [cbn [ids_after_blocks]; now rewrite Hids', Hids|].
      split.
      * intros [|j] Hj.
        -- exists k. rewrite Z.add_0_r, Hold by lia. split; [exact Hbk | exact Hdec].
        -- destruct (Hblocks j ltac:(lia)) as (k' & Hk' & Hdec').
           exists k'. rewrite Nat.iter_succ_r.
           replace (b + Z.of_nat (S j)) with (b + 1 + Z.of_nat j) by lia. auto.
      * split.
        -- intros j Hj. rewrite Hold by lia.
           apply (parse_block_other cs d b dnum st _ st1 j ltac:(lia) Hpb).
        -- cbn [count_value_blocks]. destruct (value_block d dnum).
           ++ destruct Hheap as [i Ha]. cbn [Nat.add]. eapply allocated_more; eauto.
           ++ cbn [Nat.add]. now rewrite <- Hheap.
    + cbn in Hcode. unfold bind in Hrun.
      destruct (deinit_occ_resp_buf st1) as [[x s2]|e]; [|discriminate].
      cbv [ret] in Hrun. injection Hrun as Hr _. unfold ENOMEM in Hcode. lia.
Qed.

(** ** What a successful decode has done *)

Lemma decode_run (cs : bool) (d : list byte) (st st' : kstate) :
  parse_occ_response cs d st = Ok (0, st') ->
  45 <= len d
  /\ bytes_eqb (window d 37 6) (list_byte_of_string "SENSOR") = true
  /\ blocks_within d (Z.to_nat (byte_val (byte_at d 43))) 45 = true
  /\ ids_of (resp st')
     = ids_after_blocks d (Z.to_nat (byte_val (byte_at d 43))) 0 45 (ids_of (resp st))
  /\ (forall j, (j < Z.to_nat (byte_val (byte_at d 43)))%nat ->
        exists k, block_of (resp st') (Z.of_nat j) = Some k
                  /\ decoded_block cs d (cursor_of d j) k)
  /\ allocated (heap st) (heap st')
       (S (count_value_blocks d (Z.to_nat (byte_val (byte_at d 43))) 45)).
Proof.
  intros Hrun.
  destruct (decode_prologue cs d st 0 st' Hrun) as (Hlen & o' & Hh & Hcases).
  destruct (parse_header_ok cs d st Hlen)
    as (o1 & Hok & Heye & Hn & _ & _ & _ & Ht & Hf & _).
  rewrite Hh in Hok. injection Hok as <-.
  destruct Hcases as [(Hr & _) | [(Hr & _) | (i & h' & Ha & Hm & Hnz & Hloop)]];
    try discriminate.
  rewrite Heye, marker_test in Hm by (apply window_length; lia).
  pose proof (byte_val_range (byte_at d 43)) as Hc. rewrite <- Hn in *.
  assert (0 <= num_of_sensor_blocks (data o')) as Hc0 by lia.
  assert (0 + Z.of_nat (Z.to_nat (num_of_sensor_blocks (data o')))
          <= num_of_sensor_blocks (data o')) as Hfuel by lia.
  destruct (parse_blocks_run cs d i (num_of_sensor_blocks (data o')) _ 0 45 _ st'
              (blocks_inv_fresh o' i h' _ Hc0) (Z.le_refl 0) Hfuel Hloop)
    as (Hin & Hids & Hblocks & _ & Hal).
  split; [exact Hlen|]. split; [exact Hm|]. split; [exact Hin|].
  split; [rewrite Hids; unfold ids_of; cbn; now rewrite Ht, Hf|].
  split; [exact Hblocks|]. cbn [heap] in Hal. eapply allocated_more; eauto.
Qed.

(** X6.  A decode returns 0 only on a frame that holds the header and every
    block that the decoder walks: a frame that is cut off anywhere
    before the end of the last record read is never decoded with
    success. *)
Theorem successful_decode_within_frame (cs : bool) (d : list byte) (st st' : kstate) :
  parse_occ_response cs d st = Ok (0, st') -> frame_within d = true.
Proof.
  intros Hrun. destruct (decode_run cs d st st' Hrun) as (Hlen & Hm & Hin & _).
  unfold frame_within. rewrite Hm, Hin. apply Z.leb_le in Hlen. now rewrite Hlen.
Qed.

Lemma successful_decode_within_frame_witness : frame_within fake_occ_rsp = true.
Proof.
  apply (successful_decode_within_frame false fake_occ_rsp (init_state []) sample_state).
  vm_compute. reflexivity.
Defined.

(** X7.  After a decode that returns 0, every block [b] below the block count
    of the frame holds the descriptor found at the cursor of block [b],
    where the cursor starts at offset 45 and moves by [next_cursor]; a
    FREQ or TEMP block that declares records at a non-zero stride holds
    one record for each declared record, read from the start of its
    stride window, and every other block holds no record. *)
Theorem successful_decode_blocks (cs : bool) (d : list byte) (st st' : kstate) (b : Z) :
  parse_occ_response cs d st = Ok (0, st') ->
  0 <= b < byte_val (byte_at d 43) ->
  exists k, block_of (resp st') b = Some k
            /\ decoded_block cs d (cursor_of d (Z.to_nat b)) k.
Proof.
  intros Hrun Hb. destruct (decode_run cs d st st' Hrun) as (_ & _ & _ & _ & Hblocks & _).
  destruct (Hblocks (Z.to_nat b) ltac:(lia)) as (k & Hk & Hdec).
  rewrite Z2Nat.id in Hk by lia. now exists k.
Qed.

Lemma successful_decode_blocks_witness :
  exists k, block_of (resp sample_state) 1 = Some k
            /\ decoded_block false fake_occ_rsp (cursor_of fake_occ_rsp 1) k.
Proof.
  apply (successful_decode_blocks false fake_occ_rsp (init_state []) sample_state 1).
  - vm_compute. reflexivity.
  - vm_compute. split; [discriminate | reflexivity].
Defined.

Lemma tag_is_exclusive (d : list byte) (dnum : Z) (lit lit' : string) :
  list_byte_of_string lit <> list_byte_of_string lit' ->
  tag_is d dnum lit = true -> tag_is d dnum lit' = false.
Proof.
  unfold tag_is. intros Hne H. apply bytes_eqb_eq in H.
  destruct (bytes_eqb (desc_tag d dnum) (list_byte_of_string lit')) eqn:E; [|reflexivity].
  apply bytes_eqb_eq in E. congruence.
Qed.

Lemma ids_after_blocks_last (d : list byte) (fuel : nat) :
  forall (b dnum : Z) (ids : Z * Z),
    0 <= b -> b + Z.of_nat fuel <= 65536 ->
    ids_after_blocks d fuel b dnum ids
    = (match last_value_block d "TEMP" fuel b dnum with
       | Some j => j
       | None => fst ids
       end,
       match last_value_block d "FREQ" fuel b dnum with
       | Some j => j
       | None => snd ids
       end).
Proof.
  induction fuel as [|fuel IH]; intros b dnum ids Hb Hle.
  - now destruct ids.
  - cbn [ids_after_blocks last_value_block]. rewrite IH by lia.
    assert (u16 b = b) as Hu by (unfold u16; apply Z.mod_small; lia).
    f_equal.
    + destruct (last_value_block d "TEMP" fuel (b + 1) (next_cursor d dnum));
        [reflexivity|].
      unfold ids_after_block. destruct (value_block d dnum) eqn:Ev; [|reflexivity].
      cbn [andb]. destruct (tag_is d dnum "FREQ") eqn:EF.
      * rewrite (tag_is_exclusive d dnum "FREQ" "TEMP") by (auto; discriminate).
        reflexivity.
      * unfold value_block in Ev. rewrite EF in Ev. cbn [orb] in Ev.
        apply andb_true_iff in Ev as [_ ->]. cbn [fst]. exact Hu.
    + destruct (last_value_block d "FREQ" fuel (b + 1) (next_cursor d dnum));
        [reflexivity|].
      unfold ids_after_block. destruct (value_block d dnum) eqn:Ev; [|reflexivity].
      cbn [andb]. destruct (tag_is d dnum "FREQ") eqn:EF; [cbn [snd]; exact Hu|].
      reflexivity.
Qed.

(** X8.  After a decode that returns 0, [temp_block_id] is the index of the
    last TEMP block of the frame that declares records at a non-zero
    stride, and [freq_block_id] that of the last such FREQ block.  When
    the frame has no such block, the id is not reset: it keeps the value
    that it had before the decode. *)
Theorem successful_decode_block_ids (cs : bool) (d : list byte) (st st' : kstate) :
  parse_occ_response cs d st = Ok (0, st') ->
  temp_block_id (resp st')
  = match last_value_block d "TEMP" (Z.to_nat (byte_val (byte_at d 43))) 0 45 with
    | Some j => j
    | None => temp_block_id (resp st)
    end
  /\ freq_block_id (resp st')
     = match last_value_block d "FREQ" (Z.to_nat (byte_val (byte_at d 43))) 0 45 with
       | Some j => j
       | None => freq_block_id (resp st)
       end.
Proof.
  intros Hrun. destruct (decode_run cs d st st' Hrun) as (_ & _ & _ & Hids & _).
  pose proof (byte_val_range (byte_at d 43)) as Hc.
  rewrite ids_after_blocks_last in Hids by lia.
  unfold ids_of in Hids. cbn [fst snd] in Hids. now inversion Hids.
Qed.

Lemma successful_decode_block_ids_witness :
  temp_block_id (resp sample_state)
  = match last_value_block fake_occ_rsp "TEMP"
            (Z.to_nat (byte_val (byte_at fake_occ_rsp 43))) 0 45 with
    | Some j => j
    | None => temp_block_id (resp (init_state []))
    end
  /\ freq_block_id (resp sample_state)
     = match last_value_block fake_occ_rsp "FREQ"
               (Z.to_nat (byte_val (byte_at fake_occ_rsp 43))) 0 45 with
       | Some j => j
       | None => freq_block_id (resp (init_state []))
       end.
Proof.
  apply (successful_decode_block_ids false fake_occ_rsp (init_state []) sample_state).
  vm_compute. reflexivity.
Defined.

(** ** Frames that are decoded *)

Lemma heap_alloc_available (h h' : kheap) (r : option nat) :
  forallb (fun ok => ok) (kzalloc_plan h) = true ->
  heap_alloc h = (r, h') ->
  r <> None /\ forallb (fun ok => ok) (kzalloc_plan h') = true.
Proof.
  unfold heap_alloc. destruct (kzalloc_plan h) as [|[|] pl]; cbn; intros Hp H;
    try discriminate; inversion H; subst; cbn [kzalloc_plan];
    (split; [discriminate | assumption]).
Qed.

Lemma memory_available_block (cs : bool) (d : list byte) (b dnum : Z) (st : kstate) :
  block_of (resp st) b = Some zero_block -> memory_available st ->
  wpx (fun _ => True) (parse_block cs d b dnum) (fun _ s => memory_available s) st.
Proof.
  apply (keep_parse_block memory_available (fun _ _ => True)); auto.
  - intros b0 s k k' _ _ H. unfold memory_available. now rewrite heap_put_block.
  - intros s r h' Ha H. unfold memory_available. cbn [heap].
    eapply heap_alloc_available; eauto.
Qed.

(** One pass of the loop body on a fresh block that lies inside the
    frame and is no POWR block with records goes on to the next block
    when memory is available. *)
Lemma parse_block_next (cs : bool) (d : list byte) (b dnum : Z) (st : kstate) :
  block_of (resp st) b = Some zero_block ->
  0 <= dnum -> block_within d dnum = true ->
  power_block_with_records d dnum = false ->
  memory_available st ->
  wpx (fun _ => False) (parse_block cs d b dnum)
    (fun c _ => c = Next (next_cursor d dnum)) st.
Proof.
  intros Hb H0 Hin Hnp Hmem. unfold block_within in Hin.
  apply andb_true_iff in Hin as [Hhead Hbody]. apply Z.leb_le in Hhead.
  pose proof (byte_val_range (byte_at d (dnum + 7))) as Hc.
  pose proof (byte_val_range (byte_at d (dnum + 6))) as Hs.
  fold (desc_count d dnum) in Hc. fold (desc_stride d dnum) in Hs.
  unfold parse_block. apply wpx_bind.
  refine (wpx_eq _ _ _ _ _ _ (read_block_head_ok cs d b dnum st _ Hb H0 Hhead) _).
  assert (block_of (resp (put_block b (head_block d dnum zero_block) st)) b
          = Some (head_block d dnum zero_block)) as Hb1
    by (eapply block_of_put_block_same; exact Hb).
  unfold next_cursor. unfold walks_records, power_block_with_records in *.
  unfold record_size in Hbody.
  destruct (desc_count d dnum =? 0) eqn:Ec.
  { refine (wpx_eq _ _ _ _ _ _ (dispatch_empty cs d b _ _ _ Hb1 _) _); [|reflexivity].
    cbn [num_of_sensors head_block with_descriptor]. lia. }
  destruct (desc_stride d dnum =? 0) eqn:Es.
  { refine (wpx_eq _ _ _ _ _ _ (dispatch_empty cs d b _ _ _ Hb1 _) _); [|reflexivity].
    cbn [sensor_length head_block with_descriptor]. lia. }
  cbn [negb andb] in *. rewrite Hnp, orb_false_r in *.
  assert (0 <= (desc_count d dnum - 1) * desc_stride d dnum) as Hnn by nia.
  destruct (tag_is d dnum "FREQ" || tag_is d dnum "TEMP") eqn:Ev.
  - apply Z.leb_le in Hbody. eapply wpx_weaken.
    + apply (dispatch_value (fun _ => False) cs d b (dnum + 8) _
               (head_block d dnum zero_block));
        [exact Hb1 | | | | lia | ];
        cbn [num_of_sensors sensor_length head_block with_descriptor]; try lia.
      rewrite !head_block_tag; auto; try lia. now apply orb_true_iff.
    + cbn beta. cbn [num_of_sensors sensor_length head_block with_descriptor].
      intros [dnum'|r] st'.
      * intros [Hcur _]. f_equal. lia.
      * intros (_ & h' & Ha). rewrite heap_put_block in Ha.
        destruct (heap_alloc_available _ _ _ Hmem Ha) as [Hne _]. now elim Hne.
  - apply orb_false_iff in Ev as [EF ET].
    refine (wpx_eq _ _ _ _ _ _ (dispatch_other cs d b _ _ _ Hb1 _ _ _ _ _) _);
      cbn [num_of_sensors sensor_length head_block with_descriptor]; try lia;
      try (rewrite head_block_tag; auto; lia).
    reflexivity.
Qed.

Lemma parse_blocks_total (cs : bool) (d : list byte) (id : nat) (n : Z) (fuel : nat) :
  forall (b dnum : Z) (st : kstate),
    blocks_inv id n b st -> 0 <= b -> b + Z.of_nat fuel <= n -> 0 <= dnum ->
    blocks_within d fuel dnum = true ->
    no_power_records d fuel dnum = true ->
    memory_available st ->
    wpx (fun _ => False) (parse_blocks cs d fuel b dnum) (fun r _ => r = 0) st.
Proof.
  induction fuel as [|fuel IH]; intros b dnum st Hinv Hb Hle H0 Hin Hnp Hmem.
  - apply wpx_ret. reflexivity.
  - cbn [blocks_within] in Hin. apply andb_true_iff in Hin as [Hin1 Hin2].
    cbn [no_power_records] in Hnp. apply andb_true_iff in Hnp as [Hnp1 Hnp2].
    apply negb_true_iff in Hnp1.
    assert (block_of (resp st) b = Some zero_block) as Hzero
      by (eapply blocks_inv_block; eauto; lia).
    cbn [parse_blocks]. apply wpx_bind.
    eapply wpx_weaken; [eapply wpx_faults|].
    + apply wpx_both; [apply wpx_both|].
      * apply (parse_block_next cs d b dnum st); auto.
      * apply (parse_block_keeps cs d id n b dnum st Hb Hinv).
      * apply (memory_available_block cs d b dnum st); auto.
    + cbn beta. intros e [[[] _] _].
    + cbn beta. intros c st1 [[-> [Hinv1 _]] Hmem1].
      apply IH; auto; try lia.
      pose proof (byte_val_range (byte_at d (dnum + 7))) as Hc.
      pose proof (byte_val_range (byte_at d (dnum + 6))) as Hs.
      unfold next_cursor, desc_count, desc_stride.
      destruct (walks_records d dnum); nia.
Qed.

(** X9.  Every frame that holds the header with the marker and a non-zero
    block count, and all the blocks that the decoder walks, none of them
    a POWR block with records, is decoded with return value 0 when no
    allocation fails. *)
Theorem well_formed_frame_decodes (cs : bool) (d : list byte) (st : kstate) :
  frame_within d = true ->
  bytes_eqb (window d 37 6) (list_byte_of_string "SENSOR") = true ->
  byte_val (byte_at d 43) <> 0 ->
  no_power_records d (Z.to_nat (byte_val (byte_at d 43))) 45 = true ->
  memory_available st ->
  exists st', parse_occ_response cs d st = Ok (0, st').
Proof.
  intros Hin Hm Hnz Hnp Hmem. unfold frame_within in Hin. rewrite Hm in Hin.
  apply andb_true_iff in Hin as [Hlen Hin]. apply Z.leb_le in Hlen.
  enough (wpx (fun _ => False) (parse_occ_response cs d) (fun r _ => r = 0) st) as H.
  { unfold wpx in H. destruct (parse_occ_response cs d st) as [[r st']|e]; [|elim H].
    subst r. now exists st'. }
  destruct (parse_header_ok cs d st Hlen) as (o' & Hok & Heye & Hn & _).
  unfold parse_occ_response. apply wpx_bind.
  refine (wpx_eq _ _ _ _ _ _ Hok _).
  apply wpx_bind, wpx_get_resp. cbn [resp].
  rewrite Heye, marker_test, Hm by (apply window_length; lia). cbn [negb].
  destruct (num_of_sensor_blocks (data o') =? 0) eqn:En; [lia|].
  pose proof (byte_val_range (byte_at d 43)) as Hc. rewrite <- Hn in Hc, Hin, Hnp.
  apply wpx_bind, wpx_kzalloc.
  - intros i h' Ha. apply wpx_bind, wpx_get_resp. apply wpx_bind, wpx_put_resp.
    apply wpx_bind, wpx_get_resp. apply wpx_bind, wpx_printk.
    cbn [resp num_of_sensor_blocks data with_data with_blocks].
    apply (parse_blocks_total cs d i (num_of_sensor_blocks (data o'))); try lia.
    + apply (blocks_inv_fresh o' i h'). lia.
    + exact Hin.
    + exact Hnp.
    + unfold memory_available. cbn [heap] in *.
      eapply heap_alloc_available; eauto.
  - intros h' Ha. cbn [heap] in Ha.
    destruct (heap_alloc_available _ _ _ Hmem Ha) as [Hne _]. now elim Hne.
Qed.

Lemma well_formed_frame_decodes_witness :
  exists st', parse_occ_response false sandwich_frame (init_state [true; true]) = Ok (0, st').
Proof.
  apply (well_formed_frame_decodes false sandwich_frame (init_state [true; true]));
    vm_compute; try reflexivity. discriminate.
Defined.

(** ** The declared length where plain char is signed *)

Lemma lor_sign_extended (x z : Z) :
  -128 <= z < 0 -> Z.lor (u16 (Z.shiftl x 8)) z = z.
Proof.
  intros Hz. apply Z.bits_inj'. intros n Hn. rewrite Z.lor_spec.
  destruct (Z.lt_ge_cases n 8) as [Hlt|Hge].
  - unfold u16. change 65536 with (2 ^ 16).
    rewrite Z.mod_pow2_bits_low by lia.
    rewrite Z.shiftl_spec_low by lia. reflexivity.
  - rewrite (Z.bits_above_log2_neg z n); [apply orb_true_r | lia |].
    assert (Z.log2 (Z.pred (- z)) <= Z.log2 127) as Hlog
      by (apply Z.log2_le_mono; lia).
    change (Z.log2 127) with 6 in Hlog. lia.
Qed.

(** X10.  Where plain [char] is signed, a frame whose byte 4 is 0x80 or more
    has its declared length computed as 0xff00 + byte 4, whatever byte 3
    is: the sign extension of byte 4 covers the high byte.  [occ_get_all]
    turns every such frame down with -1 before the decoder is entered;
    the response and the heap are as before. *)
Theorem signed_char_length_rejected (d : list byte) (st : kstate) :
  5 <= len d -> 128 <= byte_val (byte_at d 4) ->
  get_occdata_length true d st = Ok (65280 + byte_val (byte_at d 4), st)
  /\ occ_get_all_from true d st
     = Ok (-1, with_log (klog st ++ [msg_using_fake;
                                     msg_data_length (65280 + byte_val (byte_at d 4));
                                     msg_length_too_big]) st).
Proof.
  intros Hlen Hhigh. pose proof (byte_val_range (byte_at d 4)) as Hr.
  assert (forall st0, get_occdata_length true d st0
                      = Ok (65280 + byte_val (byte_at d 4), st0)) as Hget.
  { intros st0. unfold get_occdata_length. do 2 step_rd.
    assert (char_to_int true (byte_at d 4) = byte_val (byte_at d 4) - 256) as ->.
    { unfold char_to_int. cbn [andb].
      replace (128 <=? byte_val (byte_at d 4)) with true
        by (symmetry; apply Z.leb_le; lia).
      reflexivity. }
    rewrite lor_sign_extended by lia. unfold ret, u16. do 2 f_equal.
    replace (byte_val (byte_at d 4) - 256)
      with (65280 + byte_val (byte_at d 4) + (-1) * 65536) by lia.
    rewrite Z.mod_add by lia. apply Z.mod_small. lia. }
  split; [apply Hget|].
  unfold occ_get_all_from.
  unfold bind at 1. unfold printk at 1. cbv beta iota.
  rewrite (bind_Ok _ _ _ _ _ (Hget _)).
  unfold bind at 1. unfold printk at 1. cbv beta iota.
  destruct (65280 + byte_val (byte_at d 4) >? OCC_DATA_MAX) eqn:E;
    [|unfold OCC_DATA_MAX in E; lia].
  unfold bind, printk, ret, with_log. cbn [resp heap klog].
  rewrite <- !app_assoc. reflexivity.
Qed.

Lemma signed_char_length_rejected_witness :
  get_occdata_length true fake_occ_rsp (init_state []) = Ok (65444, init_state [])
  /\ occ_get_all_from true fake_occ_rsp (init_state [])
     = Ok (-1, with_log [msg_using_fake; msg_data_length 65444; msg_length_too_big]
                 (init_state [])).
Proof.
  apply (signed_char_length_rejected fake_occ_rsp (init_state []));
    vm_compute; discriminate.
Defined.

(** ** Allocations made by a decode *)

(** X11.  A decode that returns 0 has made one allocation for the block array
    and one for each FREQ or TEMP block that declares records at a
    non-zero stride, with consecutive identifiers, and has released
    nothing. *)
Theorem successful_decode_allocations (cs : bool) (d : list byte) (st st' : kstate) :
  parse_occ_response cs d st = Ok (0, st') ->
  allocated (heap st) (heap st')
    (S (count_value_blocks d (Z.to_nat (byte_val (byte_at d 43))) 45)).
Proof.
  intros Hrun. now destruct (decode_run cs d st st' Hrun) as (_ & _ & _ & _ & _ & Hal).
Qed.

Lemma successful_decode_allocations_witness :
  allocated (heap (init_state [])) (heap sample_state)
    (S (count_value_blocks fake_occ_rsp
          (Z.to_nat (byte_val (byte_at fake_occ_rsp 43))) 45)).
Proof.
  apply (successful_decode_allocations false fake_occ_rsp (init_state []) sample_state).
  vm_compute. reflexivity.
Defined.

Lemma remove_length_NoDup (x : nat) (l : list nat) :
  NoDup l -> In x l -> S (length (remove Nat.eq_dec x l)) = length l.
Proof.
  induction 1 as [|y l Hy Hnd IH]; intros Hin; [destruct Hin|].
  cbn [remove]. destruct (Nat.eq_dec x y) as [->|Hne].
  - rewrite notin_remove by exact Hy. reflexivity.
  - cbn [length]. f_equal. apply IH. destruct Hin as [->|Hin]; [now elim Hne | exact Hin].
Qed.

(** X12.  A refresh that returns 0 releases the block array of the response
    that it replaces and nothing else, and allocates a block array and
    the record arrays of the frame: the number of live allocations
    grows, with every refresh, by the number of value blocks of the
    frame. *)
Theorem refresh_leaks_record_arrays (cs : bool) (rsp : list byte) (st : kstate)
        (id : nat) (n : Z) (st' : kstate) :
  blocks_inv id n n st ->
  NoDup (live (heap st)) -> In id (live (heap st)) ->
  occ_update_device_from cs rsp true st = Ok (0, st') ->
  length (live (heap st'))
  = (length (live (heap st))
     + count_value_blocks rsp (Z.to_nat (byte_val (byte_at rsp 43))) 45)%nat.
Proof.
  intros Hinv Hnd Hin Hrun. unfold occ_update_device_from in Hrun.
  unfold bind at 1 in Hrun. rewrite (deinit_ok st id _ _ Hinv) in Hrun.
  unfold occ_get_all_from in Hrun.
  unfold bind at 1 in Hrun. unfold printk at 1 in Hrun. cbv beta iota in Hrun.
  unfold bind at 1 in Hrun.
  destruct (get_occdata_length cs rsp _) as [[v s1]|e] eqn:Hlen; [|discriminate].
  apply get_occdata_length_state in Hlen. subst s1.
  unfold bind at 1 in Hrun. unfold printk at 1 in Hrun. cbv beta iota in Hrun.
  cbn [resp heap klog] in Hrun.
  destruct (v >? OCC_DATA_MAX).
  { cbv [bind printk ret] in Hrun. discriminate. }
  apply decode_run in Hrun. destruct Hrun as (_ & _ & _ & _ & _ & Hl & _).
  cbn [heap] in Hl. rewrite Hl, length_app, length_rev, length_seq.
  unfold heap_free. cbn [live].
  pose proof (remove_length_NoDup id _ Hnd Hin). lia.
Qed.

Lemma refresh_leaks_record_arrays_witness :
  length (live (heap refreshed_state))
  = (length (live (heap sample_state))
     + count_value_blocks fake_occ_rsp
         (Z.to_nat (byte_val (byte_at fake_occ_rsp 43))) 45)%nat.
Proof.
  apply (refresh_leaks_record_arrays false fake_occ_rsp sample_state 0 4 refreshed_state).
  - exact sample_state_blocks.
  - vm_compute. repeat constructor; cbn; intuition discriminate.
  - vm_compute. auto.
  - vm_compute. reflexivity.
Defined.

(** ** Temperature reads after a refresh *)

Lemma failed_decode_no_blocks (cs : bool) (d : list byte) (st : kstate) (r : Z)
      (st' : kstate) :
  parse_occ_response cs d st = Ok (r, st') -> r <> 0 ->
  blocks (data (resp st)) = None -> blocks (data (resp st')) = None.
Proof.
  intros Hrun Hr Hnull.
  destruct (decode_prologue cs d st r st' Hrun) as (Hlen & o' & Hh & Hcases).
  destruct (parse_header_ok cs d st Hlen) as (o1 & Hok & _ & Hn & _ & _ & Hbl & _).
  rewrite Hh in Hok. injection Hok as <-.
  destruct Hcases as [(_ & -> & _) | [(_ & -> & _) | (i & h' & Ha & _ & Hnz & Hloop)]].
  - now rewrite Hbl.
  - reflexivity.
  - pose proof (byte_val_range (byte_at d 43)) as Hc. rewrite <- Hn in Hc.
    match type of Hloop with
    | parse_blocks _ _ ?fuel _ _ ?s1 = _ =>
        pose proof (parse_blocks_outcome cs d i (num_of_sensor_blocks (data o')) fuel
                      0 45 s1 (blocks_inv_fresh o' i h' _ (proj1 Hc)) (Z.le_refl 0))
          as Hout
    end.
    unfold wpx in Hout. rewrite Hloop in Hout.
    destruct Hout as [Hz | (_ & -> & _)]; [contradiction | reflexivity].
Qed.

Lemma failed_refresh_no_blocks (cs : bool) (rsp : list byte) (st : kstate) (id : nat)
      (r : Z) (st' : kstate) :
  resp_consistent id st ->
  occ_update_device_from cs rsp true st = Ok (r, st') -> r <> 0 ->
  blocks (data (resp st')) = None.
Proof.
  intros Hcons Hrun Hr. unfold occ_update_device_from in Hrun.
  unfold bind at 1 in Hrun.
  assert (exists s1, deinit_occ_resp_buf st = Ok (0, s1)
                     /\ blocks (data (resp s1)) = None) as (s1 & Hd & Hnull).
  { destruct Hcons as [Hnull|Hinv].
    - exists st. split; [|exact Hnull].
      unfold deinit_occ_resp_buf. unfold bind, get_resp. now rewrite Hnull.
    - eexists. split; [apply (deinit_ok st id _ _ Hinv) | reflexivity]. }
  rewrite Hd in Hrun. unfold occ_get_all_from in Hrun.
  unfold bind at 1 in Hrun. unfold printk at 1 in Hrun. cbv beta iota in Hrun.
  unfold bind at 1 in Hrun.
  destruct (get_occdata_length cs rsp _) as [[v s2]|e] eqn:Hlen; [|discriminate].
  apply get_occdata_length_state in Hlen. subst s2.
  unfold bind at 1 in Hrun. unfold printk at 1 in Hrun. cbv beta iota in Hrun.
  cbn [resp heap klog] in Hrun.
  destruct (v >? OCC_DATA_MAX).
  - cbv [bind printk ret] in Hrun. injection Hrun as _ <-. exact Hnull.
  - eapply failed_decode_no_blocks; [exact Hrun | exact Hr | exact Hnull].
Qed.

(** X13.  The accessors drop the result of the refresh.  When the refresh
    fails, whichever way, the response holds no block array afterwards,
    and the read of [blocks[temp_block_id]] that follows dereferences a
    NULL pointer, for every attribute index. *)
Theorem lookup_after_failed_refresh (cs : bool) (rsp : list byte) (st : kstate)
        (id : nat) (r : Z) (st' : kstate) (n : Z) :
  resp_consistent id st ->
  occ_update_device_from cs rsp true st = Ok (r, st') -> r <> 0 ->
  show_occ_temp_from cs rsp true n st = Fault NullDeref
  /\ show_occ_temp_label_from cs rsp true n st = Fault NullDeref.
Proof.
  intros Hcons Hrun Hr.
  pose proof (failed_refresh_no_blocks cs rsp st id r st' Hcons Hrun Hr) as Hnull.
  assert (forall s, blocks (data (resp s)) = None -> temp_sensor n s = Fault NullDeref)
    as Hlook.
  { intros s Hs. unfold temp_sensor, bind, get_resp, get_block, bind, get_blocks.
    now rewrite Hs. }
  split.
  - unfold show_occ_temp_from. rewrite (bind_Ok _ _ _ _ _ Hrun).
    unfold bind at 1. unfold get_resp at 1. cbv beta iota.
    unfold bind at 1. unfold printk at 1. cbv beta iota.
    apply bind_Fault. now apply Hlook.
  - unfold show_occ_temp_label_from. rewrite (bind_Ok _ _ _ _ _ Hrun).
    apply bind_Fault. now apply Hlook.
Qed.

Lemma lookup_after_failed_refresh_witness :
  show_occ_temp_from true fake_occ_rsp true 1 (init_state []) = Fault NullDeref
  /\ show_occ_temp_label_from true fake_occ_rsp true 1 (init_state []) = Fault NullDeref.
Proof.
  apply (lookup_after_failed_refresh true fake_occ_rsp (init_state []) 0 (-1)
           (with_log [msg_using_fake; msg_data_length 65444; msg_length_too_big]
              (init_state []))).
  - left. reflexivity.
  - vm_compute. reflexivity.
  - discriminate.
Defined.

Lemma last_value_block_spec (d : list byte) (lit : string) (fuel : nat) :
  forall (b dnum j : Z),
    last_value_block d lit fuel b dnum = Some j ->
    exists i, (i < fuel)%nat /\ j = b + Z.of_nat i
              /\ value_block d (Nat.iter i (next_cursor d) dnum) = true
              /\ tag_is d (Nat.iter i (next_cursor d) dnum) lit = true.
Proof.
  induction fuel as [|fuel IH]; intros b dnum j H; [discriminate|].
  cbn [last_value_block] in H.
  destruct (last_value_block d lit fuel (b + 1) (next_cursor d dnum)) as [j'|] eqn:E.
  - injection H as <-. destruct (IH _ _ _ E) as (i & Hi & Hj & Hv & Ht).
    exists (S i). rewrite Nat.iter_succ_r. repeat split; auto; lia.
  - destruct (value_block d dnum && tag_is d dnum lit) eqn:Ev; [|discriminate].
    injection H as <-. apply andb_true_iff in Ev as [Hv Ht].
    exists 0%nat. cbn [Nat.iter]. repeat split; auto; lia.
Qed.

Lemma zth_map_seq_lookup {A} (f : nat -> A) (m : nat) (s : Z) :
  0 <= s < Z.of_nat m -> zth (map f (seq 0 m)) s = Some (f (Z.to_nat s)).
Proof.
  intros Hs. unfold zth. destruct (s <? 0) eqn:E; [lia|].
  rewrite nth_error_map, nth_error_seq.
  destruct (Nat.ltb_spec (Z.to_nat s) m); [reflexivity | lia].
Qed.

Lemma temp_sensor_ok (n : Z) (st : kstate) (k : sensor_data_block) (x : occ_sensor) :
  block_of (resp st) (temp_block_id (resp st)) = Some k ->
  zth (sensors_of k) (n - 1) = Some x ->
  temp_sensor n st = Ok (x, st).
Proof.
  intros Hk Hx. unfold sensors_of in Hx.
  destruct (sensor k) as [a|] eqn:Hs; [|unfold zth in Hx; destruct (n - 1 <? 0);
                                        [discriminate | now destruct (Z.to_nat (n - 1))]].
  unfold temp_sensor. unfold bind at 1. unfold get_resp at 1. cbv beta iota.
  rewrite (bind_Ok _ _ _ _ _ (get_block_ok _ _ _ Hk)).
  now apply elem_at_ok with a.
Qed.

(** X14.  From the frame to the attribute.  With [char] unsigned, after a
    decode of the frame [d] that returned 0, while no refresh is due,
    the temperature attribute [n] shows the big-endian 16-bit number at
    bytes 2 and 3 of record [n - 1] of the last TEMP block of the frame
    that has records, and the label attribute [n] shows the one at bytes
    0 and 1 of that record. *)
Theorem temperature_read_from_frame (d : list byte) (st st' : kstate) (j n : Z) :
  parse_occ_response false d st = Ok (0, st') ->
  last_value_block d "TEMP" (Z.to_nat (byte_val (byte_at d 43))) 0 45 = Some j ->
  1 <= n <= desc_count d (cursor_of d (Z.to_nat j)) ->
  (exists s,
      show_occ_temp_from false d false n st'
      = Ok (be16 d (cursor_of d (Z.to_nat j) + 8
                    + (n - 1) * desc_stride d (cursor_of d (Z.to_nat j)) + 2), s))
  /\ (exists s,
         show_occ_temp_label_from false d false n st'
         = Ok (be16 d (cursor_of d (Z.to_nat j) + 8
                       + (n - 1) * desc_stride d (cursor_of d (Z.to_nat j))), s)).
Proof.
  intros Hrun Hlast Hn.
  destruct (decode_run false d st st' Hrun) as (_ & _ & _ & Hids & Hblocks & _).
  pose proof (byte_val_range (byte_at d 43)) as Hc.
  rewrite ids_after_blocks_last in Hids by lia. rewrite Hlast in Hids.
  unfold ids_of in Hids. injection Hids as Htemp _.
  destruct (last_value_block_spec _ _ _ _ _ _ Hlast) as (i & Hi & -> & Hv & Ht).
  rewrite Z.add_0_l, Nat2Z.id in *. fold (cursor_of d i) in Hv, Ht.
  destruct (Hblocks i Hi) as (k & Hk & _ & Hrec).
  unfold decoded_records in Hrec. rewrite Hv in Hrec.
  assert (forall s, resp s = resp st' ->
                    temp_sensor n s
                    = Ok (value_record false d
                            (cursor_of d i + 8
                             + (n - 1) * desc_stride d (cursor_of d i)), s))
    as Hlook.
  { intros s Hs. apply temp_sensor_ok with k; [now rewrite Hs, Htemp|].
    rewrite Hrec, zth_map_seq_lookup by lia. now rewrite Z2Nat.id by lia. }
  rewrite value_record_unsigned in Hlook.
  split.
  - unfold show_occ_temp_from, occ_update_device_from.
    cbv [bind ret get_resp printk]. cbn [resp]. rewrite Hlook by reflexivity.
    cbn [value]. eexists. reflexivity.
  - unfold show_occ_temp_label_from, occ_update_device_from.
    cbv [bind ret printk]. rewrite Hlook by reflexivity. cbn [sensor_id].
    eexists. reflexivity.
Qed.

Lemma temperature_read_from_frame_witness :
  (exists s, show_occ_temp_from false one_temp_frame false 1 one_temp_state
             = Ok (be16 one_temp_frame
                     (cursor_of one_temp_frame (Z.to_nat 0) + 8
                      + (1 - 1) * desc_stride one_temp_frame
                                    (cursor_of one_temp_frame (Z.to_nat 0)) + 2), s))
  /\ (exists s, show_occ_temp_label_from false one_temp_frame false 1 one_temp_state
                = Ok (be16 one_temp_frame
                        (cursor_of one_temp_frame (Z.to_nat 0) + 8
                         + (1 - 1) * desc_stride one_temp_frame
                                       (cursor_of one_temp_frame (Z.to_nat 0))), s)).
Proof.
  apply (temperature_read_from_frame one_temp_frame (init_state []) one_temp_state 0 1).
  - vm_compute. reflexivity.
  - vm_compute. reflexivity.
  - vm_compute. split; discriminate.
Defined.

(** ** The sample time *)

Lemma update_not_due (long_bits : Z) (dd : occ_drv_data) (e : Z) :
  0 < long_bits -> valid dd <> 0 ->
  0 <= sample_time dd < 2 ^ (long_bits - 1) ->
  0 <= e <= sample_time dd ->
  update_due long_bits (ulong long_bits (last_updated dd + e)) dd = false.
Proof.
  intros HW Hv HT He. unfold update_due, time_after, ulong.
  assert (2 ^ long_bits = 2 * 2 ^ (long_bits - 1)) as Hpow.
  { replace long_bits with (Z.succ (long_bits - 1)) at 1 by lia.
    apply Z.pow_succ_r. lia. }
  assert (0 < 2 ^ (long_bits - 1)) as Hpos by (apply Z.pow_pos_nonneg; lia).
  rewrite Zminus_mod_idemp_l, Zminus_mod_idemp_r.
  replace (last_updated dd + sample_time dd - (last_updated dd + e))
    with (sample_time dd - e) by lia.
  rewrite Z.mod_small by lia.
  apply orb_false_iff. split; [apply Z.leb_gt; lia | apply Z.eqb_neq; exact Hv].
Qed.

(** X15.  A refresh, whatever it returns, marks the data valid and stamps
    them: for the next [sample_time] jiffies, also across a wrap of the
    jiffies counter, [occ_update_device] returns 0 and touches neither
    the response nor the device data.  The error of a failed refresh is
    returned once and then replaced by 0. *)
Theorem refresh_result_is_cached (long_bits : Z) (cs : bool) (rsp : list byte)
        (now later e later' : Z) (dd dd1 : occ_drv_data) (st st1 : kstate) (r : Z) :
  0 < long_bits ->
  0 <= sample_time dd < 2 ^ (long_bits - 1) ->
  update_due long_bits now dd = true ->
  occ_update_device long_bits cs rsp now later dd st = Ok ((r, dd1), st1) ->
  0 <= e <= sample_time dd ->
  occ_update_device long_bits cs rsp (ulong long_bits (later + e)) later' dd1 st1
  = Ok ((0, dd1), st1).
Proof.
  intros HW HT Hdue Hrun He. unfold occ_update_device in Hrun. rewrite Hdue in Hrun.
  unfold bind in Hrun.
  destruct (occ_update_device_from cs rsp true st) as [[r0 s0]|e0]; [|discriminate].
  cbv [ret] in Hrun. injection Hrun as <- <- <-.
  unfold occ_update_device.
  assert (ulong long_bits (later + e)
          = ulong long_bits
              (last_updated (mk_occ_drv_data 1 (ulong long_bits later) (sample_time dd))
               + e)) as ->.
  { cbn [last_updated]. unfold ulong. now rewrite Zplus_mod_idemp_l. }
  rewrite update_not_due; auto.
  cbn [valid]. discriminate.
Qed.

Lemma refresh_result_is_cached_witness :
  occ_update_device 32 true fake_occ_rsp (ulong 32 (4294967290 + 100)) 0
    (mk_occ_drv_data 1 4294967290 250)
    (with_log [msg_using_fake; msg_data_length 65444; msg_length_too_big] (init_state []))
  = Ok ((0, mk_occ_drv_data 1 4294967290 250),
        with_log [msg_using_fake; msg_data_length 65444; msg_length_too_big]
          (init_state [])).
Proof.
  apply (refresh_result_is_cached 32 true fake_occ_rsp 4294967000 4294967290 100 0
           (mk_occ_drv_data 0 0 250) (mk_occ_drv_data 1 4294967290 250)
           (init_state []) _ (-1)).
  - lia.
  - cbn. lia.
  - vm_compute. reflexivity.
  - vm_compute. reflexivity.
  - cbn. lia.
Defined.

(** ** The i2c transfers *)

Lemma store_byte_inv (data : list byte) (i : Z) (c : byte) (data' : list byte) :
  store_byte data i c = Some data' ->
  0 <= i < len data /\ data' = zset data i c.
Proof.
  unfold store_byte. destruct (0 <=? i) eqn:E1; cbn [andb]; [|discriminate].
  destruct (i <? len data) eqn:E2; [|discriminate].
  intros [= <-]. split; [lia | reflexivity].
Qed.

Lemma store_byte_ok (data : list byte) (i : Z) (c : byte) :
  0 <= i < len data -> store_byte data i c = Some (zset data i c).
Proof.
  intros H. unfold store_byte.
  replace (0 <=? i) with true by (symmetry; apply Z.leb_le; lia).
  replace (i <? len data) with true by (symmetry; apply Z.ltb_lt; lia).
  reflexivity.
Qed.

Lemma reverse_into_ok (offset : Z) (buf : list byte) (n : nat) :
  forall (b : Z) (data : list byte),
    0 <= offset + b -> offset + b + Z.of_nat n <= len data ->
    exists data', reverse_into n b data offset buf = Some data'.
Proof.
  induction n as [|n IH]; intros b data H0 Hfit; cbn [reverse_into].
  - now exists data.
  - rewrite store_byte_ok by lia.
    replace (offset + (b + 1)) with (offset + b + 1) in IH by lia.
    apply IH; unfold len in *; rewrite ?zset_length; lia.
Qed.

Lemma reverse_into_spec (offset : Z) (buf : list byte) (n : nat) :
  forall (b : Z) (data data' : list byte),
    reverse_into n b data offset buf = Some data' ->
    length data' = length data
    /\ (forall j, b <= j < b + Z.of_nat n ->
          zth data' (offset + j) = Some (nth (Z.to_nat (7 - j)) buf x00))
    /\ (forall i, ~ offset + b <= i < offset + b + Z.of_nat n ->
          zth data' i = zth data i).
Proof.
  induction n as [|n IH]; intros b data data' H; cbn [reverse_into] in H.
  - injection H as <-. repeat split; auto. intros j Hj. lia.
  - destruct (store_byte data (offset + b) (nth (Z.to_nat (7 - b)) buf x00))
      as [data1|] eqn:Hs; [|discriminate].
    apply store_byte_inv in Hs as [Hin ->].
    destruct (IH _ _ _ H) as (Hlen & Hwin & Hout).
    rewrite zset_length in Hlen. split; [exact Hlen|]. split.
    + intros j Hj. destruct (Z.eq_dec j b) as [->|Hne].
      * rewrite Hout by lia.
        destruct (zth data (offset + b)) as [y|] eqn:Hy.
        -- eapply zth_zset_same; eauto.
        -- apply zth_bound_None in Hy. unfold len in Hin. lia.
      * apply Hwin. lia.
    + intros i Hi. rewrite Hout by lia. apply zth_zset_other; lia.
Qed.

Lemma occ_i2c_read_buffer (w : i2c_bus) :
  u32 (fst (fst (occ_i2c_read 8 w))) = 8 ->
  exists l rest,
    recv_answers w = (fst (fst (occ_i2c_read 8 w)), l) :: rest
    /\ forall j, 0 <= j < 8 ->
         nth (Z.to_nat j) (snd (fst (occ_i2c_read 8 w))) x00 = nth (Z.to_nat j) l x00.
Proof.
  unfold occ_i2c_read. change (8 >? 8192) with false. cbv iota.
  change (Z.to_nat 8) with 8%nat.
  destruct (recv_answers w) as [|[r l] rest]; cbn [fst snd].
  - discriminate.
  - intros _. exists l, rest. split; [reflexivity|].
    intros j Hj. rewrite nth_firstn.
    replace (Z.to_nat j <? 8)%nat with true by (symmetry; apply Nat.ltb_lt; lia).
    destruct (Nat.lt_ge_cases (Z.to_nat j) (length l)) as [H|H].
    + now rewrite app_nth1.
    + rewrite app_nth2 by lia. rewrite nth_repeat, nth_overflow by lia. reflexivity.
Qed.

(** X16.  The result of [occ_getscomb] is 0, -I2C_READ_ERROR or
    -I2C_WRITE_ERROR; the array keeps its length; on an error it is left
    as it was; on success the eight bytes received are stored in
    reverse order at [data[offset .. offset + 7]] and every other byte
    is as before.  A call whose window lies inside the array makes no
    store outside it. *)
Theorem occ_getscomb_reverses (le : bool) (address : Z) (data : list byte) (offset : Z)
        (w : i2c_bus) :
  (forall ret data' w',
      occ_getscomb le address data offset w = (Some (ret, data'), w') ->
      (ret = 0 \/ ret = - I2C_READ_ERROR \/ ret = - I2C_WRITE_ERROR)
      /\ length data' = length data
      /\ (ret <> 0 -> data' = data)
      /\ (ret = 0 ->
          exists r l rest,
            recv_answers w = (r, l) :: rest
            /\ (forall j, 0 <= j < 8 ->
                  zth data' (offset + j) = Some (nth (Z.to_nat (7 - j)) l x00))
            /\ (forall i, ~ offset <= i < offset + 8 -> zth data' i = zth data i)))
  /\ (0 <= offset -> offset + 8 <= len data ->
      fst (occ_getscomb le address data offset w) <> None).
Proof.
  unfold occ_getscomb.
  destruct (occ_i2c_write (host_bytes le (u32 (Z.shiftl address 1))) 4 w) as [r1 w1] eqn:Hw.
  assert (recv_answers w1 = recv_answers w) as Hrecv.
  { unfold occ_i2c_write in Hw. destruct (send_answers w); injection Hw as _ <-; reflexivity. }
  destruct (u32 r1 =? 4); cbn [negb].
  2:{ split; [|discriminate]. intros ret data' w' [= <- <- _].
      unfold I2C_WRITE_ERROR. repeat split; auto. intros H. discriminate. }
  destruct (occ_i2c_read 8 w1) as [[r2 buf] w2] eqn:Hr.
  destruct (u32 r2 =? 8) eqn:E8; cbn [negb].
  2:{ split; [|discriminate]. intros ret data' w' [= <- <- _].
      unfold I2C_READ_ERROR. repeat split; auto. intros H. discriminate. }
  apply Z.eqb_eq in E8.
  pose proof (occ_i2c_read_buffer w1) as Hb. rewrite Hr in Hb. cbn [fst snd] in Hb.
  destruct (Hb E8) as (l & rest & Hans & Hbuf). clear Hb.
  split.
  - intros ret data' w' H.
    destruct (reverse_into 8 0 data offset buf) as [data1|] eqn:Hrev; [|discriminate].
    injection H as <- <- _.
    destruct (reverse_into_spec offset buf 8 0 data data1 Hrev) as (Hlen & Hwin & Hout).
    split; [now left|]. split; [exact Hlen|]. split; [intros H; now elim H|].
    intros _. exists r2, l, rest. rewrite <- Hrecv. split; [exact Hans|]. split.
    + intros j Hj. rewrite Hwin by lia. f_equal. apply Hbuf. lia.
    + intros i Hi. apply Hout. lia.
  - intros H0 Hfit.
    destruct (reverse_into_ok offset buf 8 0 data ltac:(lia) ltac:(lia)) as [data1 ->].
    discriminate.
Qed.

Lemma occ_getscomb_reverses_witness :
  fst (occ_getscomb true SCOM_OCC_SRAM_DATA fake_occ_rsp 8
         (mk_i2c_bus [4] [(8, [x01; x02; x03; x04; x05; x06; x07; x08])] [])) <> None.
Proof.
  apply (occ_getscomb_reverses true SCOM_OCC_SRAM_DATA fake_occ_rsp 8
           (mk_i2c_bus [4] [(8, [x01; x02; x03; x04; x05; x06; x07; x08])] [])).
  - lia.
  - vm_compute. discriminate.
Defined.

Lemma occ_getscomb_total (le : bool) (address : Z) (data : list byte) (offset : Z)
      (w : i2c_bus) :
  0 <= offset -> offset + 8 <= len data ->
  exists ret data' w',
    occ_getscomb le address data offset w = (Some (ret, data'), w')
    /\ len data' = len data.
Proof.
  intros H0 Hfit. unfold occ_getscomb.
  destruct (occ_i2c_write (host_bytes le (u32 (Z.shiftl address 1))) 4 w) as [r1 w1].
  destruct (u32 r1 =? 4); cbn [negb]; [|now eexists _, _, _].
  destruct (occ_i2c_read 8 w1) as [[r2 buf] w2].
  destruct (u32 r2 =? 8); cbn [negb]; [|now eexists _, _, _].
  destruct (reverse_into_ok offset buf 8 0 data ltac:(lia) ltac:(lia)) as [data1 Hrev].
  rewrite Hrev. eexists _, _, _. split; [reflexivity|].
  unfold len. now destruct (reverse_into_spec offset buf 8 0 data data1 Hrev) as [-> _].
Qed.

(** The read loop of [occ_get_all] stays inside a 4096-byte array
    whenever the declared length has passed the check. *)
Lemma read_words_total (le : bool) (num_bytes : Z) (fuel : nat) :
  forall (q : Z) (data : list byte) (w : i2c_bus),
    num_bytes <= OCC_DATA_MAX -> len data = OCC_DATA_MAX ->
    0 <= q -> 512 <= q + Z.of_nat fuel ->
    exists data' w', read_words le fuel (8 * q) num_bytes data w = (Some data', w').
Proof.
  unfold OCC_DATA_MAX.
  induction fuel as [|fuel IH]; intros q data w Hn Hlen Hq Hfuel.
  - cbn [read_words]. destruct (8 * q <? num_bytes) eqn:E; [lia | now eexists _, _].
  - cbn [read_words]. destruct (8 * q <? num_bytes) eqn:E; [|now eexists _, _].
    apply Z.ltb_lt in E.
    destruct (occ_getscomb_total le SCOM_OCC_SRAM_DATA data (8 * q) w ltac:(lia) ltac:(lia))
      as (ret & data1 & w1 & -> & Hlen1).
    replace (8 * q + 8) with (8 * (q + 1)) by lia.
    apply IH; lia.
Qed.

Lemma get_occdata_length_ok (cs : bool) (d : list byte) :
  5 <= len d -> exists v, forall st, get_occdata_length cs d st = Ok (v, st).
Proof.
  intros Hlen. eexists. intros st. unfold get_occdata_length. do 2 step_rd.
  reflexivity.
Qed.

(** X17.  [occ_get_all] never lets the bus reach the decoder: whatever the
    transfers return and deliver, and whatever the local array holds on
    entry, the function makes no store outside the array, and its
    result and its effect on the driver state are those of the steps on
    the copied frame alone; no transfer error is ever returned. *)
Theorem occ_get_all_ignores_bus (le cs : bool) (rsp occ_data : list byte)
        (w : i2c_bus) (st : kstate) :
  len rsp = OCC_DATA_MAX -> len occ_data = OCC_DATA_MAX ->
  exists w', occ_get_all_io le cs rsp occ_data w st
             = Some (w', occ_get_all_from cs rsp st).
Proof.
  intros Hrsp Hdata. unfold occ_get_all_io, occ_get_all_from.
  destruct (occ_putscom le SCOM_OCC_SRAM_WOX 134217728 0 w) as [r1 w1].
  destruct (occ_putscom le SCOM_OCC_SRAM_WAND 4227858431 4294967295 w1) as [r2 w2].
  destruct (occ_putscom le SCOM_OCC_SRAM_ADDR OCC_RESPONSE_ADDR 0 w2) as [r3 w3].
  destruct (occ_putscom le SCOM_OCC_SRAM_ADDR OCC_RESPONSE_ADDR 0 w3) as [r4 w4].
  unfold OCC_DATA_MAX in Hdata.
  destruct (occ_getscomb_total le SCOM_OCC_SRAM_DATA occ_data 0 w4 ltac:(lia) ltac:(lia))
    as (ret & data1 & w5 & -> & Hlen1).
  destruct (get_occdata_length_ok cs rsp ltac:(unfold OCC_DATA_MAX in Hrsp; lia))
    as [v Hget].
  cbv [bind printk]. rewrite !Hget.
  destruct (v >? OCC_DATA_MAX) eqn:Ev; [now eexists|].
  destruct (read_words_total le v 512 1 rsp w5 ltac:(lia) Hrsp ltac:(lia) ltac:(lia))
    as (data2 & w6 & Hloop).
  change (8 * 1) with 8 in Hloop. rewrite Hloop. now eexists.
Qed.

Lemma occ_get_all_ignores_bus_witness :
  exists w', occ_get_all_io true false fake_occ_rsp fake_occ_rsp
               (mk_i2c_bus [12; 12; -5] [(8, [x01; x02; x03; x04; x05; x06; x07; x08])] [])
               (init_state [])
             = Some (w', occ_get_all_from false fake_occ_rsp (init_state [])).
Proof.
  apply (occ_get_all_ignores_bus true false fake_occ_rsp fake_occ_rsp
           (mk_i2c_bus [12; 12; -5] [(8, [x01; x02; x03; x04; x05; x06; x07; x08])] [])
           (init_state [])); vm_compute; reflexivity.
Defined.

(** ** Records where plain char is signed *)

Lemma be16_signed_char (x y : byte) :
  u16 (Z.lor (u16 (Z.shiftl (char_to_int true x) 8)) (char_to_int true y))
  = if 128 <=? byte_val y then 65280 + byte_val y else 256 * byte_val x + byte_val y.
Proof.
  pose proof (byte_val_range x) as Hx. pose proof (byte_val_range y) as Hy.
  destruct (128 <=? byte_val y) eqn:Ey.
  - apply Z.leb_le in Ey.
    assert (char_to_int true y = byte_val y - 256) as ->.
    { unfold char_to_int. cbn [andb].
      replace (128 <=? byte_val y) with true by (symmetry; apply Z.leb_le; lia).
      reflexivity. }
    rewrite lor_sign_extended by lia. unfold u16.
    replace (byte_val y - 256) with (65280 + byte_val y + (-1) * 65536) by lia.
    rewrite Z.mod_add by lia. apply Z.mod_small. lia.
  - assert (char_to_int true y = byte_val y) as ->.
    { unfold char_to_int. cbn [andb]. now rewrite Ey. }
    assert (u16 (Z.shiftl (char_to_int true x) 8) = Z.shiftl (byte_val x) 8) as ->.
    { unfold u16, char_to_int. cbn [andb]. rewrite !Z.shiftl_mul_pow2 by lia.
      destruct (128 <=? byte_val x).
      - replace ((byte_val x - 256) * 2 ^ 8) with (byte_val x * 2 ^ 8 + (-1) * 65536) by lia.
        rewrite Z.mod_add by lia. apply Z.mod_small. lia.
      - apply Z.mod_small. lia. }
    apply Z.leb_gt in Ey. rewrite lor_shiftl_low by lia.
    unfold u16. rewrite Z.mod_small by lia. lia.
Qed.

Lemma value_record_signed (d : list byte) (off : Z) :
  value_record true d off = mk_occ_sensor (be16_signed d off) (be16_signed d (off + 2)).
Proof.
  unfold value_record, be16_signed, be16. rewrite !be16_signed_char.
  rewrite Z.add_0_r. replace (off + 2 + 1) with (off + 3) by lia. reflexivity.
Qed.

(** X18.  Where plain [char] is signed, the sensor id and the value of a
    record that a decode returning 0 has stored are the big-endian
    numbers of the frame only when their low bytes are below 0x80; a low
    byte of 0x80 or more yields 0xff00 + low byte, and the high byte is
    lost. *)
Theorem signed_char_records (d : list byte) (st st' : kstate) (b s : Z)
        (k : sensor_data_block) (x : occ_sensor) :
  parse_occ_response true d st = Ok (0, st') ->
  0 <= b < byte_val (byte_at d 43) ->
  block_of (resp st') b = Some k ->
  zth (sensors_of k) s = Some x ->
  x = mk_occ_sensor
        (be16_signed d (cursor_of d (Z.to_nat b) + 8
                        + s * desc_stride d (cursor_of d (Z.to_nat b))))
        (be16_signed d (cursor_of d (Z.to_nat b) + 8
                        + s * desc_stride d (cursor_of d (Z.to_nat b)) + 2)).
Proof.
  intros Hrun Hb Hk Hx.
  destruct (decode_run true d st st' Hrun) as (_ & _ & _ & _ & Hblocks & _).
  destruct (Hblocks (Z.to_nat b) ltac:(lia)) as (k' & Hk' & _ & Hrec).
  rewrite Z2Nat.id, Hk in Hk' by lia. injection Hk' as <-.
  rewrite Hrec in Hx. unfold decoded_records in Hx.
  destruct (value_block d (cursor_of d (Z.to_nat b))).
  2:{ unfold zth in Hx. destruct (s <? 0); [discriminate | now destruct (Z.to_nat s)]. }
  pose proof (zth_bound _ _ _ Hx) as Hs. rewrite length_map, length_seq in Hs.
  rewrite zth_map_seq_lookup in Hx by exact Hs. injection Hx as <-.
  rewrite Z2Nat.id by lia. apply value_record_signed.
Qed.

Lemma signed_char_records_witness :
  mk_occ_sensor 65408 0
  = mk_occ_sensor
      (be16_signed fake_occ_rsp
         (cursor_of fake_occ_rsp (Z.to_nat 1) + 8
          + 8 * desc_stride fake_occ_rsp (cursor_of fake_occ_rsp (Z.to_nat 1))))
      (be16_signed fake_occ_rsp
         (cursor_of fake_occ_rsp (Z.to_nat 1) + 8
          + 8 * desc_stride fake_occ_rsp (cursor_of fake_occ_rsp (Z.to_nat 1)) + 2)).
Proof.
  apply (signed_char_records fake_occ_rsp (init_state []) sample_state_signed 1 8
           (match block_of (resp sample_state_signed) 1 with
            | Some k => k
            | None => zero_block
            end)).
  - vm_compute. reflexivity.
  - vm_compute. split; [discriminate | reflexivity].
  - vm_compute. reflexivity.
  - vm_compute. reflexivity.
Defined.

(** ** Empty blocks and the block that follows *)


